(** * Stroke Secure: field validators and stroke-risk predictor

    A shallow embedding of [utils/validation.py] and
    [utils/model_predictor.py], together with the part of the Python
    built-ins ([bool], [int], [float], [str.join], [in]) those two modules
    rely on.

    Conventions of the embedding.
    - A Python [str] is a [string]; a character of type [ascii] stands for the
      code point of the same number (0..255).
    - A Python [int] is a [Z]; the optional interpreter limit on the number of
      digits accepted by [int(str)] is not part of the model.
    - A Python [float] is a binary64 number, [spec_float] at precision 53 and
      maximal exponent 1024; every float built here is in canonical form.
    - A [dict] with string keys is a [gmap string _].
    - A call either returns a value or raises; exceptions are values. *)

From Stdlib Require Import ZArith String Ascii List Bool Lia.
From Stdlib Require Import Floats.SpecFloat.
From stdpp Require Import gmap strings.

Import ListNotations.
Local Open Scope string_scope.
Local Open Scope Z_scope.

(** ** Exceptions and results *)

(** The six built-in classes the program names, none of which derives from
    another of them, and [OtherError name bases]: any other class, with the
    classes it is declared to derive from. Every class of the model derives
    from [Exception]. *)
#[warnings="-register-all"]
Inductive exn_class : Type :=
| FileNotFoundError
| RuntimeError
| TypeError
| ValueError
| OverflowError
| AttributeError
| OtherError (name : string) (bases : list exn_class).

(** [Builtin c] is an exception of class [c] raised by a built-in coercion
    (its message is never read by the program); [Exn c msg cause] is an
    exception object with [str(e) = msg] and [e.__cause__ = cause]. *)
#[warnings="-register-all"]
Inductive exn : Type :=
| Builtin (c : exn_class)
| Exn (c : exn_class) (msg : string) (cause : option exn).

Definition class_of (e : exn) : exn_class :=
  match e with
  | Builtin c => c
  | Exn c _ _ => c
  end.

Definition cause_of (e : exn) : option exn :=
  match e with
  | Builtin _ => None
  | Exn _ _ cause => cause
  end.

(** [a is b]: the same class. *)
Fixpoint exn_class_eqb (a b : exn_class) : bool :=
  match a, b with
  | FileNotFoundError, FileNotFoundError => true
  | RuntimeError, RuntimeError => true
  | TypeError, TypeError => true
  | ValueError, ValueError => true
  | OverflowError, OverflowError => true
  | AttributeError, AttributeError => true
  | OtherError n xs, OtherError m ys =>
      String.eqb n m &&
      (fix same (xs ys : list exn_class) : bool :=
         match xs, ys with
         | [], [] => true
         | x :: xs', y :: ys' => exn_class_eqb x y && same xs' ys'
         | _, _ => false
         end) xs ys
  | _, _ => false
  end.

(** [issubclass(c, k)]: [c] is [k] or one of its bases derives from [k]. *)
Fixpoint issubclass (c k : exn_class) : bool :=
  exn_class_eqb c k ||
  match c with
  | OtherError _ bases => existsb (fun b => issubclass b k) bases
  | _ => false
  end.

Inductive result (A : Type) : Type :=
| Returns (a : A)
| Raises (e : exn).

Arguments Returns {A} a.
Arguments Raises {A} e.

Definition bind {A B : Type} (r : result A) (k : A -> result B) : result B :=
  match r with
  | Returns a => k a
  | Raises e => Raises e
  end.

Notation "'let!' x ':=' r 'in' k" := (bind r (fun x => k))
  (at level 10, x name, r at level 200, k at level 200).

(** [str(e)]; the message of a [Builtin] exception is not modelled. *)
Definition str_of (e : exn) : string :=
  match e with
  | Builtin _ => ""
  | Exn _ msg _ => msg
  end.

(** The [except] clauses of the program: a tuple of classes, each of which
    catches its subclasses too, or [Exception], which catches every class
    above. *)
Definition isinstance (classes : list exn_class) (e : exn) : bool :=
  existsb (issubclass (class_of e)) classes.

Definition any_exception (e : exn) : bool := true.

(** [try: body except <catches> as e: handler]. *)
Definition try_except {A : Type} (body : result A) (catches : exn -> bool)
    (handler : exn -> result A) : result A :=
  match body with
  | Returns a => Returns a
  | Raises e => if catches e then handler e else Raises e
  end.

(** ** Python values and built-in coercions *)

Module Py.

Definition prec : Z := 53.
Definition emax : Z := 1024.

Inductive value : Type :=
| PNone
| PBool (b : bool)
| PInt (z : Z)
| PFloat (f : spec_float)
| PStr (s : string).

(** Floats from integers and decimal literals, rounded to nearest even. *)
Definition float_of_Z (z : Z) : spec_float := binary_normalize prec emax z 0 false.

Definition float_of_decimal (neg : bool) (m e10 : Z) : spec_float :=
  if m <=? 0 then S754_zero neg
  else if 0 <=? e10 then binary_round prec emax neg (Z.to_pos (m * 10 ^ e10)) 0
  else
    let '(q, e', l) := SFdiv_core_binary prec emax m 0 (10 ^ (- e10)) 0 in
    binary_round_aux prec emax neg q e' l.

Definition float_lt (x y : spec_float) : bool := SFltb x y.
Definition float_gt (x y : spec_float) : bool := SFltb y x.
Definition float_ge (x y : spec_float) : bool := SFleb y x.

(** [bool(v)]: the truth value used by [if not v]. *)
Definition truthy (v : value) : bool :=
  match v with
  | PNone => false
  | PBool b => b
  | PInt z => negb (z =? 0)
  | PFloat (S754_zero _) => false
  | PFloat _ => true
  | PStr s => negb (String.eqb s "")
  end.

(** Characters. *)
Definition code (c : ascii) : Z := Z.of_N (N_of_ascii c).

Definition is_space (c : ascii) : bool :=
  let n := code c in
  ((9 <=? n) && (n <=? 13)) || (n =? 32) || (n =? 133) || (n =? 160).

Definition digit_of (c : ascii) : option Z :=
  let n := code c in
  if (48 <=? n) && (n <=? 57) then Some (n - 48) else None.

Definition lower (c : ascii) : ascii :=
  let n := code c in
  if (65 <=? n) && (n <=? 90) then ascii_of_N (Z.to_N (n + 32)) else c.

Fixpoint lstrip (s : string) : string :=
  match s with
  | EmptyString => EmptyString
  | String c s' => if is_space c then lstrip s' else s
  end.

Fixpoint rstrip (s : string) : string :=
  match s with
  | EmptyString => EmptyString
  | String c s' =>
      match rstrip s' with
      | EmptyString => if is_space c then EmptyString else String c EmptyString
      | t => String c t
      end
  end.

Definition strip (s : string) : string := rstrip (lstrip s).

Fixpoint lowercase (s : string) : string :=
  match s with
  | EmptyString => EmptyString
  | String c s' => String (lower c) (lowercase s')
  end.

(** [digits_tail acc n s]: after a digit, read the longest run of
    [("_"? digit)*]; returns the accumulated value, the number of digits read
    and the unread rest. *)
Fixpoint digits_tail (acc : Z) (n : Z) (s : string) : Z * Z * string :=
  match s with
  | String c s' =>
      match digit_of c with
      | Some d => digits_tail (10 * acc + d) (n + 1) s'
      | None =>
          if Ascii.eqb c "_" then
            match s' with
            | String c' s'' =>
                match digit_of c' with
                | Some d => digits_tail (10 * acc + d) (n + 1) s''
                | None => (acc, n, s)
                end
            | EmptyString => (acc, n, s)
            end
          else (acc, n, s)
      end
  | EmptyString => (acc, n, s)
  end.

(** [digitpart acc s]: [digit ("_"? digit)*] continuing the number [acc]. *)
Definition digitpart (acc : Z) (s : string) : option (Z * Z * string) :=
  match s with
  | String c s' =>
      match digit_of c with
      | Some d => Some (digits_tail (10 * acc + d) 1 s')
      | None => None
      end
  | EmptyString => None
  end.

Definition sign (s : string) : bool * string :=
  match s with
  | String c s' =>
      if Ascii.eqb c "-" then (true, s')
      else if Ascii.eqb c "+" then (false, s')
      else (false, s)
  | EmptyString => (false, s)
  end.

(** [int(s)] for a string, base 10: surrounding white space, an optional
    sign, digits with single underscores between them. *)
Definition int_of_string (s : string) : option Z :=
  let '(neg, body) := sign (strip s) in
  match digitpart 0 body with
  | Some (z, _, EmptyString) => Some (if neg then - z else z)
  | _ => None
  end.

(** The exponent part [("e"|"E") sign? digitpart] up to the end. *)
Definition exponent (s : string) : option Z :=
  match s with
  | EmptyString => Some 0
  | String c s' =>
      if Ascii.eqb (lower c) "e" then
        let '(neg, ds) := sign s' in
        match digitpart 0 ds with
        | Some (z, _, EmptyString) => Some (if neg then - z else z)
        | _ => None
        end
      else None
  end.

(** The mantissa [digitpart ("." digitpart?)? | "." digitpart]: its digits as
    an integer, the number of digits after the point, and the rest. *)
Definition mantissa (s : string) : option (Z * Z * string) :=
  match digitpart 0 s with
  | Some (m, _, String c r) =>
      if Ascii.eqb c "." then
        match digitpart m r with
        | Some (m', k, r') => Some (m', k, r')
        | None => Some (m, 0, r)
        end
      else Some (m, 0, String c r)
  | Some (m, _, EmptyString) => Some (m, 0, EmptyString)
  | None =>
      match s with
      | String c r => if Ascii.eqb c "." then
                        match digitpart 0 r with
                        | Some (m', k, r') => Some (m', k, r')
                        | None => None
                        end
                      else None
      | EmptyString => None
      end
  end.

(** [float(s)] for a string. *)
Definition float_of_string (s : string) : option spec_float :=
  let '(neg, body) := sign (strip s) in
  let word := lowercase body in
  if String.eqb word "inf" || String.eqb word "infinity" then Some (S754_infinity neg)
  else if String.eqb word "nan" then Some S754_nan
  else
    match mantissa body with
    | Some (m, k, r) =>
        match exponent r with
        | Some e => Some (float_of_decimal neg m (e - k))
        | None => None
        end
    | None => None
    end.

(** Truncation of a finite float toward zero. *)
Definition trunc (f : spec_float) : Z :=
  match f with
  | S754_finite s m e =>
      let a := if 0 <=? e then Z.pos m * 2 ^ e else Z.pos m / 2 ^ (- e) in
      if s then - a else a
  | _ => 0
  end.

(** [int(v)]. *)
Definition int (v : value) : result Z :=
  match v with
  | PNone => Raises (Builtin TypeError)
  | PBool b => Returns (if b then 1 else 0)
  | PInt z => Returns z
  | PFloat S754_nan => Raises (Builtin ValueError)
  | PFloat (S754_infinity _) => Raises (Builtin OverflowError)
  | PFloat f => Returns (trunc f)
  | PStr s =>
      match int_of_string s with
      | Some z => Returns z
      | None => Raises (Builtin ValueError)
      end
  end.

(** [float(v)]. *)
Definition float (v : value) : result spec_float :=
  match v with
  | PNone => Raises (Builtin TypeError)
  | PBool b => Returns (float_of_Z (if b then 1 else 0))
  | PInt z =>
      match float_of_Z z with
      | S754_infinity _ => Raises (Builtin OverflowError)
      | f => Returns f
      end
  | PFloat f => Returns f
  | PStr s =>
      match float_of_string s with
      | Some f => Returns f
      | None => Raises (Builtin ValueError)
      end
  end.

(** A float literal of the source text, such as [0.75]. *)
Definition float_literal (s : string) : spec_float :=
  match float_of_string s with
  | Some x => x
  | None => S754_nan
  end.

(** [sep.join(l)]. *)
Fixpoint join (sep : string) (l : list string) : string :=
  match l with
  | [] => ""
  | [x] => x
  | x :: rest => x +:+ sep +:+ join sep rest
  end.

(** [v in l] for a list [l] of strings: equality of a string with a value of
    another type is false. *)
Definition in_strings (v : value) (l : list string) : bool :=
  match v with
  | PStr s => existsb (String.eqb s) l
  | _ => false
  end.

(** [needle in hay] for two strings. *)
Fixpoint starts_with (p s : string) : bool :=
  match p, s with
  | EmptyString, _ => true
  | String a p', String b s' => Ascii.eqb a b && starts_with p' s'
  | String _ _, EmptyString => false
  end.

Fixpoint contains (needle hay : string) : bool :=
  starts_with needle hay ||
  match hay with
  | EmptyString => false
  | String _ hay' => contains needle hay'
  end.

End Py.

(** ** utils/validation.py *)

Module Validation.
Import Py.

Definition validate_patient_age (age : value) : result (bool * string * option Z) :=
  if negb (truthy age) then Returns (false, "Age is required", None)
  else
    match int age with
    | Raises e =>
        if isinstance [ValueError; TypeError] e
        then Returns (false, "Age must be a valid number", None)
        else Raises e
    | Returns age_int =>
        if age_int <? 0 then Returns (false, "Age cannot be negative", None)
        else if age_int >? 150 then
          Returns (false, "Age must be a reasonable value (less than 150)", None)
        else Returns (true, "", Some age_int)
    end.

Definition valid_genders : list string := ["Male"; "Female"; "Other"].

Definition validate_gender (gender : value) : bool * string :=
  if negb (in_strings gender valid_genders)
  then (false, "Gender must be one of: " +:+ join ", " valid_genders)
  else (true, "").

Definition is_none_or_empty (v : value) : bool :=
  match v with
  | PNone => true
  | PStr s => String.eqb s ""
  | _ => false
  end.

Definition validate_hypertension (hypertension : value)
    : result (bool * string * option Z) :=
  if is_none_or_empty hypertension
  then Returns (false, "Hypertension value is required", None)
  else
    try_except
      (let! value_int := int hypertension in
       if negb ((value_int =? 0) || (value_int =? 1))
       then Returns (false, "Hypertension must be 0 (No) or 1 (Yes)", None)
       else Returns (true, "", Some value_int))
      (isinstance [ValueError; TypeError])
      (fun _ => Returns (false, "Hypertension must be 0 (No) or 1 (Yes)", None)).

Definition valid_values : list string := ["No"; "Yes"].

Definition validate_ever_married (ever_married : value) : bool * string :=
  if negb (in_strings ever_married valid_values)
  then (false, "Ever married must be one of: " +:+ join ", " valid_values)
  else (true, "").

Definition valid_work_types : list string :=
  ["Children"; "Govt_job"; "Never_worked"; "Private"; "Self-employed"].

Definition validate_work_type (work_type : value) : bool * string :=
  if negb (in_strings work_type valid_work_types)
  then (false, "Work type must be one of: " +:+ join ", " valid_work_types)
  else (true, "").

Definition valid_residence_types : list string := ["Rural"; "Urban"].

Definition validate_residence_type (residence_type : value) : bool * string :=
  if negb (in_strings residence_type valid_residence_types)
  then (false, "Residence type must be one of: " +:+ join ", " valid_residence_types)
  else (true, "").

Definition validate_avg_glucose_level (glucose_level : value)
    : result (bool * string * option spec_float) :=
  if negb (truthy glucose_level)
  then Returns (false, "Average glucose level is required", None)
  else
    try_except
      (let! value_float := float glucose_level in
       if float_lt value_float (float_of_Z 0)
       then Returns (false, "Glucose level cannot be negative", None)
       else if float_gt value_float (float_of_Z 500)
       then Returns (false, "Glucose level must be a reasonable value (less than 500)", None)
       else Returns (true, "", Some value_float))
      (isinstance [ValueError; TypeError])
      (fun _ => Returns (false, "Glucose level must be a valid number", None)).

Definition validate_bmi (bmi : value) : result (bool * string * option spec_float) :=
  if negb (truthy bmi)
  then Returns (false, "BMI is required", None)
  else
    try_except
      (let! value_float := float bmi in
       if float_lt value_float (float_of_Z 0)
       then Returns (false, "BMI cannot be negative", None)
       else if float_gt value_float (float_of_Z 100)
       then Returns (false, "BMI must be a reasonable value (less than 100)", None)
       else Returns (true, "", Some value_float))
      (isinstance [ValueError; TypeError])
      (fun _ => Returns (false, "BMI must be a valid number", None)).

Definition valid_statuses : list string :=
  ["Formerly smoked"; "Never smoked"; "Smokes"; "Unknown"].

Definition validate_smoking_status (smoking_status : value) : bool * string :=
  if negb (in_strings smoking_status valid_statuses)
  then (false, "Smoking status must be one of: " +:+ join ", " valid_statuses)
  else (true, "").

End Validation.

(** ** utils/model_predictor.py *)

Module Predictor.
Import Py.

(** The single row of the data frame handed to the pipeline: its columns in
    order, each with the value of the row. *)
Definition frame : Type := list (string * value).

(** The persisted pipeline is opaque: all the program uses of it is the
    probability of the positive class for one row, or the exception the call
    raises. *)
Record pipeline : Type := { predict_proba : frame -> result spec_float }.

(** What [joblib.load] finds at a path: nothing, a file it cannot read, a
    file that holds an object ([Artifact]; an object without
    [predict_proba] is a pipeline whose call raises [AttributeError]), or a
    file that holds [None]. *)
Inductive file : Type :=
| Missing
| Unreadable (c : exn_class) (msg : string) (cause : option exn)
| Artifact (m : pipeline)
| PickledNone.

Definition storage : Type := string -> file.

Definition exists_ (fs : storage) (path : string) : bool :=
  match fs path with
  | Missing => false
  | _ => true
  end.

(** [joblib.load(path)]. Opening a missing file fails in the operating
    system; [load_model] calls this only after [exists()] held. *)
Definition joblib_load (fs : storage) (path : string) : result (option pipeline) :=
  match fs path with
  | Missing =>
      Raises (Exn FileNotFoundError
                ("[Errno 2] No such file or directory: '" +:+ path +:+ "'") None)
  | Unreadable c msg cause => Raises (Exn c msg cause)
  | Artifact m => Returns (Some m)
  | PickledNone => Returns None
  end.

Definition MODEL_PATH : string := "modeltraining/stroke_model.pkl".
Definition PREDICTION_THRESHOLD : spec_float :=
  Eval vm_compute in float_literal "0.75".

(** [model_path] is the text of the path, as [str(self.model_path)] gives
    it; [model] is [None] until an object other than [None] is stored. *)
Record StrokePredictor : Type := {
  model_path : string;
  threshold : spec_float;
  model : option pipeline
}.

Definition init (path : string) (thr : spec_float) : StrokePredictor :=
  {| model_path := path; threshold := thr; model := None |}.

(** [self.model = m], where [m] is what [joblib.load] returned. *)
Definition set_model (self : StrokePredictor) (m : option pipeline) : StrokePredictor :=
  {| model_path := model_path self; threshold := threshold self; model := m |}.

Definition not_found_error (self : StrokePredictor) : exn :=
  Exn FileNotFoundError
    ("Model file not found at " +:+ model_path self +:+ ". " +:+
     "Please export stroke_model.pkl from the training notebook into modeltraining/.")
    None.

(** [raise FileNotFoundError(f"Error loading model: {exc}") from exc]. *)
Definition load_error (exc : exn) : exn :=
  Exn FileNotFoundError ("Error loading model: " +:+ str_of exc) (Some exc).

(** Methods take [self] and give back [self] as the call leaves it. *)
Definition load_model (fs : storage) (self : StrokePredictor)
    : StrokePredictor * result unit :=
  match model self with
  | Some _ => (self, Returns tt)
  | None =>
      if negb (exists_ fs (model_path self)) then (self, Raises (not_found_error self))
      else
        match joblib_load fs (model_path self) with
        | Returns m => (set_model self m, Returns tt)
        | Raises exc =>
            if any_exception exc then (self, Raises (load_error exc))
            else (self, Raises exc)
        end
  end.

Definition _as_float (v : value) (default : spec_float) : result spec_float :=
  try_except (float v) (isinstance [TypeError; ValueError]) (fun _ => Returns default).

Definition _as_int (v : value) (default : Z) : result Z :=
  try_except (int v) (isinstance [TypeError; ValueError]) (fun _ => Returns default).

(** [patient_data.get(key)]. *)
Definition get (patient_data : gmap string value) (key : string) : value :=
  match patient_data !! key with
  | Some v => v
  | None => PNone
  end.

Definition prepare_features (patient_data : gmap string value) : result frame :=
  let gender := get patient_data "gender" in
  let! age := _as_float (get patient_data "age") (S754_zero false) in
  let! hypertension := _as_int (get patient_data "hypertension") 0 in
  let ever_married := get patient_data "ever_married" in
  let work_type := get patient_data "work_type" in
  let residence := get patient_data "residence_type" in
  let! avg_glucose_level :=
    _as_float (get patient_data "avg_glucose_level") (S754_zero false) in
  let! bmi := _as_float (get patient_data "bmi") (S754_zero false) in
  let smoking_status := get patient_data "smoking_status" in
  Returns [ ("gender", gender);
            ("age", PFloat age);
            ("hypertension", PInt hypertension);
            ("ever_married", ever_married);
            ("work_type", work_type);
            ("Residence_type", residence);
            ("avg_glucose_level", PFloat avg_glucose_level);
            ("bmi", PFloat bmi);
            ("smoking_status", smoking_status) ].

(** [self.model.predict_proba(features)]: on [None] the attribute lookup
    raises [AttributeError]. *)
Definition call_predict_proba (self : StrokePredictor) (features : frame)
    : result spec_float :=
  match model self with
  | Some m => predict_proba m features
  | None => Raises (Builtin AttributeError)
  end.

(** The body of [predict] after [self.load_model()]. *)
Definition infer (self : StrokePredictor) (patient_data : gmap string value)
    : result (Z * spec_float) :=
  let! features := prepare_features patient_data in
  let! probability :=
    try_except (call_predict_proba self features)
      (isinstance [AttributeError])
      (fun exc => Raises (Exn RuntimeError
                            "Loaded model does not expose predict_proba" (Some exc))) in
  let prediction := if float_ge probability (threshold self) then 1 else 0 in
  Returns (prediction, probability).

Definition predict (fs : storage) (self : StrokePredictor)
    (patient_data : gmap string value)
    : StrokePredictor * result (Z * spec_float) :=
  match load_model fs self with
  | (self', Raises e) => (self', Raises e)
  | (self', Returns _) => (self', infer self' patient_data)
  end.

(** The module-level [_predictor] and [get_predictor]: the global after the
    call, and the instance returned. *)
Definition get_predictor (_predictor : option StrokePredictor)
    : option StrokePredictor * StrokePredictor :=
  match _predictor with
  | None =>
      let p := init MODEL_PATH PREDICTION_THRESHOLD in (Some p, p)
  | Some p => (Some p, p)
  end.

(** Column lookup in a row. *)
Fixpoint column (key : string) (row : frame) : option value :=
  match row with
  | [] => None
  | (k, v) :: rest => if String.eqb k key then Some v else column key rest
  end.

End Predictor.

(** ** Concurrent first use

    Several calls of [predict] on one shared predictor, interleaved between
    the statements of [load_model]: the test of [self.model], the test of
    the path, the call of [joblib.load] and the assignment to [self.model]
    are separate steps, and the scheduler may switch threads between any two
    of them. The program takes no lock anywhere. *)

Module Concurrent.
Import Py Predictor.

Inductive pc : Type :=
| AtCheck
| AtExists
| AtLoad
| AtStore (m : option pipeline)
| AtInfer
| Finished (r : result (Z * spec_float)).

Record world : Type := {
  self : StrokePredictor;
  reads : nat;
  calls : list (pc * gmap string value)
}.

(** One step of a call at [at_], on the shared [self]; [reads] counts the
    calls of [joblib.load]. *)
Definition advance (fs : storage) (self : StrokePredictor) (reads : nat)
    (at_ : pc) (patient_data : gmap string value) : StrokePredictor * nat * pc :=
  match at_ with
  | AtCheck =>
      match model self with
      | Some _ => (self, reads, AtInfer)
      | None => (self, reads, AtExists)
      end
  | AtExists =>
      if negb (exists_ fs (model_path self))
      then (self, reads, Finished (Raises (not_found_error self)))
      else (self, reads, AtLoad)
  | AtLoad =>
      match joblib_load fs (model_path self) with
      | Returns m => (self, S reads, AtStore m)
      | Raises exc => (self, S reads, Finished (Raises (load_error exc)))
      end
  | AtStore m => (set_model self m, reads, AtInfer)
  | AtInfer => (self, reads, Finished (infer self patient_data))
  | Finished r => (self, reads, Finished r)
  end.

(** The scheduler runs call number [i] for one step. *)
Definition step (fs : storage) (w : world) (i : nat) : world :=
  match calls w !! i with
  | None => w
  | Some (at_, patient_data) =>
      let '(self', reads', at') := advance fs (self w) (reads w) at_ patient_data in
      {| self := self'; reads := reads'; calls := <[i := (at', patient_data)]> (calls w) |}
  end.

Definition run (fs : storage) (schedule : list nat) (w : world) : world :=
  fold_left (step fs) schedule w.

Definition start (p : StrokePredictor) (requests : list (gmap string value)) : world :=
  {| self := p; reads := 0; calls := map (fun d => (AtCheck, d)) requests |}.

Definition rank (at_ : pc) : nat :=
  match at_ with
  | AtCheck => 0
  | AtExists => 1
  | AtLoad => 2
  | AtStore _ => 3
  | AtInfer => 4
  | Finished _ => 5
  end.

(** Calls that may still call [joblib.load]: 1 for a call that has not yet
    passed the load, 0 afterwards. *)
Definition may_read (at_ : pc) : nat := if (rank at_ <=? 2)%nat then 1%nat else 0%nat.

Fixpoint pending (cs : list (pc * gmap string value)) : nat :=
  match cs with
  | [] => 0%nat
  | c :: cs' => (may_read (fst c) + pending cs')%nat
  end.

Definition rank_at (w : world) (i : nat) : nat :=
  match calls w !! i with
  | Some c => rank (fst c)
  | None => 5%nat
  end.

(** What a call on the record [d] returns when run alone on the artifact
    [m] with threshold [thr]. *)
Definition expected (m : pipeline) (thr : spec_float) (d : gmap string value)
    : result (Z * spec_float) :=
  let! features := prepare_features d in
  let! probability :=
    try_except (predict_proba m features) (isinstance [AttributeError])
      (fun exc => Raises (Exn RuntimeError
                            "Loaded model does not expose predict_proba" (Some exc))) in
  Returns (if float_ge probability thr then 1 else 0, probability).

(** The invariant of the runs from [start p requests] when the path of [p]
    holds the artifact [m]. *)
Definition call_ok (m : pipeline) (p self : StrokePredictor) (reads : nat)
    (c : pc * gmap string value) : Prop :=
  match fst c with
  | AtStore m' => m' = Some m /\ (1 <= reads)%nat
  | AtInfer => model self = Some m
  | Finished r => r = expected m (threshold p) (snd c) /\ (1 <= reads)%nat
  | _ => True
  end.

Record invariant (m : pipeline) (p : StrokePredictor)
    (requests : list (gmap string value)) (w : world) : Prop := {
  inv_path : model_path (self w) = model_path p;
  inv_threshold : threshold (self w) = threshold p;
  inv_model : model (self w) = None \/ model (self w) = Some m;
  inv_cached : model (self w) = Some m -> (1 <= reads w)%nat;
  inv_data : snd <$> calls w = requests;
  inv_calls : forall i c, calls w !! i = Some c -> call_ok m p (self w) (reads w) c;
  inv_reads : (reads w + pending (calls w) <= length requests)%nat
}.

(** The artifact is cached and no call is between the test of
    [self.model] and the assignment to it. *)
Definition settled (w : world) : Prop :=
  (exists m, model (self w) = Some m) /\
  forall i c, calls w !! i = Some c -> (rank (fst c) < 1 \/ 3 < rank (fst c))%nat.

End Concurrent.

(** ** Vocabulary of the statements *)

Module Spec.
Import Py Validation Predictor.

(** An enum validator over [domain] whose message starts with [label]. *)
Definition enum_validator (validate : value -> bool * string)
    (domain : list string) (label : string) : Prop :=
  forall v : value,
    (validate v = (true, "") <-> exists s, v = PStr s /\ In s domain) /\
    ((~ exists s, v = PStr s /\ In s domain) ->
     validate v = (false, label +:+ " must be one of: " +:+ join ", " domain)).

(** The result is a rejection whose message contains [word]. *)
Definition rejected_with {A : Type} (r : result (bool * string * option A))
    (word : string) : Prop :=
  exists msg, r = Returns (false, msg, None) /\ contains word msg = true.

(** Numbers equal to zero, and texts that parse to zero. *)
Definition zero_float (x : spec_float) : Prop := exists sgn, x = S754_zero sgn.

Definition zero_number (v : value) : Prop :=
  v = PInt 0 \/ v = PBool false \/ exists sgn, v = PFloat (S754_zero sgn).

Definition infinite (v : value) : Prop := exists sgn, v = PFloat (S754_infinity sgn).

(** The artifact [m] is cached in [self] or can be loaded from its path. *)
Definition loadable (fs : storage) (self : StrokePredictor) (m : pipeline) : Prop :=
  model self = Some m \/ (model self = None /\ fs (model_path self) = Artifact m).

(** A field of the record that is absent, [None], or a text that is not a
    number of the wanted type. *)
Definition absent_or_unparsable (parse : string -> bool)
    (patient_data : gmap string value) (key : string) : Prop :=
  patient_data !! key = None \/ patient_data !! key = Some PNone \/
  exists s, patient_data !! key = Some (PStr s) /\ parse s = false.

Definition parses_as_float (s : string) : bool :=
  match float_of_string s with Some _ => true | None => false end.

Definition parses_as_int (s : string) : bool :=
  match int_of_string s with Some _ => true | None => false end.

(** The coercion of a number fails outside the range of the target type: an
    integer beyond the doubles for [float], an infinite double for [int]. *)
Definition overflows {A : Type} (r : result A) : bool :=
  match r with
  | Raises e => exn_class_eqb (class_of e) OverflowError
  | Returns _ => false
  end.

Definition in_range (patient_data : gmap string value) : Prop :=
  overflows (float (get patient_data "age")) = false /\
  overflows (int (get patient_data "hypertension")) = false /\
  overflows (float (get patient_data "avg_glucose_level")) = false /\
  overflows (float (get patient_data "bmi")) = false.

(** What [predict] does with the row [features] once the artifact [m] is
    there: the call of the pipeline, and the threshold. *)
Definition verdict_on (m : pipeline) (thr : spec_float) (features : frame)
    : result (Z * spec_float) :=
  let! probability :=
    try_except (predict_proba m features) (isinstance [AttributeError])
      (fun exc => Raises (Exn RuntimeError
                            "Loaded model does not expose predict_proba" (Some exc))) in
  Returns (if float_ge probability thr then 1 else 0, probability).

Definition schema : list string :=
  ["gender"; "age"; "hypertension"; "ever_married"; "work_type"; "Residence_type";
   "avg_glucose_level"; "bmi"; "smoking_status"].

(** A pipeline that answers the same probability for every row, and a
    stored profile without [bmi]. *)
Definition stub (p : spec_float) : pipeline := {| predict_proba := fun _ => Returns p |}.

Definition profile_without_bmi : gmap string value :=
  list_to_map
    [ ("name", PStr "Ann Lee"); ("age", PInt 67); ("gender", PStr "Female");
      ("hypertension", PInt 0); ("ever_married", PStr "Yes");
      ("work_type", PStr "Private"); ("residence_type", PStr "Urban");
      ("avg_glucose_level", PFloat (float_literal "228.69"));
      ("smoking_status", PStr "Never smoked") ].

(** The same profile with the float infinity in [hypertension]. *)
Definition infinite_hypertension : gmap string value :=
  <["hypertension" := PFloat (S754_infinity false)]> profile_without_bmi.

Definition row_without_bmi : frame :=
  [ ("gender", PStr "Female"); ("age", PFloat (float_of_Z 67));
    ("hypertension", PInt 0); ("ever_married", PStr "Yes");
    ("work_type", PStr "Private"); ("Residence_type", PStr "Urban");
    ("avg_glucose_level", PFloat (float_literal "228.69"));
    ("bmi", PFloat (S754_zero false)); ("smoking_status", PStr "Never smoked") ].

(** Values a stored document can hold in a numeric field without leaving
    the range: anything but an integer beyond 64 bits where a float is
    wanted, anything but an infinite double where an integer is wanted. *)
Definition float_field (v : value) : bool :=
  match v with
  | PInt z => (- 2 ^ 63 <=? z) && (z <? 2 ^ 63)
  | _ => true
  end.

Definition int_field (v : value) : bool :=
  match v with
  | PFloat (S754_infinity _) => false
  | _ => true
  end.

Definition storable (patient_data : gmap string value) : Prop :=
  float_field (get patient_data "age") = true /\
  int_field (get patient_data "hypertension") = true /\
  float_field (get patient_data "avg_glucose_level") = true /\
  float_field (get patient_data "bmi") = true.

Definition accepted {A : Type} (r : result (bool * string * option A)) : Prop :=
  exists x, r = Returns (true, "", Some x).

End Spec.

(** ** utils/validation.py: the text validators

    [len], [str.strip] and the one regular expression of the module. *)

Module Forms.
Import Py.

(** [len(v)]: the number of characters of a text. The other values of the
    model are [None], the booleans and the numbers, which have no length;
    sized values other than texts (bytes, lists, tuples, dicts) are not
    values of the model. *)
Definition len (v : value) : result Z :=
  match v with
  | PStr s => Returns (Z.of_nat (String.length s))
  | _ => Raises (Builtin TypeError)
  end.

(** [c.isspace()], which is also the class [\s] of a pattern on [str]. *)
Definition isspace (c : ascii) : bool :=
  let n := code c in
  ((9 <=? n) && (n <=? 13)) || ((28 <=? n) && (n <=? 32)) || (n =? 133) || (n =? 160).

Fixpoint str_lstrip (s : string) : string :=
  match s with
  | EmptyString => EmptyString
  | String c s' => if isspace c then str_lstrip s' else s
  end.

Fixpoint str_rstrip (s : string) : string :=
  match s with
  | EmptyString => EmptyString
  | String c s' =>
      match str_rstrip s' with
      | EmptyString => if isspace c then EmptyString else String c EmptyString
      | t => String c t
      end
  end.

(** [s.strip()]. *)
Definition str_strip (s : string) : string := str_rstrip (str_lstrip s).

(** The class [[a-zA-Z\s\-\']]. *)
Definition name_class (c : ascii) : bool :=
  let n := code c in
  ((97 <=? n) && (n <=? 122)) || ((65 <=? n) && (n <=? 90)) || isspace c
  || Ascii.eqb c "-" || Ascii.eqb c "'".

(** [$]: the end of the text, or the position before a final newline. *)
Definition at_end (s : string) : bool :=
  String.eqb s "" || String.eqb s (String "010" "").

(** [re.match('^' + class + '+$', s)], as a truth value: one or more
    characters of the class, then [$]. *)
Fixpoint match_plus_end (class : ascii -> bool) (s : string) : bool :=
  match s with
  | EmptyString => false
  | String c r => class c && (at_end r || match_plus_end class r)
  end.

Definition validate_username (username : value) : result (bool * string) :=
  if negb (truthy username) then Returns (false, "Username is required")
  else
    let! n := len username in
    if n <? 3 then Returns (false, "Username must be at least 3 characters long")
    else Returns (true, "").

Definition validate_password (password : value) : result (bool * string) :=
  if negb (truthy password) then Returns (false, "Password is required")
  else
    let! n := len password in
    if n <? 6 then Returns (false, "Password must be at least 6 characters long")
    else if n >? 100 then Returns (false, "Password is too long")
    else Returns (true, "").

(** [name.strip()] on a value: only a text has the method. *)
Definition strip_method (v : value) : result string :=
  match v with
  | PStr s => Returns (str_strip s)
  | _ => Raises (Builtin AttributeError)
  end.

Definition validate_patient_name (name : value) : result (bool * string) :=
  if negb (truthy name) then Returns (false, "Patient name is required")
  else
    let! n := len name in
    if n <? 2 then Returns (false, "Name must be at least 2 characters long")
    else if n >? 100 then Returns (false, "Name is too long")
    else
      let! stripped := strip_method name in
      if negb (match_plus_end name_class stripped)
      then Returns (false, "Name can only contain letters, spaces, hyphens, and apostrophes")
      else Returns (true, "").

(** [ObjectId.is_valid] belongs to the driver and is a parameter. *)
Definition validate_object_id (is_valid : value -> bool) (oid : value) : bool * string :=
  if negb (truthy oid) then (false, "ID is required")
  else if negb (is_valid oid) then (false, "Invalid patient ID format")
  else (true, "").

End Forms.

(** ** models/patient_model.py

    The collection of the driver is a collaborator: [collection] gives what
    each of its calls returns or raises on the data base as it is while one
    request is served. [find_one] and the two calls after it take the text
    of the identifier; turning it into an [ObjectId] is part of the call. *)

Module PatientModel.
Import Py.

Record collection : Type := {
  insert_one : gmap string value -> result unit;
  find : result (list (gmap string value));
  find_one : string -> result (option (gmap string value));
  update_one : string -> gmap string value -> result Z;
  delete_one : string -> result Z
}.

Definition create_patient (patients : collection) (data : gmap string value)
    : result unit :=
  insert_one patients data.

Definition get_all_patients (patients : collection)
    : result (list (gmap string value)) :=
  find patients.

Definition get_patient (patients : collection) (pid : string)
    : result (option (gmap string value)) :=
  try_except (find_one patients pid) any_exception (fun _ => Returns None).

(** The result object of the driver is kept as its count; [None] is the
    [None] of the [except] clause. *)
Definition update_patient (patients : collection) (pid : string)
    (data : gmap string value) : result (option Z) :=
  try_except (let! modified_count := update_one patients pid data in
              Returns (Some modified_count))
    any_exception (fun _ => Returns None).

Definition delete_patient (patients : collection) (pid : string) : result (option Z) :=
  try_except (let! deleted_count := delete_one patients pid in
              Returns (Some deleted_count))
    any_exception (fun _ => Returns None).

End PatientModel.

(** ** routes/patient_routes.py

    A view returns what it flashes and what it answers. The request is its
    method, its form and the identifier of the URL; the session check of
    [login_required] is outside the views. *)

Module Routes.
Import Py Forms Validation Predictor PatientModel.

Inductive response : Type :=
| Template (name : string)
| ListPage (patients : list (gmap string value))
| EditPage (patient : gmap string value)
| PredictPage (patient : gmap string value) (prediction : Z) (stroke_risk : string)
    (probability : spec_float)
| Redirect (location : string).

Record reply : Type := {
  flashes : list (string * string);
  body : response
}.

Definition answer (flashed : list (string * string)) (b : response) : reply :=
  {| flashes := flashed; body := b |}.

(** [request.form.get(key, "")]. *)
Definition form_get (form : gmap string string) (key : string) : string :=
  match form !! key with
  | Some s => s
  | None => ""
  end.

(** An optional integer or float as the value the document holds. *)
Definition int_or_none (o : option Z) : value :=
  match o with Some n => PInt n | None => PNone end.

Definition float_or_none (o : option spec_float) : value :=
  match o with Some x => PFloat x | None => PNone end.

Definition list_patients (patients : collection) : result reply :=
  try_except
    (let! pts := get_all_patients patients in
     Returns (answer [] (ListPage pts)))
    any_exception
    (fun _ => Returns (answer [("Error loading patients. Please try again.", "danger")]
                         (ListPage []))).

(** The validation block that [add_patient] and [edit_patient] share word
    for word: the ten fields read from the form, the ten validators called,
    then the first error flashed and [on_error] answered, or the document
    handed to [store]. *)
Definition validated (form : gmap string string) (on_error : response)
    (store : gmap string value -> result reply) : result reply :=
  let name := str_strip (form_get form "name") in
  let age := str_strip (form_get form "age") in
  let gender := form_get form "gender" in
  let hypertension := form_get form "hypertension" in
  let ever_married := form_get form "ever_married" in
  let work_type := form_get form "work_type" in
  let residence_type := form_get form "residence_type" in
  let avg_glucose_level := str_strip (form_get form "avg_glucose_level") in
  let bmi := str_strip (form_get form "bmi") in
  let smoking_status := form_get form "smoking_status" in
  let! name_result := validate_patient_name (PStr name) in
  let! age_result := validate_patient_age (PStr age) in
  let gender_result := validate_gender (PStr gender) in
  let! hypertension_result := validate_hypertension (PStr hypertension) in
  let ever_married_result := validate_ever_married (PStr ever_married) in
  let work_type_result := validate_work_type (PStr work_type) in
  let residence_type_result := validate_residence_type (PStr residence_type) in
  let! glucose_result := validate_avg_glucose_level (PStr avg_glucose_level) in
  let! bmi_result := validate_bmi (PStr bmi) in
  let smoking_result := validate_smoking_status (PStr smoking_status) in
  let '(name_valid, name_error) := name_result in
  let '(age_valid, age_error, age_int) := age_result in
  let '(gender_valid, gender_error) := gender_result in
  let '(hypertension_valid, hypertension_error, hypertension_int) := hypertension_result in
  let '(ever_married_valid, ever_married_error) := ever_married_result in
  let '(work_type_valid, work_type_error) := work_type_result in
  let '(residence_type_valid, residence_type_error) := residence_type_result in
  let '(glucose_valid, glucose_error, glucose_float) := glucose_result in
  let '(bmi_valid, bmi_error, bmi_float) := bmi_result in
  let '(smoking_valid, smoking_error) := smoking_result in
  if negb name_valid then Returns (answer [(name_error, "danger")] on_error)
  else if negb age_valid then Returns (answer [(age_error, "danger")] on_error)
  else if negb gender_valid then Returns (answer [(gender_error, "danger")] on_error)
  else if negb hypertension_valid
  then Returns (answer [(hypertension_error, "danger")] on_error)
  else if negb ever_married_valid
  then Returns (answer [(ever_married_error, "danger")] on_error)
  else if negb work_type_valid then Returns (answer [(work_type_error, "danger")] on_error)
  else if negb residence_type_valid
  then Returns (answer [(residence_type_error, "danger")] on_error)
  else if negb glucose_valid then Returns (answer [(glucose_error, "danger")] on_error)
  else if negb bmi_valid then Returns (answer [(bmi_error, "danger")] on_error)
  else if negb smoking_valid then Returns (answer [(smoking_error, "danger")] on_error)
  else
    store (list_to_map
             [ ("name", PStr name);
               ("age", int_or_none age_int);
               ("gender", PStr gender);
               ("hypertension", int_or_none hypertension_int);
               ("ever_married", PStr ever_married);
               ("work_type", PStr work_type);
               ("residence_type", PStr residence_type);
               ("avg_glucose_level", float_or_none glucose_float);
               ("bmi", float_or_none bmi_float);
               ("smoking_status", PStr smoking_status) ]).

Definition add_patient (patients : collection) (post : bool)
    (form : gmap string string) : result reply :=
  if post then
    validated form (Template "patients/add.html")
      (fun patient_data =>
         try_except
           (let! _ := create_patient patients patient_data in
            Returns (answer [("Patient added successfully!", "success")]
                       (Redirect "/patients")))
           any_exception
           (fun _ => Returns (answer [("Error adding patient. Please try again.", "danger")]
                                (Template "patients/add.html"))))
  else Returns (answer [] (Template "patients/add.html")).

(** [not patient]: no document, or an empty one. *)
Definition no_patient (patient : option (gmap string value)) : bool :=
  match patient with
  | None => true
  | Some d => bool_decide (d = ∅)
  end.

Definition the_patient (patient : option (gmap string value)) : gmap string value :=
  match patient with
  | Some d => d
  | None => ∅
  end.

Definition edit_patient (is_valid : value -> bool) (patients : collection)
    (post : bool) (id : string) (form : gmap string string) : result reply :=
  let '(id_valid, id_error) := validate_object_id is_valid (PStr id) in
  if negb id_valid then Returns (answer [(id_error, "danger")] (Redirect "/patients"))
  else
    let! patient := get_patient patients id in
    if no_patient patient
    then Returns (answer [("Patient not found.", "danger")] (Redirect "/patients"))
    else if post then
      validated form (EditPage (the_patient patient))
        (fun patient_data =>
           try_except
             (let! result := update_patient patients id patient_data in
              match result with
              | Some modified_count =>
                  if modified_count >? 0
                  then Returns (answer [("Patient updated successfully!", "success")]
                                  (Redirect "/patients"))
                  else Returns (answer [("No changes were made.", "info")]
                                  (Redirect "/patients"))
              | None => Returns (answer [("No changes were made.", "info")]
                                   (Redirect "/patients"))
              end)
             any_exception
             (fun _ => Returns (answer [("Error updating patient. Please try again.", "danger")]
                                  (EditPage (the_patient patient)))))
    else Returns (answer [] (EditPage (the_patient patient))).

Definition delete (is_valid : value -> bool) (patients : collection) (id : string)
    : result reply :=
  let '(id_valid, id_error) := validate_object_id is_valid (PStr id) in
  if negb id_valid then Returns (answer [(id_error, "danger")] (Redirect "/patients"))
  else
    let! flashed :=
      try_except
        (let! result := delete_patient patients id in
         match result with
         | Some deleted_count =>
             if deleted_count >? 0
             then Returns [("Patient deleted successfully!", "success")]
             else Returns [("Patient not found.", "danger")]
         | None => Returns [("Patient not found.", "danger")]
         end)
        any_exception
        (fun _ => Returns [("Error deleting patient. Please try again.", "danger")]) in
    Returns (answer flashed (Redirect "/patients")).

(** [predict_stroke] works on the module-level predictor: it takes the
    global [_predictor] and gives it back as the request leaves it. *)
Definition predict_stroke (is_valid : value -> bool) (patients : collection)
    (fs : storage) (_predictor : option StrokePredictor) (id : string)
    : option StrokePredictor * result reply :=
  let '(id_valid, id_error) := validate_object_id is_valid (PStr id) in
  if negb id_valid
  then (_predictor, Returns (answer [(id_error, "danger")] (Redirect "/patients")))
  else
    match get_patient patients id with
    | Raises e => (_predictor, Raises e)
    | Returns patient =>
        if no_patient patient
        then (_predictor,
              Returns (answer [("Patient not found.", "danger")] (Redirect "/patients")))
        else
          let '(global, predictor) := get_predictor _predictor in
          let '(predictor', outcome) := predict fs predictor (the_patient patient) in
          (Some predictor',
           match outcome with
           | Returns (prediction, probability) =>
               let stroke_risk :=
                 if prediction =? 1 then "High Heart Attack Risk"
                 else "Low Heart Attack Risk" in
               let stroke_probability_pct := SFmul prec emax probability (float_of_Z 100) in
               Returns (answer [] (PredictPage (the_patient patient) prediction stroke_risk
                                     stroke_probability_pct))
           | Raises e =>
               if isinstance [FileNotFoundError] e
               then Returns (answer
                      [("Model file not found. Please ensure the trained model is placed in the models/ directory.",
                        "danger")] (Redirect "/patients"))
               else if any_exception e
               then Returns (answer [("Error making prediction: " +:+ str_of e, "danger")]
                               (Redirect "/patients"))
               else Raises e
           end)
    end.

End Routes.

(** ** Vocabulary of the further statements *)

Module Words.
Import Py Forms.

(** A boolean, an integer or a float. *)
Definition number (v : value) : bool :=
  match v with
  | PBool _ | PInt _ | PFloat _ => true
  | PNone | PStr _ => false
  end.

(** Every character of the text satisfies [p]. *)
Fixpoint all_chars (p : ascii -> bool) (s : string) : bool :=
  match s with
  | EmptyString => true
  | String c r => p c && all_chars p r
  end.

(** The length of a text as the integer [len] gives. *)
Definition chars (s : string) : Z := Z.of_nat (String.length s).

End Words.

Module Words2.
Import Py.

(** [x <= y] on floats, false when either is NaN. *)
Definition float_le (x y : spec_float) : bool := SFleb x y.

(** What a three-part validator answered is coherent: the flag is true
    exactly when the message is empty, and exactly when there is a value. *)
Definition coherent {A : Type} (r : result (bool * string * option A)) : Prop :=
  forall ok msg val, r = Returns (ok, msg, val) ->
    (ok = true <-> msg = "") /\ (ok = true <-> exists x, val = Some x).

End Words2.

Module Words3.
Import Py Predictor.

(** The fields of a stored profile that [prepare_features] reads. *)
Definition profile_fields : list string :=
  ["gender"; "age"; "hypertension"; "ever_married"; "work_type"; "residence_type";
   "avg_glucose_level"; "bmi"; "smoking_status"].

(** The row has the columns of the schema, with numbers of the type the
    pipeline was fit on: floats for [age], [avg_glucose_level] and [bmi], an
    integer for [hypertension]. *)
Definition well_typed (features : frame) : Prop :=
  map fst features = Spec.schema /\
  (exists x, column "age" features = Some (PFloat x)) /\
  (exists n, column "hypertension" features = Some (PInt n)) /\
  (exists x, column "avg_glucose_level" features = Some (PFloat x)) /\
  (exists x, column "bmi" features = Some (PFloat x)).

(** What [predict] raises when the pipeline raises [e]. *)
Definition translated (e : exn) : exn :=
  if issubclass (class_of e) AttributeError
  then Exn RuntimeError "Loaded model does not expose predict_proba" (Some e)
  else e.

(** What [predict] raises when the cached model is [None]. *)
Definition no_predict_proba : exn :=
  Exn RuntimeError "Loaded model does not expose predict_proba"
    (Some (Builtin AttributeError)).

(** An error of the pipeline whose class derives from both [ValueError] and
    [AttributeError], as scikit-learn's [NotFittedError] does. *)
Definition not_fitted : exn :=
  Exn (OtherError "NotFittedError" [ValueError; AttributeError])
    "This Pipeline instance is not fitted yet." None.

(** Nothing to load at the path: no file, or one that [joblib.load] cannot
    read. *)
Definition unavailable (fs : storage) (path : string) : Prop :=
  fs path = Missing \/ exists c msg cause, fs path = Unreadable c msg cause.

End Words3.

Module Words4.
Import Py Forms Validation Routes.

(** A form field as the views read it, and after [strip()]. *)
Definition cleaned (form : gmap string string) (key : string) : string :=
  str_strip (form_get form key).

(** The flag and the message of an answer. *)
Definition verdict2 (r : result (bool * string)) : bool * string :=
  match r with
  | Returns v => v
  | Raises _ => (false, "")
  end.

Definition verdict3 {A : Type} (r : result (bool * string * option A)) : bool * string :=
  match r with
  | Returns (ok, msg, _) => (ok, msg)
  | Raises _ => (false, "")
  end.

(** What the ten validators say of a form, in the order of the views. *)
Definition verdicts (form : gmap string string) : list (bool * string) :=
  [ verdict2 (validate_patient_name (PStr (cleaned form "name")));
    verdict3 (validate_patient_age (PStr (cleaned form "age")));
    validate_gender (PStr (form_get form "gender"));
    verdict3 (validate_hypertension (PStr (form_get form "hypertension")));
    validate_ever_married (PStr (form_get form "ever_married"));
    validate_work_type (PStr (form_get form "work_type"));
    validate_residence_type (PStr (form_get form "residence_type"));
    verdict3 (validate_avg_glucose_level (PStr (cleaned form "avg_glucose_level")));
    verdict3 (validate_bmi (PStr (cleaned form "bmi")));
    validate_smoking_status (PStr (form_get form "smoking_status")) ].

Fixpoint first_error (l : list (bool * string)) : option string :=
  match l with
  | [] => None
  | (ok, msg) :: rest => if ok then first_error rest else Some msg
  end.

(** The numbers of a form as [int] and [float] parse them. *)
Definition parsed_int (s : string) : value :=
  match int_of_string s with Some n => PInt n | None => PNone end.

Definition parsed_float (s : string) : value :=
  match float_of_string s with Some x => PFloat x | None => PNone end.

(** The document of a form: texts as they are ([name] stripped), numbers
    parsed. *)
Definition document (form : gmap string string) : gmap string value :=
  list_to_map
    [ ("name", PStr (cleaned form "name"));
      ("age", parsed_int (cleaned form "age"));
      ("gender", PStr (form_get form "gender"));
      ("hypertension", parsed_int (form_get form "hypertension"));
      ("ever_married", PStr (form_get form "ever_married"));
      ("work_type", PStr (form_get form "work_type"));
      ("residence_type", PStr (form_get form "residence_type"));
      ("avg_glucose_level", parsed_float (cleaned form "avg_glucose_level"));
      ("bmi", parsed_float (cleaned form "bmi"));
      ("smoking_status", PStr (form_get form "smoking_status")) ].

(** A complete form. *)
Definition sample_form : gmap string string :=
  list_to_map
    [ ("name", " Ann Lee "); ("age", "67"); ("gender", "Female"); ("hypertension", "0");
      ("ever_married", "Yes"); ("work_type", "Private"); ("residence_type", "Urban");
      ("avg_glucose_level", "228.69"); ("bmi", "36.6"); ("smoking_status", "Never smoked") ].

(** A collection that stores nothing and finds nothing. *)
Definition empty_collection : PatientModel.collection :=
  {| PatientModel.insert_one := fun _ => Returns tt;
     PatientModel.find := Returns [];
     PatientModel.find_one := fun _ => Returns None;
     PatientModel.update_one := fun _ _ => Returns 0;
     PatientModel.delete_one := fun _ => Returns 0 |}.

(** The driver's connection errors, with the classes they derive from. *)
Definition AutoReconnect : exn_class :=
  OtherError "AutoReconnect" [OtherError "ConnectionFailure" [OtherError "PyMongoError" []]].

Definition ServerSelectionTimeoutError : exn_class :=
  OtherError "ServerSelectionTimeoutError" [AutoReconnect].

(** A collection whose every call fails. *)
Definition broken_collection : PatientModel.collection :=
  {| PatientModel.insert_one := fun _ => Raises (Exn ServerSelectionTimeoutError "no servers" None);
     PatientModel.find := Raises (Exn ServerSelectionTimeoutError "no servers" None);
     PatientModel.find_one := fun _ => Raises (Exn ServerSelectionTimeoutError "no servers" None);
     PatientModel.update_one := fun _ _ => Raises (Exn ServerSelectionTimeoutError "no servers" None);
     PatientModel.delete_one := fun _ => Raises (Exn ServerSelectionTimeoutError "no servers" None) |}.

(** A collection that holds the profile without [bmi] under every
    identifier, and whose update fails. *)
Definition stored_collection : PatientModel.collection :=
  {| PatientModel.insert_one := fun _ => Returns tt;
     PatientModel.find := Returns [Spec.profile_without_bmi];
     PatientModel.find_one := fun _ => Returns (Some Spec.profile_without_bmi);
     PatientModel.update_one := fun _ _ =>
       Raises (Exn AutoReconnect "connection closed" None);
     PatientModel.delete_one := fun _ => Returns 1 |}.

(** The label the page shows for a prediction. *)
Definition risk_label (prediction : Z) : string :=
  if prediction =? 1 then "High Heart Attack Risk" else "Low Heart Attack Risk".

End Words4.

(** ** models/auth_model.py and routes/auth_routes.py

    The SQLite file and the password hashing of werkzeug are collaborators:
    [accounts] gives what each statement and each hashing call returns or
    raises while one request is served. *)

Module Auth.
Import Py Forms.

(** A row [(id, username, password)] of the table [users]. *)
Record User : Type := {
  id : Z;
  username : string;
  password : string
}.

Record accounts : Type := {
  (* SELECT id,username,password FROM users WHERE username=? *)
  select_by_username : string -> result (option User);
  (* SELECT id,username,password FROM users WHERE id=? *)
  select_by_id : value -> result (option User);
  (* SELECT id FROM users WHERE username=? *)
  select_id : string -> result (option Z);
  (* INSERT INTO users(username,password) VALUES(?,?) and commit *)
  insert_user : string -> string -> result unit;
  generate_password_hash : string -> result string;
  check_password_hash : string -> string -> result bool
}.

Definition IntegrityError : exn_class :=
  OtherError "IntegrityError" [OtherError "DatabaseError" [OtherError "Error" []]].

Definition create (db : accounts) (name pass : string) : result bool :=
  match (let! hashed := generate_password_hash db pass in
         let! _ := insert_user db name hashed in
         Returns true) with
  | Returns b => Returns b
  | Raises e =>
      if isinstance [IntegrityError] e then Returns false
      else if any_exception e then Returns false
      else Raises e
  end.

Definition authenticate (db : accounts) (name pass : string) : result (option User) :=
  try_except
    (let! row := select_by_username db name in
     match row with
     | Some user =>
         let! ok := check_password_hash db (password user) pass in
         if ok then Returns (Some user) else Returns None
     | None => Returns None
     end)
    any_exception (fun _ => Returns None).

Definition get_by_id (db : accounts) (uid : value) : result (option User) :=
  try_except (select_by_id db uid) any_exception (fun _ => Returns None).

Definition username_exists (db : accounts) (name : string) : result bool :=
  try_except
    (let! found := select_id db name in
     Returns (match found with Some _ => true | None => false end))
    any_exception (fun _ => Returns false).

(** What a view of the accounts answers: the flashes, the page or the
    redirection, and the user it logged in. *)
Inductive page : Type :=
| Page (name : string)
| Goto (location : string).

Record session_reply : Type := {
  flashed : list (string * string);
  shown : page;
  logged_in : option User
}.

Definition respond (messages : list (string * string)) (b : page) : session_reply :=
  {| flashed := messages; shown := b; logged_in := None |}.

Definition login (db : accounts) (is_authenticated post : bool)
    (form : gmap string string) : result session_reply :=
  if is_authenticated then Returns (respond [] (Goto "/patients"))
  else if post then
    let name := str_strip (Routes.form_get form "username") in
    let pass := Routes.form_get form "password" in
    let! username_result := validate_username (PStr name) in
    let! password_result := validate_password (PStr pass) in
    let '(username_valid, username_error) := username_result in
    let '(password_valid, password_error) := password_result in
    if negb username_valid then Returns (respond [(username_error, "danger")] (Page "login.html"))
    else if negb password_valid
    then Returns (respond [(password_error, "danger")] (Page "login.html"))
    else
      let! user := authenticate db name pass in
      match user with
      | Some u =>
          Returns {| flashed := [("Login successful!", "success")];
                     shown := Goto "/patients"; logged_in := Some u |}
      | None =>
          Returns (respond [("Invalid username or password", "danger")] (Page "login.html"))
      end
  else Returns (respond [] (Page "login.html")).

Definition register (db : accounts) (is_authenticated post : bool)
    (form : gmap string string) : result session_reply :=
  if is_authenticated then Returns (respond [] (Goto "/patients"))
  else if post then
    let name := str_strip (Routes.form_get form "username") in
    let pass := Routes.form_get form "password" in
    let! username_result := validate_username (PStr name) in
    let! password_result := validate_password (PStr pass) in
    let '(username_valid, username_error) := username_result in
    let '(password_valid, password_error) := password_result in
    if negb username_valid
    then Returns (respond [(username_error, "danger")] (Page "register.html"))
    else if negb password_valid
    then Returns (respond [(password_error, "danger")] (Page "register.html"))
    else
      let! taken := username_exists db name in
      if taken
      then Returns (respond [("Username already exists. Please choose another.", "danger")]
                      (Page "register.html"))
      else
        let! created := create db name pass in
        if created
        then Returns (respond [("Account created successfully! Please login.", "success")]
                        (Goto "/auth/login"))
        else Returns (respond [("Error creating account. Please try again.", "danger")]
                        (Page "register.html"))
  else Returns (respond [] (Page "register.html")).

(** The user table is fine with the credentials: the row exists and its
    hash matches. *)
Definition credentials_match (db : accounts) (name pass : string) (u : User) : Prop :=
  select_by_username db name = Returns (Some u) /\
  check_password_hash db (password u) pass = Returns true.

(** An account data base with one user, whose "hash" is the password
    between brackets. *)
Definition one_account : accounts :=
  {| select_by_username := fun n =>
       if String.eqb n "alice"
       then Returns (Some {| id := 1; username := "alice"; password := "<wonderland>" |})
       else Returns None;
     select_by_id := fun _ => Returns None;
     select_id := fun n => if String.eqb n "alice" then Returns (Some 1) else Returns None;
     insert_user := fun n _ =>
       if String.eqb n "alice"
       then Raises (Exn IntegrityError "UNIQUE constraint failed: users.username" None)
       else Returns tt;
     generate_password_hash := fun p => Returns ("<" +:+ p +:+ ">");
     check_password_hash := fun h p => Returns (String.eqb h ("<" +:+ p +:+ ">")) |}.

Definition credentials (name pass : string) : gmap string string :=
  list_to_map [("username", name); ("password", pass)].

End Auth.

(** * Properties *)

Module PyFacts.
Import Py.

(** The coercions on a few literals: 0.1 and 0.75 as doubles, rounding to
    nearest even at 2^53 + 1, overflow to infinity and underflow to zero. *)
Example float_of_string_values :
  float_of_string "0.1" = Some (S754_finite false 7205759403792794 (-56)) /\
  float_of_string "0.75" = Some (S754_finite false (3 * 2 ^ 51) (-53)) /\
  float_of_string " 1_0.5e-1 " = float_of_string "1.05" /\
  float_of_string "9007199254740993" = Some (S754_finite false (2 ^ 52) 1) /\
  float_of_string "1e400" = Some (S754_infinity false) /\
  float_of_string "-1e-400" = Some (S754_zero true) /\
  float_of_string "-Infinity" = Some (S754_infinity true) /\
  float_of_string "NaN" = Some S754_nan.
Proof. repeat split. Qed.

Example float_of_string_rejects :
  map float_of_string [""; " "; "."; "abc"; "1e"; "1_.5"; "1__0"; "0x10"; "- 1"; "1 2"]
  = repeat None 10.
Proof. reflexivity. Qed.

Example int_of_string_values :
  map int_of_string [" -1_0 "; "007"; "+5"; "150"] = [Some (-10); Some 7; Some 5; Some 150]
  /\ map int_of_string [""; "abc"; "1.5"; "- 5"; "1_"; "_1"; "1e3"; "0x1f"] = repeat None 8.
Proof. split; reflexivity. Qed.

Example int_float_coercions :
  int (PFloat (float_literal "-7.9")) = Returns (-7) /\
  int (PFloat S754_nan) = Raises (Builtin ValueError) /\
  int (PFloat (S754_infinity false)) = Raises (Builtin OverflowError) /\
  int PNone = Raises (Builtin TypeError) /\
  float (PInt (2 ^ 1024)) = Raises (Builtin OverflowError) /\
  float (PInt 100) = Returns (S754_finite false (25 * 2 ^ 48) (-46)) /\
  float PNone = Raises (Builtin TypeError).
Proof. repeat split. Qed.

End PyFacts.

(** Integers of 64 bits convert to finite doubles. *)
Module FloatFacts.
Import Py.

Lemma digits2_pos_upper (m : positive) : Z.pos m < 2 ^ Z.pos (digits2_pos m).
Proof.
  induction m as [m IH | m IH |]; cbn [digits2_pos]; try rewrite Pos2Z.inj_succ;
    try rewrite Z.pow_succ_r by lia; lia.
Qed.

Lemma digits2_pos_bound (m : positive) (n : Z) :
  0 <= n -> Z.pos m < 2 ^ n -> Z.pos (digits2_pos m) <= n.
Proof.
  revert n. induction m as [m IH | m IH |]; intros n Hn Hm; cbn [digits2_pos].
  - assert (0 < n) by (destruct (Z.eq_dec n 0) as [-> | ]; [simpl in Hm; lia | lia]).
    replace n with (Z.succ (n - 1)) in Hm by lia. rewrite Z.pow_succ_r in Hm by lia.
    rewrite Pos2Z.inj_succ. specialize (IH (n - 1)). lia.
  - assert (0 < n) by (destruct (Z.eq_dec n 0) as [-> | ]; [simpl in Hm; lia | lia]).
    replace n with (Z.succ (n - 1)) in Hm by lia. rewrite Z.pow_succ_r in Hm by lia.
    rewrite Pos2Z.inj_succ. specialize (IH (n - 1)). lia.
  - destruct (Z.eq_dec n 0) as [-> | ]; [simpl in Hm; lia | lia].
Qed.

Lemma iter_xO_value (m d : positive) : Z.pos (Pos.iter xO m d) = Z.pos m * 2 ^ Z.pos d.
Proof.
  revert m. induction d as [|d IH] using Pos.peano_ind; intros m.
  - simpl. lia.
  - rewrite Pos.iter_succ, Pos2Z.inj_succ, Z.pow_succ_r by lia.
    rewrite Pos2Z.inj_xO, IH. lia.
Qed.

Lemma iter_pos_invariant {A : Type} (P : A -> Prop) (f : A -> A) :
  (forall x, P x -> P (f x)) -> forall n x, P x -> P (@SpecFloat.iter_pos A f n x).
Proof.
  intros Hf. induction n as [n IH | n IH |]; intros x Hx; cbn [SpecFloat.iter_pos]; auto.
Qed.

Lemma shr_1_bound (M : Z) (mrs : shr_record) :
  0 <= shr_m mrs <= M -> 0 <= shr_m (shr_1 mrs) <= M.
Proof.
  destruct mrs as [m r s]. cbn [shr_m]. destruct m as [|p|p]; [| |lia];
    try destruct p; cbn [shr_1 shr_m]; lia.
Qed.

Lemma shr_fexp_bound (m e : Z) (l : location) (mrs' : shr_record) (e' : Z) :
  0 <= m -> shr_fexp prec emax m e l = (mrs', e') ->
  0 <= shr_m mrs' <= m /\ (e' = e \/ e' = fexp prec emax (Zdigits2 m + e)).
Proof.
  intros Hm. unfold shr_fexp, shr.
  assert (H0 : 0 <= shr_m (shr_record_of_loc m l) <= m).
  { destruct l as [|[]]; cbn; lia. }
  destruct (fexp prec emax (Zdigits2 m + e) - e) as [|p|p] eqn:E;
    intros H; injection H as <- <-.
  - auto.
  - split; [|right; lia]. apply iter_pos_invariant; [apply shr_1_bound | exact H0].
  - auto.
Qed.

Lemma round_nearest_even_bound (m : Z) (l : location) :
  m <= round_nearest_even m l <= m + 1.
Proof.
  destruct l as [|[]]; cbn [round_nearest_even]; try destruct (Z.even m); lia.
Qed.

Lemma Zdigits2_bound (x n : Z) : 0 <= n -> 0 <= x < 2 ^ n -> Zdigits2 x <= n.
Proof.
  intros Hn Hx. destruct x as [|p|p]; cbn [Zdigits2]; [lia | | lia].
  apply digits2_pos_bound; lia.
Qed.

Lemma fexp_le (x y : Z) : x <= y -> fexp prec emax x <= Z.max (y - 53) (-1074).
Proof. unfold fexp, SpecFloat.emin, prec, emax. lia. Qed.

Lemma binary_round_aux_finite (s : bool) (mx ex : Z) (lx : location) :
  0 <= mx < 2 ^ 64 -> ex <= 0 ->
  forall s', binary_round_aux prec emax s mx ex lx <> S754_infinity s'.
Proof.
  intros Hmx Hex s'. unfold binary_round_aux.
  destruct (shr_fexp prec emax mx ex lx) as [mrs1 e1] eqn:E1.
  destruct (shr_fexp_bound _ _ _ _ _ (proj1 Hmx) E1) as [Hm1 He1].
  pose proof (round_nearest_even_bound (shr_m mrs1) (loc_of_shr_record mrs1)) as Hr.
  set (m2 := round_nearest_even (shr_m mrs1) (loc_of_shr_record mrs1)) in *.
  destruct (shr_fexp prec emax m2 e1 loc_Exact) as [mrs2 e2] eqn:E2.
  assert (H2 : 0 <= m2) by lia.
  destruct (shr_fexp_bound _ _ _ _ _ H2 E2) as [Hm2 He2].
  assert (Hd1 : Zdigits2 mx <= 64) by (apply Zdigits2_bound; lia).
  assert (Hd0 : 0 <= Zdigits2 mx) by (destruct mx; cbn; lia).
  assert (He1' : e1 <= 11).
  { destruct He1 as [-> | ->]; [lia|].
    pose proof (fexp_le (Zdigits2 mx + ex) 64 ltac:(lia)). lia. }
  assert (Hd2 : Zdigits2 m2 <= 65).
  { apply Zdigits2_bound; [lia|]. change (2 ^ 65) with (2 * 2 ^ 64). lia. }
  assert (He2' : e2 <= 23).
  { destruct He2 as [-> | ->]; [lia|].
    pose proof (fexp_le (Zdigits2 m2 + e1) 76 ltac:(lia)). lia. }
  destruct (shr_m mrs2); try discriminate.
  replace (e2 <=? emax - prec) with true; [discriminate|].
  symmetry. apply Z.leb_le. unfold emax, prec. lia.
Qed.

Lemma float_of_Z_finite (z : Z) :
  - 2 ^ 63 <= z < 2 ^ 63 -> forall s, float_of_Z z <> S754_infinity s.
Proof.
  intros Hz s. unfold float_of_Z, binary_normalize.
  assert (Hround : forall sx m, Z.pos m < 2 ^ 64 ->
            binary_round prec emax sx m 0 <> S754_infinity s).
  { intros sx m Hm. unfold binary_round, shl_align.
    pose proof (digits2_pos_upper m) as Hup.
    pose proof (digits2_pos_bound m 64 ltac:(lia) Hm) as Hd.
    set (d := Z.pos (digits2_pos m)) in *.
    assert (Hf : fexp prec emax (d + 0) = d - 53).
    { unfold fexp, SpecFloat.emin, prec, emax. lia. }
    rewrite Hf. destruct (d - 53 - 0) as [|k|k] eqn:Ek.
    - apply binary_round_aux_finite; lia.
    - apply binary_round_aux_finite; lia.
    - apply binary_round_aux_finite; [|lia].
      rewrite iter_xO_value. split; [lia|].
      assert (Z.pos m * 2 ^ Z.pos k < 2 ^ d * 2 ^ Z.pos k).
      { apply Z.mul_lt_mono_pos_r; [apply Z.pow_pos_nonneg; lia | exact Hup]. }
      rewrite <- Z.pow_add_r in H by lia.
      replace (d + Z.pos k) with 53 in H by lia.
      assert (2 ^ 53 < 2 ^ 64) by (apply Z.pow_lt_mono_r; lia). lia. }
  destruct z as [|m|m]; [discriminate | |]; apply Hround; lia.
Qed.

End FloatFacts.

Module ValidationFacts.
Import Py Validation Spec.

Lemma in_strings_spec (v : value) (l : list string) :
  in_strings v l = true <-> exists s, v = PStr s /\ In s l.
Proof.
  destruct v as [ | b | z | f | s]; simpl;
    try (split; [discriminate | intros (s' & H & _); discriminate]).
  rewrite existsb_exists. split.
  - intros (x & Hin & Heq). apply String.eqb_eq in Heq. subst x. eauto.
  - intros (s' & Heq & Hin). injection Heq as <-. exists s. split; [assumption|].
    apply String.eqb_refl.
Qed.

Lemma enum_validator_intro (validate : value -> bool * string)
    (domain : list string) (label : string) :
  (forall v, validate v =
             if negb (in_strings v domain)
             then (false, label +:+ " must be one of: " +:+ join ", " domain)
             else (true, "")) ->
  enum_validator validate domain label.
Proof.
  intros Hdef v. rewrite Hdef. rewrite <- in_strings_spec.
  destruct (in_strings v domain); simpl; split.
  - split; auto.
  - intros H. exfalso. apply H. reflexivity.
  - split; [discriminate | discriminate].
  - reflexivity.
Qed.

(** C4. [validate_patient_age] on the quoted inputs: "25" and "150" are
    accepted with the parsed integer; the empty string, "abc", "-5", "200"
    and "151" are rejected with no value, with messages containing
    "required", "number", "negative" and "150". *)
Theorem validate_patient_age_examples :
  validate_patient_age (PStr "25") = Returns (true, "", Some 25) /\
  rejected_with (validate_patient_age (PStr "")) "required" /\
  rejected_with (validate_patient_age (PStr "abc")) "number" /\
  rejected_with (validate_patient_age (PStr "-5")) "negative" /\
  rejected_with (validate_patient_age (PStr "200")) "150" /\
  validate_patient_age (PStr "150") = Returns (true, "", Some 150) /\
  (exists msg, validate_patient_age (PStr "151") = Returns (false, msg, None)).
Proof.
  repeat split; try reflexivity; eexists; split; reflexivity.
Qed.

(** C6. Each enum validator accepts exactly the strings of its domain, and
    rejects every other value with a message listing the whole domain,
    joined by ", ". *)
Theorem enum_validators_fail_closed :
  enum_validator validate_gender ["Male"; "Female"; "Other"] "Gender" /\
  enum_validator validate_ever_married ["No"; "Yes"] "Ever married" /\
  enum_validator validate_work_type
    ["Children"; "Govt_job"; "Never_worked"; "Private"; "Self-employed"] "Work type" /\
  enum_validator validate_residence_type ["Rural"; "Urban"] "Residence type" /\
  enum_validator validate_smoking_status
    ["Formerly smoked"; "Never smoked"; "Smokes"; "Unknown"] "Smoking status" /\
  validate_gender (PStr "male") = (false, "Gender must be one of: Male, Female, Other") /\
  validate_smoking_status PNone =
    (false, "Smoking status must be one of: Formerly smoked, Never smoked, Smokes, Unknown").
Proof.
  split; [apply enum_validator_intro; intros v; reflexivity|].
  split; [apply enum_validator_intro; intros v; reflexivity|].
  split; [apply enum_validator_intro; intros v; reflexivity|].
  split; [apply enum_validator_intro; intros v; reflexivity|].
  split; [apply enum_validator_intro; intros v; reflexivity|].
  split; reflexivity.
Qed.

Lemma zero_number_falsy (v : value) : zero_number v -> truthy v = false.
Proof.
  intros [-> | [-> | [sgn ->]]]; reflexivity.
Qed.

Lemma text_truthy (s : string) : s <> "" -> truthy (PStr s) = true.
Proof.
  destruct s; [congruence | reflexivity].
Qed.

Lemma int_of_string_nonempty (s : string) (z : Z) : int_of_string s = Some z -> s <> "".
Proof.
  intros H ->. discriminate H.
Qed.

Lemma float_of_string_nonempty (s : string) (x : spec_float) :
  float_of_string s = Some x -> s <> "".
Proof.
  intros H ->. discriminate H.
Qed.

Lemma falsy_required (v : value) :
  truthy v = false ->
  validate_patient_age v = Returns (false, "Age is required", None) /\
  validate_avg_glucose_level v = Returns (false, "Average glucose level is required", None) /\
  validate_bmi v = Returns (false, "BMI is required", None).
Proof.
  intros H. unfold validate_patient_age, validate_avg_glucose_level, validate_bmi.
  rewrite H. repeat split.
Qed.

Lemma zero_text_accepted_float (s : string) (x : spec_float) :
  float_of_string s = Some x -> zero_float x ->
  validate_avg_glucose_level (PStr s) = Returns (true, "", Some x) /\
  validate_bmi (PStr s) = Returns (true, "", Some x).
Proof.
  intros Hs [sgn ->]. pose proof (float_of_string_nonempty _ _ Hs) as Hne.
  unfold validate_avg_glucose_level, validate_bmi.
  rewrite (text_truthy _ Hne). cbn [negb float bind try_except]. rewrite Hs.
  destruct sgn; split; reflexivity.
Qed.

Lemma zero_text_accepted_int (s : string) :
  int_of_string s = Some 0 ->
  validate_patient_age (PStr s) = Returns (true, "", Some 0).
Proof.
  intros Hs. pose proof (int_of_string_nonempty _ _ Hs) as Hne.
  unfold validate_patient_age. rewrite (text_truthy _ Hne). cbn [negb int].
  rewrite Hs. reflexivity.
Qed.

(** C10. The three numeric validators reject every falsy input, the numbers
    [0] and [0.0] included, as "required" with no value, before any parsing;
    zero is accepted when it comes as a text such as "0", and a number equal
    to zero is never accepted. *)
Theorem numeric_validators_reject_falsy :
  (forall v : value, truthy v = false ->
     validate_patient_age v = Returns (false, "Age is required", None) /\
     validate_avg_glucose_level v =
       Returns (false, "Average glucose level is required", None) /\
     validate_bmi v = Returns (false, "BMI is required", None)) /\
  truthy PNone = false /\ truthy (PStr "") = false /\
  truthy (PInt 0) = false /\ truthy (PFloat (S754_zero false)) = false /\
  (forall s : string, int_of_string s = Some 0 ->
     validate_patient_age (PStr s) = Returns (true, "", Some 0)) /\
  (forall (s : string) (x : spec_float), float_of_string s = Some x -> zero_float x ->
     validate_avg_glucose_level (PStr s) = Returns (true, "", Some x) /\
     validate_bmi (PStr s) = Returns (true, "", Some x)) /\
  validate_patient_age (PStr "0") = Returns (true, "", Some 0) /\
  validate_bmi (PStr "0") = Returns (true, "", Some (S754_zero false)) /\
  (forall v : value, zero_number v ->
     ~ accepted (validate_patient_age v) /\
     ~ accepted (validate_avg_glucose_level v) /\
     ~ accepted (validate_bmi v)).
Proof.
  split; [exact falsy_required|].
  do 4 (split; [reflexivity|]).
  split; [exact zero_text_accepted_int|].
  split; [exact zero_text_accepted_float|].
  do 2 (split; [reflexivity|]).
  intros v Hz. apply zero_number_falsy in Hz.
  destruct (falsy_required v Hz) as (Ha & Hg & Hb).
  rewrite Ha, Hg, Hb. repeat split; intros [x Hx]; discriminate Hx.
Qed.

(** Witness of C10 at the number [0.0] and at the text "0.0". *)
Lemma numeric_validators_reject_falsy_witness :
  validate_bmi (PFloat (S754_zero false)) = Returns (false, "BMI is required", None) /\
  validate_bmi (PStr "0.0") = Returns (true, "", Some (S754_zero false)).
Proof.
  destruct numeric_validators_reject_falsy as (H1 & _ & _ & _ & _ & _ & H2 & _).
  split.
  - apply (H1 (PFloat (S754_zero false))). reflexivity.
  - apply (H2 "0.0" (S754_zero false)); [reflexivity | exists false; reflexivity].
Defined.

Lemma int_overflow_infinite (v : value) (e : exn) :
  int v = Raises e -> ~ infinite v -> isinstance [ValueError; TypeError] e = true.
Proof.
  intros H Hfin. destruct v as [ | b | z | f | s]; simpl in H; try discriminate.
  - injection H as <-. reflexivity.
  - destruct f; try discriminate.
    + exfalso. apply Hfin. eexists. reflexivity.
    + injection H as <-. reflexivity.
  - destruct (int_of_string s); [discriminate|]. injection H as <-. reflexivity.
Qed.

Lemma validate_hypertension_accepts (v : value) (n : Z) :
  validate_hypertension v = Returns (true, "", Some n) <->
  is_none_or_empty v = false /\ int v = Returns n /\ (n = 0 \/ n = 1).
Proof.
  unfold validate_hypertension.
  destruct (is_none_or_empty v) eqn:Hne.
  - split; [discriminate | intros (H & _); discriminate].
  - destruct (int v) as [m | e] eqn:Hint; cbn [bind try_except].
    + destruct (m =? 0) eqn:H0; [|destruct (m =? 1) eqn:H1]; cbn [orb negb].
      * apply Z.eqb_eq in H0. subst m. split.
        -- intros H. injection H as <-. auto.
        -- intros (_ & H & _). injection H as <-. reflexivity.
      * apply Z.eqb_eq in H1. subst m. split.
        -- intros H. injection H as <-. auto.
        -- intros (_ & H & _). injection H as <-. reflexivity.
      * apply Z.eqb_neq in H0, H1. split; [discriminate|].
        intros (_ & H & Hn). injection H as <-. lia.
    + split.
      * destruct (isinstance [ValueError; TypeError] e); discriminate.
      * intros (_ & H & _). discriminate.
Qed.

(** C7 as stated fails on the code: the float infinity is neither absent
    nor empty and its coercion is not 0 or 1, yet it is not rejected with
    the message: [int] raises [OverflowError], which the [except] clause
    does not name, and the validator raises. *)
Lemma validate_hypertension_infinity :
  validate_hypertension (PFloat (S754_infinity false)) = Raises (Builtin OverflowError) /\
  ~ (forall v : value,
       is_none_or_empty v = false ->
       ~ (exists n, int v = Returns n /\ (n = 0 \/ n = 1)) ->
       validate_hypertension v =
         Returns (false, "Hypertension must be 0 (No) or 1 (Yes)", None)).
Proof.
  split; [reflexivity|]. intros H.
  specialize (H (PFloat (S754_infinity false)) eq_refl).
  assert (Hno : ~ (exists n, int (PFloat (S754_infinity false)) = Returns n /\
                             (n = 0 \/ n = 1)))
    by (intros (n & Hn & _); discriminate Hn).
  specialize (H Hno). discriminate H.
Qed.

(** C7, as the code has it. [validate_hypertension] answers "required" on
    [None] and on the empty text; it accepts exactly the other inputs whose
    coercion to an integer is 0 or 1, with that integer; every other input
    that is not an infinite float, a non-numeric text or an integer outside
    {0, 1} in particular, gets the one message "Hypertension must be 0 (No)
    or 1 (Yes)". The docstring admits texts and integers, which excludes the
    infinite float. *)
Theorem validate_hypertension_spec :
  (forall v : value, is_none_or_empty v = true ->
     validate_hypertension v = Returns (false, "Hypertension value is required", None) /\
     rejected_with (validate_hypertension v) "required") /\
  (forall (v : value) (n : Z),
     validate_hypertension v = Returns (true, "", Some n) <->
     is_none_or_empty v = false /\ int v = Returns n /\ (n = 0 \/ n = 1)) /\
  (forall v : value, accepted (validate_hypertension v) ->
     exists n, validate_hypertension v = Returns (true, "", Some n) /\ (n = 0 \/ n = 1)) /\
  (forall v : value,
     is_none_or_empty v = false -> ~ infinite v ->
     ~ (exists n, int v = Returns n /\ (n = 0 \/ n = 1)) ->
     validate_hypertension v =
       Returns (false, "Hypertension must be 0 (No) or 1 (Yes)", None)) /\
  (forall s : string, s <> "" -> int_of_string s = None ->
     validate_hypertension (PStr s) =
       Returns (false, "Hypertension must be 0 (No) or 1 (Yes)", None)) /\
  (forall z : Z, z <> 0 -> z <> 1 ->
     validate_hypertension (PInt z) =
       Returns (false, "Hypertension must be 0 (No) or 1 (Yes)", None)).
Proof.
  pose proof validate_hypertension_accepts as Hacc.
  assert (Hrej : forall v : value,
     is_none_or_empty v = false -> ~ infinite v ->
     ~ (exists n, int v = Returns n /\ (n = 0 \/ n = 1)) ->
     validate_hypertension v =
       Returns (false, "Hypertension must be 0 (No) or 1 (Yes)", None)).
  { intros v Hne Hfin Hno. unfold validate_hypertension. rewrite Hne.
    destruct (int v) as [m | e] eqn:Hint; cbn [bind try_except].
    - destruct (m =? 0) eqn:H0; [|destruct (m =? 1) eqn:H1]; cbn [orb negb].
      + apply Z.eqb_eq in H0. exfalso. apply Hno. exists m. auto.
      + apply Z.eqb_eq in H1. exfalso. apply Hno. exists m. auto.
      + reflexivity.
    - rewrite (int_overflow_infinite v e Hint Hfin). reflexivity.
  }
  split; [|split; [exact Hacc|split; [|split; [exact Hrej|split]]]].
  - intros v Hv. unfold validate_hypertension. rewrite Hv. split; [reflexivity|].
    eexists. split; reflexivity.
  - intros v [n Hn]. exists n. split; [exact Hn|]. apply Hacc in Hn. tauto.
  - intros s Hne Hs. apply Hrej.
    + destruct s; [congruence | reflexivity].
    + intros [sgn H]; discriminate.
    + intros (n & Hn & _). simpl in Hn. rewrite Hs in Hn. discriminate.
  - intros z H0 H1. apply Hrej.
    + reflexivity.
    + intros [sgn H]; discriminate.
    + intros (n & Hn & Hor). simpl in Hn. injection Hn as <-. lia.
Qed.

(** Witness of C7 at the texts "1" and "yes" and at the integer 2. *)
Lemma validate_hypertension_spec_witness :
  validate_hypertension (PStr "1") = Returns (true, "", Some 1) /\
  validate_hypertension (PStr "yes") =
    Returns (false, "Hypertension must be 0 (No) or 1 (Yes)", None) /\
  validate_hypertension (PInt 2) =
    Returns (false, "Hypertension must be 0 (No) or 1 (Yes)", None) /\
  validate_hypertension (PStr "") = Returns (false, "Hypertension value is required", None).
Proof.
  destruct validate_hypertension_spec as (Hreq & Hacc & _ & Hrej & Htext & Hint).
  split; [|split; [|split]].
  - apply (Hacc (PStr "1") 1). split; [reflexivity | split; [reflexivity | right; reflexivity]].
  - apply (Htext "yes"); [discriminate | reflexivity].
  - apply (Hint 2); lia.
  - apply (Hreq (PStr "")). reflexivity.
Defined.

Lemma boundary_float_accepted (v : value) (x : spec_float) (top : Z) :
  top = 100 \/ top = 500 ->
  float v = Returns x -> truthy v = true ->
  zero_float x \/ x = float_of_Z top ->
  (let! value_float := float v in
   if float_lt value_float (float_of_Z 0) then Returns (false, "low", None)
   else if float_gt value_float (float_of_Z top) then Returns (false, "high", None)
   else Returns (true, "", Some value_float)) = Returns (true, "", Some x).
Proof.
  intros Htop Hx _ Hb. rewrite Hx. cbn [bind].
  destruct Hb as [[sgn ->] | ->].
  - destruct Htop as [-> | ->]; destruct sgn; reflexivity.
  - destruct Htop as [-> | ->]; reflexivity.
Qed.

Lemma maximum_truthy (v : value) (top : Z) :
  top = 100 \/ top = 500 -> float v = Returns (float_of_Z top) -> truthy v = true.
Proof.
  intros Htop H. destruct v as [ | b | z | f | s]; cbn [float truthy] in *.
  - discriminate H.
  - destruct b; [reflexivity|]. destruct Htop as [-> | ->]; vm_compute in H; discriminate H.
  - destruct (Z.eqb_spec z 0) as [-> | Hz]; [|reflexivity].
    destruct Htop as [-> | ->]; vm_compute in H; discriminate H.
  - injection H as ->. destruct Htop as [-> | ->]; reflexivity.
  - destruct s; [|reflexivity]. destruct Htop as [-> | ->]; vm_compute in H; discriminate H.
Qed.

(** C5, as the code has it. For [validate_bmi] (maximum 100) and
    [validate_avg_glucose_level] (maximum 500): every input whose numeric
    value is the maximum, and every text whose numeric value is zero, is
    valid and the float is returned; every input that [float] converts to a
    value above the maximum is invalid; every non-empty text that does not
    parse as a number is invalid with a message containing "number". *)
Theorem float_validators_boundaries :
  (forall (v : value) (x : spec_float),
     float v = Returns x ->
     (x = float_of_Z 100 -> validate_bmi v = Returns (true, "", Some x)) /\
     (x = float_of_Z 500 -> validate_avg_glucose_level v = Returns (true, "", Some x))) /\
  (forall (s : string) (x : spec_float),
     float_of_string s = Some x -> zero_float x ->
     validate_bmi (PStr s) = Returns (true, "", Some x) /\
     validate_avg_glucose_level (PStr s) = Returns (true, "", Some x)) /\
  (forall (v : value) (x : spec_float),
     float v = Returns x ->
     (float_gt x (float_of_Z 100) = true ->
      exists msg, validate_bmi v = Returns (false, msg, None)) /\
     (float_gt x (float_of_Z 500) = true ->
      exists msg, validate_avg_glucose_level v = Returns (false, msg, None))) /\
  (forall s : string, s <> "" -> float_of_string s = None ->
     rejected_with (validate_bmi (PStr s)) "number" /\
     rejected_with (validate_avg_glucose_level (PStr s)) "number").
Proof.
  assert (Hok : forall (v : value) (x : spec_float),
     float v = Returns x -> truthy v = true ->
     (zero_float x \/ x = float_of_Z 100 -> validate_bmi v = Returns (true, "", Some x)) /\
     (zero_float x \/ x = float_of_Z 500 ->
      validate_avg_glucose_level v = Returns (true, "", Some x))).
  { intros v x Hx Ht. split; intros Hb.
    + unfold validate_bmi. rewrite Ht. cbn [negb].
      pose proof (boundary_float_accepted v x 100 (or_introl eq_refl) Hx Ht Hb) as H.
      rewrite Hx in H |- *. cbn [bind try_except] in H |- *.
      destruct (float_lt x (float_of_Z 0)); [discriminate H|].
      destruct (float_gt x (float_of_Z 100)); [discriminate H|]. reflexivity.
    + unfold validate_avg_glucose_level. rewrite Ht. cbn [negb].
      pose proof (boundary_float_accepted v x 500 (or_intror eq_refl) Hx Ht Hb) as H.
      rewrite Hx in H |- *. cbn [bind try_except] in H |- *.
      destruct (float_lt x (float_of_Z 0)); [discriminate H|].
      destruct (float_gt x (float_of_Z 500)); [discriminate H|]. reflexivity. }
  split; [|split; [|split]].
  - intros v x Hx. split; intros ->.
    + apply (Hok v _ Hx); [|right; reflexivity].
      exact (maximum_truthy v 100 (or_introl eq_refl) Hx).
    + apply (Hok v _ Hx); [|right; reflexivity].
      exact (maximum_truthy v 500 (or_intror eq_refl) Hx).
  - intros s x Hs Hz.
    assert (Hx : float (PStr s) = Returns x) by (cbn [float]; rewrite Hs; reflexivity).
    pose proof (text_truthy s (float_of_string_nonempty s x Hs)) as Ht.
    split; apply (Hok (PStr s) x Hx Ht); left; exact Hz.
  - intros v x Hx. split; intros Hgt.
    + unfold validate_bmi. destruct (truthy v); cbn [negb]; [|eauto].
      rewrite Hx. cbn [bind try_except].
      destruct (float_lt x (float_of_Z 0)); [eauto|]. rewrite Hgt. eauto.
    + unfold validate_avg_glucose_level. destruct (truthy v); cbn [negb]; [|eauto].
      rewrite Hx. cbn [bind try_except].
      destruct (float_lt x (float_of_Z 0)); [eauto|]. rewrite Hgt. eauto.
  - intros s Hne Hs. unfold validate_bmi, validate_avg_glucose_level.
    rewrite (text_truthy s Hne). cbn [negb float]. rewrite Hs.
    split; eexists; split; reflexivity.
Qed.

(** Witness of C5: the texts "0", "100", "500" and "abc", and the doubles
    next above 100 and 500. *)
Lemma float_validators_boundaries_witness :
  validate_bmi (PStr "0") = Returns (true, "", Some (S754_zero false)) /\
  validate_bmi (PStr "100") = Returns (true, "", Some (float_of_Z 100)) /\
  validate_avg_glucose_level (PInt 500) = Returns (true, "", Some (float_of_Z 500)) /\
  (exists msg, validate_bmi (PFloat (SFsucc prec emax (float_of_Z 100)))
               = Returns (false, msg, None)) /\
  (exists msg, validate_avg_glucose_level (PStr "500.00000000000006")
               = Returns (false, msg, None)) /\
  rejected_with (validate_bmi (PStr "abc")) "number".
Proof.
  destruct float_validators_boundaries as (Hmax & Hzero & Hhigh & Hbad).
  split; [|split; [|split; [|split; [|split]]]].
  - apply (proj1 (Hzero "0" (S754_zero false) eq_refl (ex_intro _ false eq_refl))).
  - apply (proj1 (Hmax (PStr "100") (float_of_Z 100) eq_refl)). reflexivity.
  - apply (proj2 (Hmax (PInt 500) (float_of_Z 500) eq_refl)). reflexivity.
  - apply (proj1 (Hhigh (PFloat (SFsucc prec emax (float_of_Z 100)))
                    (SFsucc prec emax (float_of_Z 100)) eq_refl)).
    reflexivity.
  - apply (proj2 (Hhigh (PStr "500.00000000000006")
                    (SFsucc prec emax (float_of_Z 500)) eq_refl)).
    reflexivity.
  - apply (proj1 (Hbad "abc" ltac:(discriminate) eq_refl)).
Defined.

(** C5 as stated fails on the code: the float [0.0] has numeric value zero,
    and both validators answer "required"; the integer 2^1024 has a numeric
    value above both maxima, and on it [float] raises [OverflowError], which
    the [except] clause does not name. *)
Lemma float_validators_zero_number_rejected :
  ~ (forall (v : value) (x : spec_float),
       float v = Returns x -> zero_float x ->
       validate_bmi v = Returns (true, "", Some x) /\
       validate_avg_glucose_level v = Returns (true, "", Some x)) /\
  validate_bmi (PFloat (S754_zero false)) = Returns (false, "BMI is required", None) /\
  validate_bmi (PInt (2 ^ 1024)) = Raises (Builtin OverflowError) /\
  validate_avg_glucose_level (PInt (2 ^ 1024)) = Raises (Builtin OverflowError).
Proof.
  split; [|split; [reflexivity | split; vm_compute; reflexivity]].
  intros H.
  destruct (H (PFloat (S754_zero false)) (S754_zero false) eq_refl
              (ex_intro _ false eq_refl)) as [Hb _].
  discriminate Hb.
Qed.

End ValidationFacts.

Module PredictorFacts.
Import Py Predictor Spec.

Lemma starts_with_app (p s : string) : starts_with p (p +:+ s) = true.
Proof.
  induction p as [|c p IH]; simpl; [reflexivity|].
  rewrite Ascii.eqb_refl. exact IH.
Qed.

Lemma contains_prefix (p s : string) : starts_with p s = true -> contains p s = true.
Proof.
  intros H. destruct s; simpl; rewrite H; reflexivity.
Qed.

Lemma contains_app (p a b : string) : contains p (a +:+ p +:+ b) = true.
Proof.
  induction a as [|c a IH].
  - change ("" +:+ p +:+ b) with (p +:+ b). apply contains_prefix, starts_with_app.
  - change (String c a +:+ p +:+ b) with (String c (a +:+ p +:+ b)).
    cbn [contains]. rewrite IH. apply orb_true_r.
Qed.

Lemma load_model_loadable (fs : storage) (self : StrokePredictor) (m : pipeline) :
  loadable fs self m ->
  exists self', load_model fs self = (self', Returns tt) /\
                model self' = Some m /\ threshold self' = threshold self /\
                model_path self' = model_path self.
Proof.
  intros [Hc | [Hn Hfs]]; unfold load_model.
  - rewrite Hc. exists self. auto.
  - rewrite Hn. unfold exists_, joblib_load. rewrite Hfs. cbn [negb].
    exists (set_model self (Some m)). auto.
Qed.

(** C1, as the code has it. On a predictor with nothing cached: a missing
    file makes [load_model] raise [FileNotFoundError] with a message that
    names the path and no cause; a file that [joblib.load] cannot read makes
    it raise the same class, [FileNotFoundError], with the message
    "Error loading model: " followed by the text of the underlying
    exception, which is kept as the cause. Either way nothing is cached. *)
Theorem load_model_errors (fs : storage) (self : StrokePredictor) :
  model self = None ->
  (fs (model_path self) = Missing ->
   exists msg,
     load_model fs self = (self, Raises (Exn FileNotFoundError msg None)) /\
     starts_with "Model file not found at " msg = true /\
     contains (model_path self) msg = true) /\
  (forall (c : exn_class) (text : string) (cause : option exn),
     fs (model_path self) = Unreadable c text cause ->
     load_model fs self =
       (self, Raises (Exn FileNotFoundError ("Error loading model: " +:+ text)
                        (Some (Exn c text cause))))).
Proof.
  intros Hn. split.
  - intros Hfs. unfold load_model, exists_. rewrite Hn, Hfs. cbn [negb].
    eexists. split; [reflexivity|]. split; [reflexivity|].
    apply (contains_app (model_path self) "Model file not found at ").
  - intros c text cause Hfs. unfold load_model, exists_, joblib_load.
    rewrite Hn, Hfs. reflexivity.
Qed.

(** Witness of C1: a missing and an unreadable file at "model.pkl". *)
Lemma load_model_errors_witness :
  load_model (fun _ => Unreadable ValueError "bad pickle" None)
    (init "model.pkl" PREDICTION_THRESHOLD) =
  (init "model.pkl" PREDICTION_THRESHOLD,
   Raises (Exn FileNotFoundError "Error loading model: bad pickle"
             (Some (Exn ValueError "bad pickle" None)))) /\
  exists msg,
    load_model (fun _ => Missing) (init "model.pkl" PREDICTION_THRESHOLD) =
    (init "model.pkl" PREDICTION_THRESHOLD, Raises (Exn FileNotFoundError msg None)) /\
    starts_with "Model file not found at " msg = true /\
    contains "model.pkl" msg = true.
Proof.
  split.
  - apply (proj2 (load_model_errors (fun _ => Unreadable ValueError "bad pickle" None)
                    (init "model.pkl" PREDICTION_THRESHOLD) eq_refl)
             ValueError "bad pickle" None eq_refl).
  - apply (proj1 (load_model_errors (fun _ => Missing)
                    (init "model.pkl" PREDICTION_THRESHOLD) eq_refl) eq_refl).
Defined.

(** C1 as stated fails on the code: the error for an unreadable file has the
    same class as the error for a missing file. *)
Lemma load_error_same_class_as_not_found :
  ~ (forall (fs_missing fs_corrupt : storage) (self : StrokePredictor) (e1 e2 : exn),
       model self = None ->
       fs_missing (model_path self) = Missing ->
       (exists c text cause, fs_corrupt (model_path self) = Unreadable c text cause) ->
       snd (load_model fs_missing self) = Raises e1 ->
       snd (load_model fs_corrupt self) = Raises e2 ->
       class_of e1 <> class_of e2).
Proof.
  intros H.
  refine (H (fun _ => Missing) (fun _ => Unreadable ValueError "bad pickle" None)
            (init "model.pkl" PREDICTION_THRESHOLD) _ _ eq_refl eq_refl _ eq_refl eq_refl
            eq_refl).
  exists ValueError, "bad pickle", None. reflexivity.
Qed.

Lemma predict_loadable (fs : storage) (self : StrokePredictor) (m : pipeline)
    (patient_data : gmap string value) :
  loadable fs self m ->
  snd (predict fs self patient_data) =
  (let! features := prepare_features patient_data in
   verdict_on m (threshold self) features).
Proof.
  intros Hl. destruct (load_model_loadable fs self m Hl) as (self' & Hload & Hm & Ht & _).
  unfold predict. rewrite Hload. cbn [snd]. unfold infer, verdict_on, call_predict_proba.
  rewrite Hm, Ht. reflexivity.
Qed.


Example default_threshold :
  PREDICTION_THRESHOLD = S754_finite false (3 * 2 ^ 51) (-53) /\
  get_predictor None =
    (Some (init MODEL_PATH PREDICTION_THRESHOLD), init MODEL_PATH PREDICTION_THRESHOLD).
Proof. split; reflexivity. Qed.

(** C2. Once the artifact is there and yields the probability [p] for the
    row of the record, [predict] returns [p] itself, with prediction 1 when
    [p >= threshold] and 0 otherwise. The default threshold is 0.75: the
    probability 0.75 gives 1, the probability 0.7499999 gives 0, and so does
    the largest double below 0.75. *)
Theorem predict_threshold :
  (forall (fs : storage) (self : StrokePredictor) (m : pipeline)
          (patient_data : gmap string value) (features : frame) (p : spec_float),
     loadable fs self m ->
     prepare_features patient_data = Returns features ->
     predict_proba m features = Returns p ->
     snd (predict fs self patient_data) =
       Returns (if float_ge p (threshold self) then 1 else 0, p)) /\
  threshold (snd (get_predictor None)) = float_literal "0.75" /\
  (forall (fs : storage) (self : StrokePredictor) (m : pipeline)
          (patient_data : gmap string value) (features : frame) (p : spec_float),
     loadable fs self m ->
     threshold self = float_literal "0.75" ->
     prepare_features patient_data = Returns features ->
     predict_proba m features = Returns p ->
     (p = float_literal "0.75" -> snd (predict fs self patient_data) = Returns (1, p)) /\
     (p = float_literal "0.7499999" ->
      snd (predict fs self patient_data) = Returns (0, p)) /\
     (p = SFpred prec emax (float_literal "0.75") ->
      snd (predict fs self patient_data) = Returns (0, p))).
Proof.
  assert (Hgen : forall fs self m patient_data features p,
     loadable fs self m ->
     prepare_features patient_data = Returns features ->
     predict_proba m features = Returns p ->
     snd (predict fs self patient_data) =
       Returns (if float_ge p (threshold self) then 1 else 0, p)).
  { intros fs self m patient_data features p Hl Hf Hp.
    rewrite (predict_loadable fs self m patient_data Hl), Hf. cbn [bind].
    unfold verdict_on. rewrite Hp. reflexivity. }
  split; [exact Hgen|]. split; [reflexivity|].
  intros fs self m patient_data features p Hl Ht Hf Hp.
  rewrite (Hgen fs self m patient_data features p Hl Hf Hp), Ht.
  repeat split; intros ->; reflexivity.
Qed.

(** Witness of C2: a pipeline that answers 0.75 on the default predictor. *)
Lemma predict_threshold_witness :
  snd (predict (fun _ => Artifact (stub (float_literal "0.75")))
         (init MODEL_PATH PREDICTION_THRESHOLD) profile_without_bmi)
  = Returns (1, float_literal "0.75") /\
  snd (predict (fun _ => Artifact (stub (float_literal "0.7499999")))
         (init MODEL_PATH PREDICTION_THRESHOLD) profile_without_bmi)
  = Returns (0, float_literal "0.7499999").
Proof.
  destruct predict_threshold as (_ & _ & Hb). split.
  - eapply (proj1 (Hb (fun _ => Artifact (stub (float_literal "0.75")))
                     (init MODEL_PATH PREDICTION_THRESHOLD)
                     (stub (float_literal "0.75")) profile_without_bmi row_without_bmi
                     (float_literal "0.75")
                     (or_intror (conj eq_refl eq_refl)) eq_refl eq_refl eq_refl)).
    reflexivity.
  - eapply (proj1 (proj2 (Hb (fun _ => Artifact (stub (float_literal "0.7499999")))
                     (init MODEL_PATH PREDICTION_THRESHOLD)
                     (stub (float_literal "0.7499999")) profile_without_bmi
                     row_without_bmi (float_literal "0.7499999")
                     (or_intror (conj eq_refl eq_refl)) eq_refl eq_refl eq_refl))).
    reflexivity.
Defined.




Lemma get_absent_or_unparsable (parse : string -> bool)
    (patient_data : gmap string value) (key : string) :
  absent_or_unparsable parse patient_data key ->
  get patient_data key = PNone \/
  exists s, get patient_data key = PStr s /\ parse s = false.
Proof.
  unfold get. intros [H | [H | (s & H & Hs)]]; rewrite H; eauto.
Qed.

Lemma as_float_default (patient_data : gmap string value) (key : string)
    (default : spec_float) :
  absent_or_unparsable parses_as_float patient_data key ->
  _as_float (get patient_data key) default = Returns default.
Proof.
  intros H. destruct (get_absent_or_unparsable _ _ _ H) as [-> | (s & -> & Hs)].
  - reflexivity.
  - unfold parses_as_float in Hs. unfold _as_float. cbn [float].
    destruct (float_of_string s); [discriminate | reflexivity].
Qed.

Lemma as_int_default (patient_data : gmap string value) (key : string) (default : Z) :
  absent_or_unparsable parses_as_int patient_data key ->
  _as_int (get patient_data key) default = Returns default.
Proof.
  intros H. destruct (get_absent_or_unparsable _ _ _ H) as [-> | (s & -> & Hs)].
  - reflexivity.
  - unfold parses_as_int in Hs. unfold _as_int. cbn [int].
    destruct (int_of_string s); [discriminate | reflexivity].
Qed.

Lemma as_float_in_range (v : value) (default : spec_float) :
  overflows (float v) = false -> exists x, _as_float v default = Returns x.
Proof.
  unfold _as_float. destruct v as [ | b | z | f | s]; cbn [float]; eauto.
  - destruct (float_of_Z z); cbn; eauto. discriminate.
  - destruct (float_of_string s); cbn; eauto.
Qed.

Lemma as_int_in_range (v : value) (default : Z) :
  overflows (int v) = false -> exists n, _as_int v default = Returns n.
Proof.
  unfold _as_int. destruct v as [ | b | z | f | s]; cbn [int]; eauto.
  - destruct f; cbn; eauto. discriminate.
  - destruct (int_of_string s); cbn; eauto.
Qed.

Lemma float_field_in_range (v : value) :
  float_field v = true -> overflows (float v) = false.
Proof.
  destruct v as [ | b | z | f | s]; cbn [float_field float]; intros H; try reflexivity.
  - apply andb_true_iff in H. destruct H as [Hlo Hhi].
    apply Z.leb_le in Hlo. apply Z.ltb_lt in Hhi.
    pose proof (FloatFacts.float_of_Z_finite z (conj Hlo Hhi)) as Hfin.
    destruct (float_of_Z z); try reflexivity. exfalso. eapply Hfin. reflexivity.
  - destruct (float_of_string s); reflexivity.
Qed.

Lemma int_field_in_range (v : value) :
  int_field v = true -> overflows (int v) = false.
Proof.
  destruct v as [ | b | z | f | s]; cbn [int_field int]; intros H; try reflexivity.
  - destruct f; try reflexivity. discriminate H.
  - destruct (int_of_string s); reflexivity.
Qed.

(** Out of range: the two coercions raise [OverflowError], and [_as_int] and
    [_as_float] let it through. *)
Example as_int_infinity :
  _as_int (PFloat (S754_infinity true)) 0 = Raises (Builtin OverflowError) /\
  _as_float (PInt (10 ^ 400)) (S754_zero false) = Raises (Builtin OverflowError).
Proof. split; reflexivity. Qed.

(** C3, as the code has it. Every numeric field that is absent from the
    record, [None], or a text that does not parse takes its default (0.0 for
    [age], [avg_glucose_level] and [bmi], 0 for [hypertension]) instead of
    raising. On a record whose numbers are within the range of their
    coercions,
    [prepare_features] returns the row with these defaults in place, and
    [predict] returns a verdict for whatever probability the pipeline gives
    for that row. A record is within range whenever its integers fit 64 bits
    and its [hypertension] is not an infinite double; absent fields, [None]
    and texts always are. *)
Theorem prepare_features_degrades (patient_data : gmap string value) :
  (forall key : string,
     absent_or_unparsable parses_as_float patient_data key ->
     _as_float (get patient_data key) (S754_zero false) = Returns (S754_zero false)) /\
  (forall key : string,
     absent_or_unparsable parses_as_int patient_data key ->
     _as_int (get patient_data key) 0 = Returns 0) /\
  (in_range patient_data ->
   exists features,
     prepare_features patient_data = Returns features /\
     map fst features = schema /\
     (absent_or_unparsable parses_as_float patient_data "age" ->
      column "age" features = Some (PFloat (S754_zero false))) /\
     (absent_or_unparsable parses_as_int patient_data "hypertension" ->
      column "hypertension" features = Some (PInt 0)) /\
     (absent_or_unparsable parses_as_float patient_data "avg_glucose_level" ->
      column "avg_glucose_level" features = Some (PFloat (S754_zero false))) /\
     (absent_or_unparsable parses_as_float patient_data "bmi" ->
      column "bmi" features = Some (PFloat (S754_zero false))) /\
     (forall (fs : storage) (self : StrokePredictor) (m : pipeline) (p : spec_float),
        loadable fs self m ->
        predict_proba m features = Returns p ->
        snd (predict fs self patient_data) =
          Returns (if float_ge p (threshold self) then 1 else 0, p))) /\
  (storable patient_data -> in_range patient_data).
Proof.
  split; [intros key; apply as_float_default|].
  split; [intros key; apply as_int_default|].
  split.
  - intros (Ha & Hh & Hg & Hb).
    destruct (as_float_in_range _ (S754_zero false) Ha) as [a Ea].
    destruct (as_int_in_range _ 0 Hh) as [h Eh].
    destruct (as_float_in_range _ (S754_zero false) Hg) as [g Eg].
    destruct (as_float_in_range _ (S754_zero false) Hb) as [b Eb].
    eexists. split.
    { unfold prepare_features. rewrite Ea, Eh, Eg, Eb. reflexivity. }
    split; [reflexivity|].
    split; [intros H; rewrite (as_float_default _ _ _ H) in Ea; injection Ea as <-;
            reflexivity|].
    split; [intros H; rewrite (as_int_default _ _ _ H) in Eh; injection Eh as <-;
            reflexivity|].
    split; [intros H; rewrite (as_float_default _ _ _ H) in Eg; injection Eg as <-;
            reflexivity|].
    split; [intros H; rewrite (as_float_default _ _ _ H) in Eb; injection Eb as <-;
            reflexivity|].
    intros fs self m p Hl Hp.
    rewrite (predict_loadable fs self m patient_data Hl).
    unfold prepare_features. rewrite Ea, Eh, Eg, Eb. cbn [bind].
    unfold verdict_on. rewrite Hp. reflexivity.
  - intros (Ha & Hh & Hg & Hb). unfold in_range.
    auto using float_field_in_range, int_field_in_range.
Qed.

(** Witness: the stored profile without [bmi], on a pipeline that answers
    0.8. *)
Lemma prepare_features_degrades_witness :
  _as_float (get profile_without_bmi "bmi") (S754_zero false) = Returns (S754_zero false) /\
  exists features,
    prepare_features profile_without_bmi = Returns features /\
    column "bmi" features = Some (PFloat (S754_zero false)) /\
    snd (predict (fun _ => Artifact (stub (float_literal "0.8")))
           (init MODEL_PATH PREDICTION_THRESHOLD) profile_without_bmi)
    = Returns (1, float_literal "0.8").
Proof.
  destruct (prepare_features_degrades profile_without_bmi) as (Hf & _ & Hrow & _).
  split.
  - apply (Hf "bmi"). left. reflexivity.
  - destruct (Hrow (conj eq_refl (conj eq_refl (conj eq_refl eq_refl))))
      as (features & Hp & _ & _ & _ & _ & Hbmi & Hpredict).
    exists features. split; [exact Hp|]. split.
    + apply Hbmi. left. reflexivity.
    + apply (Hpredict (fun _ => Artifact (stub (float_literal "0.8")))
               (init MODEL_PATH PREDICTION_THRESHOLD) (stub (float_literal "0.8"))
               (float_literal "0.8") (or_intror (conj eq_refl eq_refl)) eq_refl).
Defined.

(** C3 as stated fails on the code: on a record without [bmi] whose
    [hypertension] holds the float infinity, [int] raises [OverflowError],
    the [except] clause of [_as_int] names [TypeError] and [ValueError]
    only, and [prepare_features] and [predict] raise; so they do when [age]
    holds the integer 2^1024, on which [float] raises [OverflowError]. *)
Lemma prepare_features_infinite_hypertension :
  get infinite_hypertension "bmi" = PNone /\
  prepare_features infinite_hypertension = Raises (Builtin OverflowError) /\
  predict (fun _ => Artifact (stub (float_literal "0.8")))
    (init MODEL_PATH PREDICTION_THRESHOLD) infinite_hypertension
  = (set_model (init MODEL_PATH PREDICTION_THRESHOLD) (Some (stub (float_literal "0.8"))),
     Raises (Builtin OverflowError)) /\
  prepare_features (<["age" := PInt (2 ^ 1024)]> profile_without_bmi)
  = Raises (Builtin OverflowError).
Proof.
  split; [reflexivity|]. split; [vm_compute; reflexivity|]. split; vm_compute; reflexivity.
Qed.

End PredictorFacts.

Module ConcurrentFacts.
Import Py Predictor Concurrent Spec.
Local Open Scope nat_scope.

Lemma pending_insert (cs : list (pc * gmap string value)) (i : nat)
    (c c' : pc * gmap string value) :
  cs !! i = Some c ->
  pending (<[i := c']> cs) + may_read (fst c) = pending cs + may_read (fst c').
Proof.
  revert i. induction cs as [|x cs IH]; intros [|i] H; try discriminate.
  - injection H as ->. simpl. lia.
  - simpl in H. cbn [pending]. change (<[S i := c']> (x :: cs)) with (x :: <[i := c']> cs).
    cbn [pending]. specialize (IH i H). lia.
Qed.

Lemma pending_start (requests : list (gmap string value)) :
  pending (map (fun d => (AtCheck, d)) requests) = length requests.
Proof.
  induction requests as [|d l IH]; simpl; [reflexivity | rewrite IH; reflexivity].
Qed.

Lemma data_start (requests : list (gmap string value)) :
  snd <$> map (fun d => (AtCheck, d)) requests = requests.
Proof.
  induction requests as [|d l IH]; simpl; [reflexivity | f_equal; exact IH].
Qed.

Lemma infer_cached (self : StrokePredictor) (m : pipeline) (thr : spec_float)
    (d : gmap string value) :
  model self = Some m -> threshold self = thr -> infer self d = expected m thr d.
Proof.
  intros Hm Ht. unfold infer, expected, call_predict_proba. rewrite Hm, Ht. reflexivity.
Qed.

(** Every step moves its call forward, until it has finished. *)
Lemma advance_rank (fs : storage) (self self' : StrokePredictor) (reads reads' : nat)
    (at_ at' : pc) (d : gmap string value) :
  advance fs self reads at_ d = (self', reads', at') ->
  Nat.min 5 (S (rank at_)) <= rank at'.
Proof.
  destruct at_; cbn [advance].
  - destruct (model self); intros H; injection H as <- <- <-; simpl; lia.
  - destruct (negb _); intros H; injection H as <- <- <-; simpl; lia.
  - destruct (joblib_load _ _); intros H; injection H as <- <- <-; simpl; lia.
  - intros H; injection H as <- <- <-; simpl; lia.
  - intros H; injection H as <- <- <-; simpl; lia.
  - intros H; injection H as <- <- <-; simpl; lia.
Qed.

Lemma advance_invariant (fs : storage) (p : StrokePredictor) (m : pipeline)
    (self self' : StrokePredictor) (reads reads' : nat) (at_ at' : pc)
    (d : gmap string value) :
  fs (model_path p) = Artifact m ->
  model_path self = model_path p -> threshold self = threshold p ->
  model self = None \/ model self = Some m ->
  (model self = Some m -> 1 <= reads) ->
  call_ok m p self reads (at_, d) ->
  advance fs self reads at_ d = (self', reads', at') ->
  model_path self' = model_path p /\ threshold self' = threshold p /\
  (model self' = None \/ model self' = Some m) /\
  (model self = Some m -> model self' = Some m) /\
  (model self' = Some m -> 1 <= reads') /\
  reads <= reads' /\
  reads' + may_read at' <= reads + may_read at_ /\
  call_ok m p self' reads' (at', d).
Proof.
  intros Hfs Hpath Hthr Hmodel Hcached Hok.
  destruct at_; cbn [advance].
  - destruct Hmodel as [Hn | Hs]; rewrite ?Hn, ?Hs; intros H; injection H as <- <- <-.
    + repeat split; auto; try (unfold may_read; simpl; lia). congruence.
    + repeat split; auto; unfold may_read; simpl; lia.
  - unfold exists_. rewrite Hpath, Hfs. cbn [negb]. intros H; injection H as <- <- <-.
    repeat split; auto; unfold may_read; simpl; lia.
  - unfold joblib_load. rewrite Hpath, Hfs. intros H; injection H as <- <- <-.
    repeat split; auto; try (unfold may_read; simpl; lia).
  - destruct Hok as [-> Hr]. intros H; injection H as <- <- <-.
    repeat split; auto; unfold may_read; simpl; lia.
  - cbn in Hok. intros H; injection H as <- <- <-.
    repeat split; auto; try (unfold may_read; simpl; lia).
    apply infer_cached; assumption.
  - destruct Hok as [Hr H1]. intros H; injection H as <- <- <-.
    repeat split; auto; unfold may_read; simpl; lia.
Qed.

Lemma call_ok_mono (m : pipeline) (p self self' : StrokePredictor) (reads reads' : nat)
    (c : pc * gmap string value) :
  (model self = Some m -> model self' = Some m) -> reads <= reads' ->
  call_ok m p self reads c -> call_ok m p self' reads' c.
Proof.
  intros Hm Hr. unfold call_ok. destruct (fst c); intuition lia.
Qed.

Lemma step_invariant (fs : storage) (p : StrokePredictor) (m : pipeline)
    (requests : list (gmap string value)) (w : world) (i : nat) :
  fs (model_path p) = Artifact m ->
  invariant m p requests w -> invariant m p requests (step fs w i).
Proof.
  intros Hfs [Hpath Hthr Hmodel Hcached Hdata Hcalls Hreads]. unfold step.
  destruct (calls w !! i) as [[at_ d]|] eqn:Hi; [|constructor; assumption].
  destruct (advance fs (self w) (reads w) at_ d) as [[self' reads'] at'] eqn:Hadv.
  destruct (advance_invariant fs p m _ _ _ _ _ _ d Hfs Hpath Hthr Hmodel Hcached
              (Hcalls i _ Hi) Hadv)
    as (Hpath' & Hthr' & Hmodel' & Hkeep & Hcached' & Hle & Hpend & Hok').
  constructor; cbn [self reads calls]; try assumption.
  - rewrite list_fmap_insert. cbn [snd]. rewrite <- Hdata. apply list_insert_id.
    rewrite list_lookup_fmap, Hi. reflexivity.
  - intros j c Hj. destruct (decide (i = j)) as [<- | Hne].
    + rewrite list_lookup_insert_eq in Hj by (eapply lookup_lt_Some; exact Hi).
      injection Hj as <-. exact Hok'.
    + rewrite list_lookup_insert_ne in Hj by exact Hne.
      eapply call_ok_mono; [exact Hkeep | exact Hle | exact (Hcalls j c Hj)].
  - pose proof (pending_insert (calls w) i (at_, d) (at', d) Hi) as Hp.
    cbn [fst] in Hp. lia.
Qed.

Lemma run_invariant (fs : storage) (p : StrokePredictor) (m : pipeline)
    (requests : list (gmap string value)) (schedule : list nat) (w : world) :
  fs (model_path p) = Artifact m ->
  invariant m p requests w -> invariant m p requests (run fs schedule w).
Proof.
  intros Hfs. revert w. unfold run.
  induction schedule as [|i l IH]; intros w Hw; [exact Hw|].
  cbn [fold_left]. apply IH, step_invariant; assumption.
Qed.

Lemma start_at_check (requests : list (gmap string value)) (i : nat)
    (c : pc * gmap string value) :
  map (fun d => (AtCheck, d)) requests !! i = Some c -> fst c = AtCheck.
Proof.
  revert i. induction requests as [|d l IH]; intros [|i] Hc; try discriminate.
  - injection Hc as <-. reflexivity.
  - exact (IH i Hc).
Qed.

Lemma start_invariant (p : StrokePredictor) (m : pipeline)
    (requests : list (gmap string value)) :
  model p = None -> invariant m p requests (start p requests).
Proof.
  intros Hn. constructor; cbn [start self reads calls]; auto.
  - intros H. congruence.
  - apply data_start.
  - intros i c Hc. unfold call_ok. rewrite (start_at_check _ _ _ Hc). exact I.
  - rewrite pending_start. lia.
Qed.

Lemma step_rank_self (fs : storage) (w : world) (i : nat) :
  Nat.min 5 (S (rank_at w i)) <= rank_at (step fs w i) i.
Proof.
  unfold rank_at, step. destruct (calls w !! i) as [[at_ d]|] eqn:Hi.
  - destruct (advance fs (self w) (reads w) at_ d) as [[self' reads'] at'] eqn:Hadv.
    cbn [calls]. rewrite list_lookup_insert_eq by (eapply lookup_lt_Some; exact Hi).
    cbn [fst]. eapply advance_rank. exact Hadv.
  - rewrite Hi. lia.
Qed.

Lemma step_rank_other (fs : storage) (w : world) (i j : nat) :
  j <> i -> rank_at (step fs w j) i = rank_at w i.
Proof.
  intros Hne. unfold rank_at, step. destruct (calls w !! j) as [[at_ d]|]; [|reflexivity].
  destruct (advance fs (self w) (reads w) at_ d) as [[self' reads'] at'].
  cbn [calls]. rewrite list_lookup_insert_ne by exact Hne. reflexivity.
Qed.

Lemma run_rank (fs : storage) (schedule : list nat) (w : world) (i : nat) :
  Nat.min 5 (rank_at w i + count_occ Nat.eq_dec schedule i)
  <= rank_at (run fs schedule w) i.
Proof.
  revert w. unfold run. induction schedule as [|j l IH]; intros w.
  - cbn [fold_left count_occ]. lia.
  - cbn [fold_left count_occ]. specialize (IH (step fs w j)).
    destruct (Nat.eq_dec j i) as [-> | Hne].
    + pose proof (step_rank_self fs w i). lia.
    + rewrite (step_rank_other fs w i j Hne) in IH. lia.
Qed.

Lemma step_settled (fs : storage) (w : world) (i : nat) :
  settled w -> settled (step fs w i) /\ reads (step fs w i) = reads w.
Proof.
  intros [[m Hm] Hcalls]. unfold step.
  destruct (calls w !! i) as [[at_ d]|] eqn:Hi; [|split; [split; eauto | reflexivity]].
  pose proof (Hcalls i _ Hi) as H1. cbn [fst] in H1.
  assert (Hstep : exists self' at',
            advance fs (self w) (reads w) at_ d = (self', reads w, at') /\
            (exists m', model self' = Some m') /\ (rank at' < 1 \/ 3 < rank at')).
  { destruct at_; cbn [advance]; cbn [rank] in H1; try lia.
    - rewrite Hm. exists (self w), AtInfer. repeat split; eauto; cbn; lia.
    - exists (self w), (Finished (infer (self w) d)). repeat split; eauto; cbn; lia.
    - exists (self w), (Finished r). repeat split; eauto; cbn; lia. }
  destruct Hstep as (self' & at' & -> & Hm' & Hr1).
  cbv beta iota. unfold settled. cbn [self reads calls]. split; [|reflexivity]. split; [exact Hm'|].
  intros j c Hj. destruct (decide (i = j)) as [<- | Hne].
  - rewrite list_lookup_insert_eq in Hj by (eapply lookup_lt_Some; exact Hi).
    injection Hj as <-. auto.
  - rewrite list_lookup_insert_ne in Hj by exact Hne. eauto.
Qed.

Lemma run_settled (fs : storage) (schedule : list nat) (w : world) :
  settled w -> reads (run fs schedule w) = reads w.
Proof.
  revert w. unfold run. induction schedule as [|i l IH]; intros w Hw; [reflexivity|].
  cbn [fold_left]. destruct (step_settled fs w i Hw) as [Hs Hr].
  rewrite (IH _ Hs). exact Hr.
Qed.

Lemma first_call_loads (fs : storage) (p : StrokePredictor) (m : pipeline)
    (d : gmap string value) (requests : list (gmap string value)) :
  model p = None -> fs (model_path p) = Artifact m ->
  run fs [0; 0; 0; 0] (start p (d :: requests)) =
  {| self := set_model p (Some m); reads := 1;
     calls := (AtInfer, d) :: map (fun d => (AtCheck, d)) requests |}.
Proof.
  intros Hn Hfs. unfold run, start. cbn [fold_left map].
  unfold step at 4. cbn [calls self reads lookup list_lookup advance]. rewrite Hn.
  cbn [insert list_insert].
  unfold step at 3. cbn [calls self reads lookup list_lookup advance].
  unfold exists_. rewrite Hfs. cbn [negb insert list_insert].
  unfold step at 2. cbn [calls self reads lookup list_lookup advance].
  unfold joblib_load. rewrite Hfs. cbn [insert list_insert].
  unfold step. cbn [calls self reads lookup list_lookup advance insert list_insert].
  reflexivity.
Qed.

(** C9 as stated fails on the code: two calls that both test [self.model]
    before either has stored the artifact both call [joblib.load]. *)
Lemma unguarded_load_reads_twice :
  ~ (forall (fs : storage) (p : StrokePredictor) (m : pipeline)
            (requests : list (gmap string value)) (schedule : list nat),
       model p = None -> fs (model_path p) = Artifact m ->
       reads (run fs schedule (start p requests)) <= 1).
Proof.
  intros H.
  specialize (H (fun _ => Artifact (stub (float_literal "0.8")))
                (init MODEL_PATH PREDICTION_THRESHOLD) (stub (float_literal "0.8"))
                [profile_without_bmi; profile_without_bmi]
                [0; 0; 1; 1; 0; 1; 0; 0; 1; 1] eq_refl eq_refl).
  vm_compute in H. lia.
Qed.

(** C9, as the code has it. [load_model] takes no lock. With the artifact
    at the path and N interleaved first calls of [predict] on one predictor,
    under every schedule: [joblib.load] is called at most N times; a call
    that has finished returned what [predict] returns when run alone, which
    is a verdict whenever the pipeline gives a probability for its row, and
    at least one load has happened by then; every call that
    is scheduled five times has finished; and when the first call has stored
    the artifact before any other call starts, the artifact is read exactly
    once. *)
Theorem concurrent_first_use (fs : storage) (p : StrokePredictor) (m : pipeline)
    (requests : list (gmap string value)) (schedule : list nat) :
  model p = None -> fs (model_path p) = Artifact m ->
  reads (run fs schedule (start p requests)) <= length requests /\
  (forall i r d,
     calls (run fs schedule (start p requests)) !! i = Some (Finished r, d) ->
     requests !! i = Some d /\ r = expected m (threshold p) d /\
     1 <= reads (run fs schedule (start p requests))) /\
  (forall i d,
     requests !! i = Some d -> 5 <= count_occ Nat.eq_dec schedule i ->
     calls (run fs schedule (start p requests)) !! i
     = Some (Finished (expected m (threshold p) d), d)) /\
  (forall d, snd (predict fs p d) = expected m (threshold p) d) /\
  (forall d features q,
     prepare_features d = Returns features -> predict_proba m features = Returns q ->
     expected m (threshold p) d
     = Returns ((if float_ge q (threshold p) then 1 else 0)%Z, q)) /\
  (forall d rest,
     requests = d :: rest ->
     reads (run fs ([0; 0; 0; 0] ++ schedule) (start p requests)) = 1).
Proof.
  intros Hn Hfs.
  pose proof (run_invariant fs p m requests schedule _ Hfs (start_invariant p m requests Hn))
    as [Hpath Hthr Hmodel Hcached Hdata Hcalls Hreads].
  assert (Hlook : forall i c, calls (run fs schedule (start p requests)) !! i = Some c ->
                              requests !! i = Some (snd c)).
  { intros i c Hc. rewrite <- Hdata, list_lookup_fmap, Hc. reflexivity. }
  split; [lia|]. split; [|split; [|split; [|split]]].
  - intros i r d Hc. pose proof (Hlook i _ Hc) as Hd. pose proof (Hcalls i _ Hc) as Hok.
    unfold call_ok in Hok. cbn [fst snd] in Hok, Hd. tauto.
  - intros i d Hd Hcount.
    pose proof (run_rank fs schedule (start p requests) i) as Hrank.
    unfold rank_at in Hrank at 2.
    destruct (calls (run fs schedule (start p requests)) !! i) as [[at_ d']|] eqn:Hc.
    + pose proof (Hlook i _ Hc) as Hd'. cbn [snd] in Hd'.
      assert (d' = d) as -> by congruence.
      pose proof (Hcalls i _ Hc) as Hok. unfold call_ok in Hok. cbn [fst snd] in Hok, Hrank.
      destruct at_; cbn [rank] in Hrank; try lia.
      destruct Hok as [-> _]. reflexivity.
    + exfalso. rewrite <- Hdata, list_lookup_fmap, Hc in Hd. discriminate Hd.
  - intros d.
    rewrite (PredictorFacts.predict_loadable fs p m d (or_intror (conj Hn Hfs))).
    reflexivity.
  - intros d features q Hf Hq. unfold expected. rewrite Hf. cbn [bind].
    rewrite Hq. reflexivity.
  - intros d rest ->. unfold run. rewrite fold_left_app.
    fold (run fs [0; 0; 0; 0] (start p (d :: rest))).
    rewrite (first_call_loads fs p m d rest Hn Hfs).
    match goal with |- reads (fold_left _ _ ?w) = _ => fold (run fs schedule w) end.
    rewrite run_settled; [reflexivity|].
    split; [exists m; reflexivity|].
    intros [|i] c Hc.
    + injection Hc as <-. cbn. lia.
    + change (map (fun d => (AtCheck, d)) rest !! i = Some c) in Hc.
      rewrite (start_at_check _ _ _ Hc). cbn. lia.
Qed.

(** Witness of C9: two calls on the default predictor, one after the other
    and then interleaved at will. *)
Lemma concurrent_first_use_witness :
  reads (run (fun _ => Artifact (stub (float_literal "0.8")))
           ([0; 0; 0; 0] ++ [1; 0; 1; 1; 0; 1; 1])
           (start (init MODEL_PATH PREDICTION_THRESHOLD)
              [profile_without_bmi; profile_without_bmi])) = 1 /\
  reads (run (fun _ => Artifact (stub (float_literal "0.8")))
           [0; 0; 1; 1; 0; 1; 0; 0; 1; 1]
           (start (init MODEL_PATH PREDICTION_THRESHOLD)
              [profile_without_bmi; profile_without_bmi])) <= 2.
Proof.
  split.
  - apply (proj2 (proj2 (proj2 (proj2 (proj2
             (concurrent_first_use (fun _ => Artifact (stub (float_literal "0.8")))
                (init MODEL_PATH PREDICTION_THRESHOLD) (stub (float_literal "0.8"))
                [profile_without_bmi; profile_without_bmi] [1; 0; 1; 1; 0; 1; 1]
                eq_refl eq_refl)))))
             profile_without_bmi [profile_without_bmi] eq_refl).
  - apply (proj1 (concurrent_first_use (fun _ => Artifact (stub (float_literal "0.8")))
                    (init MODEL_PATH PREDICTION_THRESHOLD) (stub (float_literal "0.8"))
                    [profile_without_bmi; profile_without_bmi]
                    [0; 0; 1; 1; 0; 1; 0; 0; 1; 1] eq_refl eq_refl)).
Defined.

End ConcurrentFacts.

Module FormsFacts.
Import Py Forms Words.

Lemma truthy_text (s : string) : truthy (PStr s) = negb (chars s =? 0).
Proof. destruct s; reflexivity. Qed.

Lemma match_plus_end_all (class : ascii -> bool) (s : string) :
  class "010"%char = true ->
  match_plus_end class s = negb (String.eqb s "") && all_chars class s.
Proof.
  intros Hnl. induction s as [|c r IH]; [reflexivity|].
  cbn [match_plus_end all_chars String.eqb negb andb]. rewrite IH.
  destruct (class c); [cbn [andb] | reflexivity].
  destruct (all_chars class r) eqn:Hall.
  - destruct r; [reflexivity|]. cbn [String.eqb negb andb]. apply orb_true_r.
  - rewrite andb_false_r, orb_false_r. unfold at_end.
    destruct r as [|c' r']; [discriminate Hall|].
    cbn [String.eqb orb]. destruct (Ascii.eqb_spec c' "010"%char) as [-> | Hne];
      [|reflexivity].
    destruct r' as [|c'' r'']; [|reflexivity].
    cbn in Hall. rewrite Hnl in Hall. discriminate Hall.
Qed.

Lemma all_chars_lstrip (class : ascii -> bool) (s : string) :
  (forall c, isspace c = true -> class c = true) ->
  all_chars class (str_lstrip s) = all_chars class s.
Proof.
  intros Hsub. induction s as [|c r IH]; [reflexivity|]. cbn [str_lstrip all_chars].
  destruct (isspace c) eqn:Hc; [|reflexivity]. rewrite IH, (Hsub c Hc). reflexivity.
Qed.

Lemma all_chars_rstrip (class : ascii -> bool) (s : string) :
  (forall c, isspace c = true -> class c = true) ->
  all_chars class (str_rstrip s) = all_chars class s.
Proof.
  intros Hsub. induction s as [|c r IH]; [reflexivity|]. cbn [str_rstrip all_chars].
  destruct (str_rstrip r) as [|c' t] eqn:Hr.
  - rewrite <- IH. cbn [all_chars]. destruct (isspace c) eqn:Hc.
    + rewrite (Hsub c Hc). reflexivity.
    + reflexivity.
  - rewrite <- IH. reflexivity.
Qed.

Lemma lstrip_empty (s : string) : str_lstrip s = "" <-> all_chars isspace s = true.
Proof.
  induction s as [|c r IH]; [split; reflexivity|]. cbn [str_lstrip all_chars].
  destruct (isspace c); [exact IH | split; discriminate].
Qed.

Lemma lstrip_head (s : string) (c : ascii) (r : string) :
  str_lstrip s = String c r -> isspace c = false.
Proof.
  induction s as [|a t IH]; [discriminate|]. cbn [str_lstrip].
  destruct (isspace a) eqn:Ha; [exact IH|]. intros H. injection H as <- _. exact Ha.
Qed.

Lemma rstrip_empty (s : string) : str_rstrip s = "" <-> all_chars isspace s = true.
Proof.
  induction s as [|c r IH]; [split; reflexivity|]. cbn [str_rstrip all_chars].
  destruct (str_rstrip r) as [|c' t] eqn:Hr.
  - destruct (isspace c); [|split; discriminate].
    cbn [andb]. split; intros _; [apply IH|]; reflexivity.
  - split; [discriminate|]. intros H. apply andb_true_iff in H. destruct H as [_ H].
    apply IH in H. discriminate H.
Qed.

Lemma strip_empty (s : string) : str_strip s = "" <-> all_chars isspace s = true.
Proof.
  unfold str_strip. rewrite rstrip_empty. destruct (str_lstrip s) as [|c r] eqn:Hl.
  - apply lstrip_empty in Hl. rewrite Hl. split; reflexivity.
  - pose proof (lstrip_head s c r Hl) as Hc. cbn [all_chars]. rewrite Hc. cbn [andb].
    split; [discriminate|]. intros H. apply lstrip_empty in H. congruence.
Qed.

Lemma name_class_space (c : ascii) : isspace c = true -> name_class c = true.
Proof.
  intros H. unfold name_class. rewrite H. cbn. rewrite orb_true_r. reflexivity.
Qed.

Lemma name_pattern (s : string) :
  match_plus_end name_class (str_strip s)
  = all_chars name_class s && negb (all_chars isspace s).
Proof.
  rewrite match_plus_end_all by reflexivity.
  unfold str_strip at 2.
  rewrite all_chars_rstrip, all_chars_lstrip by exact name_class_space.
  destruct (all_chars isspace s) eqn:Hsp.
  - apply strip_empty in Hsp. rewrite Hsp. cbn. rewrite andb_false_r. reflexivity.
  - destruct (str_strip s) eqn:Hst.
    + apply strip_empty in Hst. congruence.
    + cbn. rewrite andb_true_r. reflexivity.
Qed.

(** X2. [validate_patient_name] accepts a text exactly when it has 2 to 100
    characters, all of them letters a-z or A-Z, white space, hyphens or
    apostrophes, and at least one of them not white space; a text of 2 to 100
    white-space characters is answered with the message about letters, not
    with "required". *)
Theorem validate_patient_name_spec (s : string) :
  (validate_patient_name (PStr s) = Returns (true, "") <->
   2 <= chars s <= 100 /\ all_chars name_class s = true /\ all_chars isspace s = false) /\
  (2 <= chars s <= 100 -> all_chars isspace s = true ->
   validate_patient_name (PStr s)
   = Returns (false, "Name can only contain letters, spaces, hyphens, and apostrophes")).
Proof.
  unfold validate_patient_name. rewrite truthy_text. cbn [len strip_method bind].
  fold (chars s). rewrite name_pattern.
  destruct (chars s =? 0) eqn:H0; cbn [negb].
  { apply Z.eqb_eq in H0. split; [split; [discriminate | lia] | lia]. }
  destruct (chars s <? 2) eqn:H2.
  { apply Z.ltb_lt in H2. split; [split; [discriminate | lia] | lia]. }
  destruct (chars s >? 100) eqn:H100.
  { apply Z.gtb_lt in H100. split; [split; [discriminate | lia] | lia]. }
  apply Z.ltb_ge in H2.
  assert (chars s <= 100) by (rewrite Z.gtb_ltb in H100; apply Z.ltb_ge in H100; lia).
  destruct (all_chars name_class s), (all_chars isspace s); cbn; split;
    try (split; [try discriminate; auto | intros (_ & ? & ?); discriminate]);
    try (intros; try discriminate; reflexivity).
  split; [intros _; repeat split; auto; lia | reflexivity].
Qed.

(** Witness: a hyphenated name with an apostrophe, and three spaces. *)
Lemma validate_patient_name_spec_witness :
  validate_patient_name (PStr "Mary-Jane O'Connor") = Returns (true, "") /\
  validate_patient_name (PStr "   ")
  = Returns (false, "Name can only contain letters, spaces, hyphens, and apostrophes").
Proof.
  split.
  - apply (proj1 (validate_patient_name_spec "Mary-Jane O'Connor")).
    repeat split; try reflexivity; unfold chars; cbn; lia.
  - apply (proj2 (validate_patient_name_spec "   ")); [unfold chars; cbn; lia | reflexivity].
Defined.

Lemma validate_username_text (s : string) :
  validate_username (PStr s) =
  Returns (if chars s =? 0 then (false, "Username is required")
           else if chars s <? 3
                then (false, "Username must be at least 3 characters long")
                else (true, "")).
Proof.
  unfold validate_username. rewrite truthy_text. cbn [len bind].
  fold (chars s). destruct (chars s =? 0); [reflexivity|]. cbn [negb].
  destruct (chars s <? 3); reflexivity.
Qed.

Lemma validate_password_text (s : string) :
  validate_password (PStr s) =
  Returns (if chars s =? 0 then (false, "Password is required")
           else if chars s <? 6
                then (false, "Password must be at least 6 characters long")
                else if chars s >? 100 then (false, "Password is too long")
                     else (true, "")).
Proof.
  unfold validate_password. rewrite truthy_text. cbn [len bind].
  fold (chars s). destruct (chars s =? 0); [reflexivity|]. cbn [negb].
  destruct (chars s <? 6); [reflexivity|]. destruct (chars s >? 100); reflexivity.
Qed.

Lemma valid_username (s : string) :
  3 <= chars s -> validate_username (PStr s) = Returns (true, "").
Proof.
  intros H. rewrite validate_username_text.
  destruct (Z.eqb_spec (chars s) 0), (Z.ltb_spec (chars s) 3); try reflexivity; lia.
Qed.

Lemma valid_password (s : string) :
  6 <= chars s <= 100 -> validate_password (PStr s) = Returns (true, "").
Proof.
  intros H. rewrite validate_password_text, Z.gtb_ltb.
  destruct (Z.eqb_spec (chars s) 0), (Z.ltb_spec (chars s) 6),
    (Z.ltb_spec 100 (chars s)); try reflexivity; lia.
Qed.

(** X1. [validate_username] accepts a text exactly when it has at least 3
    characters, with no upper bound; [validate_password] exactly when it has
    6 to 100 characters. Neither strips: white space counts as characters.
    [None], the empty text and every other falsy value are answered
    "required"; a truthy number (a boolean, an integer or a float) makes
    [len] raise [TypeError]. *)
Theorem credentials_length_windows :
  (forall s : string, validate_username (PStr s) = Returns (true, "") <-> 3 <= chars s) /\
  (forall s : string,
     validate_password (PStr s) = Returns (true, "") <-> 6 <= chars s <= 100) /\
  (forall s : string, 1 <= chars s < 3 ->
     validate_username (PStr s)
     = Returns (false, "Username must be at least 3 characters long")) /\
  (forall s : string, 1 <= chars s < 6 ->
     validate_password (PStr s)
     = Returns (false, "Password must be at least 6 characters long")) /\
  (forall s : string, 100 < chars s ->
     validate_password (PStr s) = Returns (false, "Password is too long")) /\
  (forall v : value, truthy v = false ->
     validate_username v = Returns (false, "Username is required") /\
     validate_password v = Returns (false, "Password is required")) /\
  (forall v : value, truthy v = true -> number v = true ->
     validate_username v = Raises (Builtin TypeError) /\
     validate_password v = Raises (Builtin TypeError)).
Proof.
  split; [|split; [|split; [|split; [|split; [|split]]]]].
  - intros s. rewrite validate_username_text.
    destruct (Z.eqb_spec (chars s) 0), (Z.ltb_spec (chars s) 3);
      split; intros Hgoal; try discriminate Hgoal; try reflexivity; lia.
  - intros s. rewrite validate_password_text. rewrite Z.gtb_ltb.
    destruct (Z.eqb_spec (chars s) 0), (Z.ltb_spec (chars s) 6),
      (Z.ltb_spec 100 (chars s));
      split; intros Hgoal; try discriminate Hgoal; try reflexivity; lia.
  - intros s Hlen. rewrite validate_username_text.
    destruct (Z.eqb_spec (chars s) 0), (Z.ltb_spec (chars s) 3); try reflexivity; lia.
  - intros s Hlen. rewrite validate_password_text.
    destruct (Z.eqb_spec (chars s) 0), (Z.ltb_spec (chars s) 6); try reflexivity; lia.
  - intros s Hlen. rewrite validate_password_text. rewrite Z.gtb_ltb.
    destruct (Z.eqb_spec (chars s) 0), (Z.ltb_spec (chars s) 6),
      (Z.ltb_spec 100 (chars s)); try reflexivity; lia.
  - intros v Hf. unfold validate_username, validate_password. rewrite Hf.
    split; reflexivity.
  - intros v Ht Hv. unfold validate_username, validate_password. rewrite Ht. cbn [negb].
    destruct v; try discriminate Hv; split; reflexivity.
Qed.

(** Witness: three spaces are a valid user name, a 100-character password
    is valid and a 101-character one is too long; the integer 5 has no
    length. *)
Lemma credentials_length_windows_witness :
  validate_username (PStr "   ") = Returns (true, "") /\
  validate_password (PStr (string_of_list_ascii (repeat "a"%char 100))) = Returns (true, "") /\
  validate_password (PStr (string_of_list_ascii (repeat "a"%char 101)))
  = Returns (false, "Password is too long") /\
  validate_username (PInt 5) = Raises (Builtin TypeError) /\
  validate_password PNone = Returns (false, "Password is required").
Proof.
  destruct credentials_length_windows as (Hu & Hp & _ & _ & Hlong & Hreq & Hty).
  split; [|split; [|split; [|split]]].
  - apply (Hu "   "). unfold chars. cbn. lia.
  - apply (Hp (string_of_list_ascii (repeat "a"%char 100))). unfold chars. cbn. lia.
  - apply (Hlong (string_of_list_ascii (repeat "a"%char 101))). unfold chars. cbn. lia.
  - apply (Hty (PInt 5)); reflexivity.
  - apply (Hreq PNone). reflexivity.
Defined.

End FormsFacts.

Module ValidationMore.
Import Py Validation Spec Words Words2.

Lemma SFcompare_antisym (x y : spec_float) :
  SFcompare y x = option_map CompOpp (SFcompare x y).
Proof.
  destruct x as [sx | sx | | sx mx ex], y as [sy | sy | | sy my ey]; cbn;
    try (destruct sx; reflexivity); try (destruct sy; reflexivity);
    try (destruct sx, sy; reflexivity); try reflexivity.
  assert (Hm : Pos.compare_cont Eq my mx = CompOpp (Pos.compare_cont Eq mx my)).
  { symmetry. exact (Pos.compare_cont_antisym mx my Eq). }
  destruct sx, sy; cbn; try reflexivity.
  - rewrite (Z.compare_antisym ex ey), Hm.
    destruct (ex ?= ey); cbn; try reflexivity;
      destruct (Pos.compare_cont Eq mx my); reflexivity.
  - rewrite (Z.compare_antisym ex ey), Hm.
    destruct (ex ?= ey); cbn; try reflexivity;
      destruct (Pos.compare_cont Eq mx my); reflexivity.
Qed.

Lemma not_lt_ge (x y : spec_float) :
  x <> S754_nan -> y <> S754_nan -> float_lt x y = false -> float_le y x = true.
Proof.
  intros Hx Hy. unfold float_lt, float_le, SFltb, SFleb. rewrite (SFcompare_antisym x y).
  destruct (SFcompare x y) as [[]|] eqn:E; cbn; try reflexivity; try discriminate.
  intros _. destruct x, y; cbn in E; try discriminate; congruence.
Qed.

Lemma le_not_lt (x y : spec_float) : float_le y x = true -> float_lt x y = false.
Proof.
  unfold float_lt, float_le, SFltb, SFleb. rewrite (SFcompare_antisym x y).
  destruct (SFcompare x y) as [[]|]; cbn; try reflexivity; discriminate.
Qed.

Lemma float_window (x : spec_float) (top : Z) :
  top = 100 \/ top = 500 ->
  (float_lt x (float_of_Z 0) = false /\ float_gt x (float_of_Z top) = false) <->
  (x = S754_nan \/ (float_le (float_of_Z 0) x = true /\ float_le x (float_of_Z top) = true)).
Proof.
  intros Htop.
  assert (H0 : float_of_Z 0 <> S754_nan) by discriminate.
  assert (Ht : float_of_Z top <> S754_nan) by (destruct Htop as [-> | ->]; discriminate).
  split.
  - intros [Hlo Hhi]. destruct x as [s | s | | s m e] eqn:Ex; [right | right | left; reflexivity | right];
      (split; [apply not_lt_ge; [discriminate | exact H0 | exact Hlo]
              | apply not_lt_ge; [exact Ht | discriminate | exact Hhi]]).
  - intros [-> | [Hlo Hhi]]; [destruct Htop as [-> | ->]; split; reflexivity|].
    split; [apply le_not_lt; exact Hlo | apply le_not_lt; exact Hhi].
Qed.

Lemma float_validator_shape (v : value) (top : Z) (required negative high bad : string)
    (x : spec_float) :
  top = 100 \/ top = 500 ->
  (if negb (truthy v) then Returns (false, required, None)
   else try_except
          (let! value_float := float v in
           if float_lt value_float (float_of_Z 0) then Returns (false, negative, None)
           else if float_gt value_float (float_of_Z top) then Returns (false, high, None)
           else Returns (true, "", Some value_float))
          (isinstance [ValueError; TypeError])
          (fun _ => Returns (false, bad, None)))
  = Returns (true, "", Some x) <->
  truthy v = true /\ float v = Returns x /\
  (x = S754_nan \/ (float_le (float_of_Z 0) x = true /\ float_le x (float_of_Z top) = true)).
Proof.
  intros Htop. rewrite <- (float_window x top Htop).
  destruct (truthy v); cbn [negb]; [|split; [discriminate | intros (H & _); discriminate]].
  destruct (float v) as [y | e]; cbn [bind try_except].
  - destruct (float_lt y (float_of_Z 0)) eqn:Hlo.
    { split; [discriminate | intros (_ & H & Hl & _); injection H as <-; congruence]. }
    destruct (float_gt y (float_of_Z top)) eqn:Hhi.
    { split; [discriminate | intros (_ & H & _ & Hh); injection H as <-; congruence]. }
    split.
    + intros H. injection H as <-. auto.
    + intros (_ & H & _). injection H as <-. reflexivity.
  - split; [|intros (_ & H & _); discriminate].
    destruct (isinstance [ValueError; TypeError] e); discriminate.
Qed.

Lemma validate_bmi_accepts (v : value) (x : spec_float) :
  validate_bmi v = Returns (true, "", Some x) <->
  truthy v = true /\ float v = Returns x /\
  (x = S754_nan \/
   (float_le (float_of_Z 0) x = true /\ float_le x (float_of_Z 100) = true)).
Proof. apply (float_validator_shape v 100); left; reflexivity. Qed.

Lemma validate_avg_glucose_level_accepts (v : value) (x : spec_float) :
  validate_avg_glucose_level v = Returns (true, "", Some x) <->
  truthy v = true /\ float v = Returns x /\
  (x = S754_nan \/
   (float_le (float_of_Z 0) x = true /\ float_le x (float_of_Z 500) = true)).
Proof. apply (float_validator_shape v 500); right; reflexivity. Qed.

(** X5. [validate_bmi] and [validate_avg_glucose_level] accept exactly the
    truthy inputs whose float is between 0 and the maximum (100, 500), both
    included, or is NaN: the two range tests are false on NaN, so the text
    "nan" is a valid BMI and a valid glucose level, returned as NaN. *)
Theorem float_validators_accept_window_or_nan :
  (forall (v : value) (x : spec_float),
     validate_bmi v = Returns (true, "", Some x) <->
     truthy v = true /\ float v = Returns x /\
     (x = S754_nan \/
      (float_le (float_of_Z 0) x = true /\ float_le x (float_of_Z 100) = true))) /\
  (forall (v : value) (x : spec_float),
     validate_avg_glucose_level v = Returns (true, "", Some x) <->
     truthy v = true /\ float v = Returns x /\
     (x = S754_nan \/
      (float_le (float_of_Z 0) x = true /\ float_le x (float_of_Z 500) = true))) /\
  (forall s : string, float_of_string s = Some S754_nan ->
     validate_bmi (PStr s) = Returns (true, "", Some S754_nan) /\
     validate_avg_glucose_level (PStr s) = Returns (true, "", Some S754_nan)).
Proof.
  split; [exact validate_bmi_accepts|]. split; [exact validate_avg_glucose_level_accepts|].
  intros s Hs.
  pose proof (ValidationFacts.float_of_string_nonempty s _ Hs) as Hne.
  pose proof (ValidationFacts.text_truthy s Hne) as Ht.
  split.
  - apply validate_bmi_accepts. cbn [float]. rewrite Hs. auto.
  - apply validate_avg_glucose_level_accepts. cbn [float]. rewrite Hs. auto.
Qed.

(** Witness: the texts "nan" and "22.5". *)
Lemma float_validators_accept_window_or_nan_witness :
  validate_bmi (PStr "nan") = Returns (true, "", Some S754_nan) /\
  validate_bmi (PStr "22.5") = Returns (true, "", Some (float_literal "22.5")).
Proof.
  destruct float_validators_accept_window_or_nan as (Hb & _ & Hnan). split.
  - apply (proj1 (Hnan "nan" eq_refl)).
  - apply (Hb (PStr "22.5") (float_literal "22.5")).
    split; [reflexivity | split; [reflexivity | right; split; reflexivity]].
Defined.

Lemma validate_patient_age_accepts (v : value) (n : Z) :
  validate_patient_age v = Returns (true, "", Some n) <->
  truthy v = true /\ int v = Returns n /\ 0 <= n <= 150.
Proof.
  unfold validate_patient_age.
  destruct (truthy v); cbn [negb]; [|split; [discriminate | intros (H & _); discriminate]].
  destruct (int v) as [m | e].
  - destruct (Z.ltb_spec m 0) as [Hlo | Hlo];
      [split; [discriminate | intros (_ & Hm & ?); injection Hm as <-; lia]|].
    rewrite Z.gtb_ltb.
    destruct (Z.ltb_spec 150 m) as [Hhi | Hhi];
      [split; [discriminate | intros (_ & Hm & ?); injection Hm as <-; lia]|].
    split.
    + intros Hm. injection Hm as <-. repeat split; auto; lia.
    + intros (_ & Hm & _). injection Hm as <-. reflexivity.
  - split; [|intros (_ & H & _); discriminate].
    destruct (isinstance [ValueError; TypeError] e); discriminate.
Qed.

(** X3. [validate_patient_age] accepts exactly the truthy inputs whose [int] is
    between 0 and 150, and returns that integer; on a text it never raises,
    and a text that is not an integer literal (a decimal such as "25.0", an
    exponent, several words) is answered "Age must be a valid number". *)
Theorem validate_patient_age_spec :
  (forall (v : value) (n : Z),
     validate_patient_age v = Returns (true, "", Some n) <->
     truthy v = true /\ int v = Returns n /\ 0 <= n <= 150) /\
  (forall s : string, exists answer, validate_patient_age (PStr s) = Returns answer) /\
  (forall s : string, s <> "" -> int_of_string s = None ->
     validate_patient_age (PStr s) = Returns (false, "Age must be a valid number", None)) /\
  (forall (s : string) (n : Z), int_of_string s = Some n -> n < 0 ->
     validate_patient_age (PStr s) = Returns (false, "Age cannot be negative", None)) /\
  (forall (s : string) (n : Z), int_of_string s = Some n -> 150 < n ->
     validate_patient_age (PStr s)
     = Returns (false, "Age must be a reasonable value (less than 150)", None)).
Proof.
  split; [exact validate_patient_age_accepts|]. split; [|split; [|split]].
  - intros s. unfold validate_patient_age. destruct (truthy (PStr s)); cbn [negb int]; eauto.
    destruct (int_of_string s) as [m|]; cbn; eauto.
    destruct (m <? 0); eauto. destruct (m >? 150); eauto.
  - intros s Hne Hs. unfold validate_patient_age.
    rewrite (ValidationFacts.text_truthy s Hne). cbn [negb int]. rewrite Hs. reflexivity.
  - intros s n Hs Hn. unfold validate_patient_age.
    rewrite (ValidationFacts.text_truthy s (ValidationFacts.int_of_string_nonempty s n Hs)).
    cbn [negb int]. rewrite Hs. destruct (Z.ltb_spec n 0) as [Hlo | Hlo]; [reflexivity | lia].
  - intros s n Hs Hn. unfold validate_patient_age.
    rewrite (ValidationFacts.text_truthy s (ValidationFacts.int_of_string_nonempty s n Hs)).
    cbn [negb int]. rewrite Hs. destruct (Z.ltb_spec n 0) as [Hlo | Hlo]; [lia|].
    rewrite Z.gtb_ltb. destruct (Z.ltb_spec 150 n) as [Hhi | Hhi]; [reflexivity | lia].
Qed.

(** Witness: "42" is accepted, "25.0" is not a number, "-1" and "151" are
    out of range. *)
Lemma validate_patient_age_spec_witness :
  validate_patient_age (PStr "42") = Returns (true, "", Some 42) /\
  validate_patient_age (PStr "25.0") = Returns (false, "Age must be a valid number", None) /\
  validate_patient_age (PStr "-1") = Returns (false, "Age cannot be negative", None) /\
  validate_patient_age (PStr "151")
  = Returns (false, "Age must be a reasonable value (less than 150)", None).
Proof.
  destruct validate_patient_age_spec as (Hacc & _ & Hbad & Hneg & Hhigh).
  split; [|split; [|split]].
  - apply (Hacc (PStr "42") 42). split; [reflexivity | split; [reflexivity | lia]].
  - apply (Hbad "25.0"); [discriminate | reflexivity].
  - apply (Hneg "-1" (-1)); [reflexivity | lia].
  - apply (Hhigh "151" 151); [reflexivity | lia].
Defined.

Lemma coherent_rejection {A : Type} (msg : string) :
  msg <> "" -> coherent (A := A) (Returns (false, msg, None)).
Proof.
  intros Hne ok m val H. injection H as <- <- <-.
  split; split; try discriminate; try congruence. intros [x Hx]; discriminate.
Qed.

Lemma coherent_acceptance {A : Type} (x : A) : coherent (Returns (true, "", Some x)).
Proof.
  intros ok m val H. injection H as <- <- <-. split; split; eauto.
Qed.

Lemma coherent_raise {A : Type} (e : exn) : coherent (A := A) (Raises e).
Proof. intros ok m val H. discriminate H. Qed.

Lemma age_coherent (v : value) : coherent (validate_patient_age v).
Proof.
  unfold validate_patient_age. destruct (truthy v); cbn [negb];
    [|apply coherent_rejection; discriminate].
  destruct (int v) as [n | e].
  - destruct (n <? 0); [apply coherent_rejection; discriminate|].
    destruct (n >? 150); [apply coherent_rejection; discriminate|].
    apply coherent_acceptance.
  - destruct (isinstance _ e); [apply coherent_rejection; discriminate|].
    apply coherent_raise.
Qed.

Lemma hypertension_coherent (v : value) : coherent (validate_hypertension v).
Proof.
  unfold validate_hypertension. destruct (is_none_or_empty v);
    [apply coherent_rejection; discriminate|].
  destruct (int v) as [n | e]; cbn [bind try_except].
  - destruct (negb _); [apply coherent_rejection; discriminate|].
    apply coherent_acceptance.
  - destruct (isinstance _ e); [apply coherent_rejection; discriminate|].
    apply coherent_raise.
Qed.

Lemma glucose_coherent (v : value) : coherent (validate_avg_glucose_level v).
Proof.
  unfold validate_avg_glucose_level. destruct (truthy v); cbn [negb];
    [|apply coherent_rejection; discriminate].
  destruct (float v) as [x | e]; cbn [bind try_except].
  - destruct (float_lt _ _); [apply coherent_rejection; discriminate|].
    destruct (float_gt _ _); [apply coherent_rejection; discriminate|].
    apply coherent_acceptance.
  - destruct (isinstance _ e); [apply coherent_rejection; discriminate|].
    apply coherent_raise.
Qed.

Lemma bmi_coherent (v : value) : coherent (validate_bmi v).
Proof.
  unfold validate_bmi. destruct (truthy v); cbn [negb];
    [|apply coherent_rejection; discriminate].
  destruct (float v) as [x | e]; cbn [bind try_except].
  - destruct (float_lt _ _); [apply coherent_rejection; discriminate|].
    destruct (float_gt _ _); [apply coherent_rejection; discriminate|].
    apply coherent_acceptance.
  - destruct (isinstance _ e); [apply coherent_rejection; discriminate|].
    apply coherent_raise.
Qed.

(** X4. The four validators with a value answer coherently on every input: the
    flag is true exactly when the message is empty and exactly when a value
    comes with it, so a caller that tests the flag never reads [None] as a
    number and never shows an empty error. *)
Theorem numeric_validators_coherent (v : value) :
  coherent (validate_patient_age v) /\
  coherent (validate_hypertension v) /\
  coherent (validate_avg_glucose_level v) /\
  coherent (validate_bmi v).
Proof.
  auto using age_coherent, hypertension_coherent, glucose_coherent, bmi_coherent.
Qed.

(** Witness of the coherence on an accepted and on a rejected text. *)
Lemma numeric_validators_coherent_witness :
  ((true = true <-> "" = "") /\ (true = true <-> exists x, Some 42 = Some x)) /\
  ((false = true <-> "BMI must be a valid number" = "") /\
   (false = true <-> exists x : spec_float, None = Some x)).
Proof.
  split.
  - exact (proj1 (numeric_validators_coherent (PStr "42")) true "" (Some 42) eq_refl).
  - exact (proj2 (proj2 (proj2 (numeric_validators_coherent (PStr "abc"))))
             false "BMI must be a valid number" None eq_refl).
Defined.

Lemma lstrip_pad (a t : string) :
  all_chars is_space a = true -> lstrip (a +:+ t) = lstrip t.
Proof.
  induction a as [|c a IH]; [reflexivity|]. cbn [all_chars]. intros H.
  apply andb_true_iff in H. destruct H as [Hc Ha].
  change (String c a +:+ t) with (String c (a +:+ t)). cbn [lstrip]. rewrite Hc. auto.
Qed.

Lemma lstrip_spaces (a : string) : all_chars is_space a = true -> lstrip a = "".
Proof.
  induction a as [|c a IH]; [reflexivity|]. cbn [all_chars lstrip]. intros H.
  apply andb_true_iff in H. destruct H as [-> Ha]. auto.
Qed.

Lemma rstrip_spaces (b : string) : all_chars is_space b = true -> rstrip b = "".
Proof.
  induction b as [|c b IH]; [reflexivity|]. cbn [all_chars rstrip]. intros H.
  apply andb_true_iff in H. destruct H as [-> Hb]. rewrite (IH Hb). reflexivity.
Qed.

Lemma rstrip_pad (t b : string) :
  all_chars is_space b = true -> rstrip (t +:+ b) = rstrip t.
Proof.
  intros Hb. induction t as [|c t IH]; [exact (rstrip_spaces b Hb)|].
  change (String c t +:+ b) with (String c (t +:+ b)). cbn [rstrip]. rewrite IH. reflexivity.
Qed.

Lemma strip_pad (a s b : string) :
  all_chars is_space a = true -> all_chars is_space b = true ->
  strip (a +:+ s +:+ b) = strip s.
Proof.
  intros Ha Hb. unfold strip. rewrite (lstrip_pad a _ Ha).
  induction s as [|c s IH].
  - change ("" +:+ b) with b. rewrite (lstrip_spaces b Hb). reflexivity.
  - change (String c s +:+ b) with (String c (s +:+ b)). cbn [lstrip].
    destruct (is_space c); [exact IH|].
    change (String c (s +:+ b)) with (String c s +:+ b). apply rstrip_pad, Hb.
Qed.

Lemma strip_spaces (a : string) : all_chars is_space a = true -> strip a = "".
Proof.
  intros Ha. unfold strip. rewrite (lstrip_spaces a Ha). reflexivity.
Qed.

Lemma padded_nonempty (a s b : string) : s <> "" -> a +:+ s +:+ b <> "".
Proof.
  intros Hs. destruct a; [|discriminate]. destruct s; [congruence | discriminate].
Qed.

(** X6. White space around a number. The four numeric validators read a text
    with white space (space, tab, newline, ...) before and after it as they
    read the text itself. A text of white space only is not empty: it is
    answered "must be a valid number" (for hypertension "must be 0 (No) or 1
    (Yes)"), not "required". *)
Theorem numeric_validators_white_space :
  (forall a s b : string,
     all_chars is_space a = true -> all_chars is_space b = true -> s <> "" ->
     validate_patient_age (PStr (a +:+ s +:+ b)) = validate_patient_age (PStr s) /\
     validate_hypertension (PStr (a +:+ s +:+ b)) = validate_hypertension (PStr s) /\
     validate_avg_glucose_level (PStr (a +:+ s +:+ b))
     = validate_avg_glucose_level (PStr s) /\
     validate_bmi (PStr (a +:+ s +:+ b)) = validate_bmi (PStr s)) /\
  (forall a : string,
     all_chars is_space a = true -> a <> "" ->
     validate_patient_age (PStr a) = Returns (false, "Age must be a valid number", None) /\
     validate_hypertension (PStr a)
     = Returns (false, "Hypertension must be 0 (No) or 1 (Yes)", None) /\
     validate_avg_glucose_level (PStr a)
     = Returns (false, "Glucose level must be a valid number", None) /\
     validate_bmi (PStr a) = Returns (false, "BMI must be a valid number", None)).
Proof.
  split.
  - intros a s b Ha Hb Hs.
    assert (Hi : int (PStr (a +:+ s +:+ b)) = int (PStr s)).
    { cbn [int]. unfold int_of_string. rewrite (strip_pad a s b Ha Hb). reflexivity. }
    assert (Hf : float (PStr (a +:+ s +:+ b)) = float (PStr s)).
    { cbn [float]. unfold float_of_string. rewrite (strip_pad a s b Ha Hb). reflexivity. }
    assert (Ht : truthy (PStr (a +:+ s +:+ b)) = truthy (PStr s)).
    { rewrite !ValidationFacts.text_truthy; auto using padded_nonempty. }
    assert (He : is_none_or_empty (PStr (a +:+ s +:+ b)) = is_none_or_empty (PStr s)).
    { pose proof (padded_nonempty a s b Hs). cbn [is_none_or_empty].
      destruct (a +:+ s +:+ b), s; try congruence; reflexivity. }
    unfold validate_patient_age, validate_hypertension, validate_avg_glucose_level,
      validate_bmi. rewrite Hi, Hf, Ht, He. repeat split.
  - intros a Ha Hne.
    assert (Hi : int_of_string a = None).
    { unfold int_of_string. rewrite (strip_spaces a Ha). reflexivity. }
    assert (Hf : float_of_string a = None).
    { unfold float_of_string. rewrite (strip_spaces a Ha). reflexivity. }
    unfold validate_patient_age, validate_hypertension, validate_avg_glucose_level,
      validate_bmi.
    rewrite (ValidationFacts.text_truthy a Hne). cbn [negb int float is_none_or_empty].
    rewrite Hi, Hf. destruct a; [congruence|]. repeat split.
Qed.

(** Witness: " 42 " with a tab and a newline around it, and a single space. *)
Lemma numeric_validators_white_space_witness :
  validate_patient_age (PStr (String "009" " " +:+ "42" +:+ String "010" ""))
  = validate_patient_age (PStr "42") /\
  validate_bmi (PStr " ") = Returns (false, "BMI must be a valid number", None).
Proof.
  destruct numeric_validators_white_space as (Hpad & Hblank). split.
  - apply (proj1 (Hpad (String "009" " ") "42" (String "010" "")
                    eq_refl eq_refl ltac:(discriminate))).
  - apply (proj2 (proj2 (proj2 (Hblank " " eq_refl ltac:(discriminate))))).
Defined.

End ValidationMore.

Module PredictorMore.
Import Py Predictor Spec Words3.

Lemma load_model_frame (fs : storage) (self : StrokePredictor) :
  threshold (fst (load_model fs self)) = threshold self /\
  model_path (fst (load_model fs self)) = model_path self /\
  (snd (load_model fs self) = Returns tt ->
   model (fst (load_model fs self)) = None ->
   model self = None /\ fs (model_path self) = PickledNone) /\
  (forall e, snd (load_model fs self) = Raises e ->
     fst (load_model fs self) = self /\ model self = None /\
     class_of e = FileNotFoundError).
Proof.
  unfold load_model. destruct (model self) eqn:Hm.
  - cbn. split; [reflexivity|]. split; [reflexivity|]. split.
    + intros _. congruence.
    + intros e H. discriminate H.
  - unfold exists_, joblib_load.
    destruct (fs (model_path self)) as [ | c msg cause | m | ]; cbn;
      (split; [reflexivity|]); (split; [reflexivity|]); split;
      try discriminate; auto.
    + intros e H. injection H as <-. auto.
    + intros e H. injection H as <-. auto.
Qed.

Lemma predict_caches (fs : storage) (self : StrokePredictor) (m : pipeline)
    (patient_data : gmap string value) :
  loadable fs self m ->
  model (fst (predict fs self patient_data)) = Some m /\
  model_path (fst (predict fs self patient_data)) = model_path self /\
  threshold (fst (predict fs self patient_data)) = threshold self /\
  forall d, fst (predict fs self d) = fst (predict fs self patient_data).
Proof.
  intros Hl.
  destruct (PredictorFacts.load_model_loadable fs self m Hl) as (self' & Hload & Hm & Ht & Hp).
  unfold predict. rewrite Hload. cbn [fst]. auto.
Qed.

Lemma cached_ignores_storage (q : StrokePredictor) (m : pipeline) (fs : storage)
    (d : gmap string value) :
  model q = Some m ->
  load_model fs q = (q, Returns tt) /\ predict fs q d = (q, infer q d).
Proof.
  intros Hm. unfold predict, load_model. rewrite Hm. split; reflexivity.
Qed.

Lemma load_unavailable (fs : storage) (self : StrokePredictor) :
  model self = None -> unavailable fs (model_path self) ->
  exists e, load_model fs self = (self, Raises e) /\ class_of e = FileNotFoundError.
Proof.
  intros Hn Hbad. unfold load_model, exists_, joblib_load. rewrite Hn.
  destruct Hbad as [-> | (c & msg & cause & ->)]; cbn; eexists; split; reflexivity.
Qed.

Lemma set_model_none (self : StrokePredictor) :
  model self = None -> set_model self None = self.
Proof. destruct self as [path thr cached]. cbn. intros ->. reflexivity. Qed.

Lemma predict_pickled_none (fs : storage) (self : StrokePredictor)
    (patient_data : gmap string value) :
  model self = None -> fs (model_path self) = PickledNone ->
  predict fs self patient_data
  = (self, let! _ := prepare_features patient_data in Raises no_predict_proba).
Proof.
  intros Hn Hfs. unfold predict, load_model, exists_, joblib_load. rewrite Hn, Hfs.
  cbn [negb]. rewrite (set_model_none self Hn). unfold infer, call_predict_proba.
  rewrite Hn. destruct (prepare_features patient_data); reflexivity.
Qed.

Lemma predict_translates (fs : storage) (self : StrokePredictor) (m : pipeline)
    (patient_data : gmap string value) (features : frame) (e : exn) :
  loadable fs self m ->
  prepare_features patient_data = Returns features ->
  predict_proba m features = Raises e ->
  snd (predict fs self patient_data) = Raises (translated e).
Proof.
  intros Hl Hf Hp.
  rewrite (PredictorFacts.predict_loadable fs self m patient_data Hl), Hf. cbn [bind].
  unfold verdict_on, translated, try_except, isinstance. rewrite Hp. cbn [existsb].
  rewrite orb_false_r. destruct (issubclass (class_of e) AttributeError); reflexivity.
Qed.

(** X7. The artifact is cached when it is an object, and only then. A
    prediction that found or loaded an object other than [None] leaves it
    cached, with path and threshold unchanged, whether or not the pipeline
    then raised; on such a predictor [load_model] and [predict] give the same
    results on every storage, one where the file has since gone missing
    included. A file that holds [None] is loaded without error and leaves
    [self.model] as it was, [None]: the prediction raises [RuntimeError]
    "Loaded model does not expose predict_proba" once the row is prepared,
    the predictor is unchanged, and the next call reads the storage again. *)
Theorem predict_memoizes (fs : storage) (self : StrokePredictor)
    (patient_data : gmap string value) :
  (forall m : pipeline, loadable fs self m ->
     model (fst (predict fs self patient_data)) = Some m /\
     model_path (fst (predict fs self patient_data)) = model_path self /\
     threshold (fst (predict fs self patient_data)) = threshold self /\
     (forall (fs' : storage) (d : gmap string value),
        load_model fs' (fst (predict fs self patient_data))
        = (fst (predict fs self patient_data), Returns tt) /\
        predict fs' (fst (predict fs self patient_data)) d
        = (fst (predict fs self patient_data), snd (predict fs self d)))) /\
  (model self = None -> fs (model_path self) = PickledNone ->
     load_model fs self = (self, Returns tt) /\
     predict fs self patient_data
     = (self, let! _ := prepare_features patient_data in Raises no_predict_proba) /\
     (forall (fs' : storage) (d : gmap string value),
        predict fs' (fst (predict fs self patient_data)) d = predict fs' self d) /\
     (forall (fs' : storage) (d : gmap string value),
        unavailable fs' (model_path self) ->
        exists e, snd (predict fs' (fst (predict fs self patient_data)) d) = Raises e /\
                  class_of e = FileNotFoundError)).
Proof.
  split.
  - intros m Hl.
    destruct (predict_caches fs self m patient_data Hl) as (Hm & Hp & Ht & Hsame).
    split; [exact Hm|]. split; [exact Hp|]. split; [exact Ht|].
    intros fs' d.
    destruct (cached_ignores_storage _ m fs' d Hm) as [Hload Hpredict].
    split; [exact Hload|]. rewrite Hpredict. f_equal.
    rewrite <- (Hsame d). unfold predict.
    destruct (PredictorFacts.load_model_loadable fs self m Hl) as (self' & -> & _).
    reflexivity.
  - intros Hn Hfs. rewrite (predict_pickled_none fs self patient_data Hn Hfs). cbn [fst].
    split.
    + unfold load_model, exists_, joblib_load. rewrite Hn, Hfs. cbn [negb].
      rewrite (set_model_none self Hn). reflexivity.
    + split; [reflexivity|]. split; [reflexivity|].
      intros fs' d Hbad. destruct (load_unavailable fs' self Hn Hbad) as (e & He & Hc).
      exists e. unfold predict. rewrite He. auto.
Qed.

(** Witness: the default predictor loads a stub, then predicts with the
    file gone; on a file that holds [None] it raises and has cached
    nothing. *)
Lemma predict_memoizes_witness :
  snd (predict (fun _ => Missing)
         (fst (predict (fun _ => Artifact (stub (float_literal "0.8")))
                 (init MODEL_PATH PREDICTION_THRESHOLD) profile_without_bmi))
         profile_without_bmi)
  = Returns (1, float_literal "0.8") /\
  predict (fun _ => PickledNone) (init MODEL_PATH PREDICTION_THRESHOLD) profile_without_bmi
  = (init MODEL_PATH PREDICTION_THRESHOLD, Raises no_predict_proba).
Proof.
  split.
  - pose proof (proj1 (predict_memoizes (fun _ => Artifact (stub (float_literal "0.8")))
                         (init MODEL_PATH PREDICTION_THRESHOLD) profile_without_bmi)
                  (stub (float_literal "0.8")) (or_intror (conj eq_refl eq_refl)))
      as (_ & _ & _ & H).
    rewrite (proj2 (H (fun _ => Missing) profile_without_bmi)). reflexivity.
  - exact (proj1 (proj2 (proj2 (predict_memoizes (fun _ => PickledNone)
                                  (init MODEL_PATH PREDICTION_THRESHOLD)
                                  profile_without_bmi) eq_refl eq_refl))).
Defined.

(** X8. A failed load is not cached. While the file is missing or unreadable,
    every prediction raises [FileNotFoundError] before the record is looked
    at, whatever the record, and leaves the predictor as it was; as soon as
    the path holds an artifact the same predictor predicts. *)
Theorem failed_load_not_cached (fs : storage) (self : StrokePredictor)
    (patient_data : gmap string value) :
  model self = None ->
  unavailable fs (model_path self) ->
  (exists e, predict fs self patient_data = (self, Raises e) /\
             class_of e = FileNotFoundError /\
             forall d, predict fs self d = (self, Raises e)) /\
  (forall (fs' : storage) (m : pipeline) (d : gmap string value),
     fs' (model_path self) = Artifact m ->
     snd (predict fs' (fst (predict fs self patient_data)) d)
     = (let! features := prepare_features d in verdict_on m (threshold self) features)).
Proof.
  intros Hn Hbad.
  destruct (load_unavailable fs self Hn Hbad) as (e & Hload & Hclass).
  assert (Hall : forall d, predict fs self d = (self, Raises e)).
  { intros d. unfold predict. rewrite Hload. reflexivity. }
  split.
  - exists e. auto.
  - intros fs' m d Hfs'. rewrite Hall. cbn [fst].
    apply PredictorFacts.predict_loadable. right. auto.
Qed.

(** Witness: a missing file, then the file in place. *)
Lemma failed_load_not_cached_witness :
  snd (predict (fun _ => Artifact (stub (float_literal "0.8")))
         (fst (predict (fun _ => Missing) (init MODEL_PATH PREDICTION_THRESHOLD)
                 profile_without_bmi))
         profile_without_bmi)
  = Returns (1, float_literal "0.8").
Proof.
  rewrite (proj2 (failed_load_not_cached (fun _ => Missing)
                    (init MODEL_PATH PREDICTION_THRESHOLD) profile_without_bmi eq_refl
                    (or_introl eq_refl))
             (fun _ => Artifact (stub (float_literal "0.8")))
             (stub (float_literal "0.8")) profile_without_bmi eq_refl).
  reflexivity.
Defined.

Lemma issubclass_refl_builtin :
  issubclass AttributeError AttributeError = true /\
  issubclass FileNotFoundError FileNotFoundError = true.
Proof. split; reflexivity. Qed.

Lemma issubclass_base (name : string) (bases : list exn_class) (k : exn_class) :
  (exists b, In b bases /\ issubclass b k = true) ->
  issubclass (OtherError name bases) k = true.
Proof.
  intros (b & Hin & Hb). cbn [issubclass]. apply orb_true_iff. right.
  apply existsb_exists. exists b. auto.
Qed.

(** X9. When the pipeline raises on the row, [predict] raises too and keeps
    the artifact cached. [except AttributeError] catches the class and every
    class that derives from it: such an exception comes out as
    [RuntimeError] "Loaded model does not expose predict_proba" with the
    original as its cause; an exception of any class that does not derive
    from [AttributeError] comes out unchanged. *)
Theorem predict_pipeline_failure (fs : storage) (self : StrokePredictor) (m : pipeline)
    (patient_data : gmap string value) (features : frame) (e : exn) :
  loadable fs self m ->
  prepare_features patient_data = Returns features ->
  predict_proba m features = Raises e ->
  model (fst (predict fs self patient_data)) = Some m /\
  (issubclass (class_of e) AttributeError = true ->
   snd (predict fs self patient_data)
   = Raises (Exn RuntimeError "Loaded model does not expose predict_proba" (Some e))) /\
  (issubclass (class_of e) AttributeError = false ->
   snd (predict fs self patient_data) = Raises e) /\
  (class_of e = AttributeError \/
   (exists name bases b, class_of e = OtherError name bases /\ In b bases /\
                         issubclass b AttributeError = true) ->
   issubclass (class_of e) AttributeError = true) /\
  (In (class_of e) [FileNotFoundError; RuntimeError; TypeError; ValueError; OverflowError] ->
   issubclass (class_of e) AttributeError = false).
Proof.
  intros Hl Hf Hp.
  pose proof (predict_translates fs self m patient_data features e Hl Hf Hp) as Hraise.
  unfold translated in Hraise.
  split; [exact (proj1 (predict_caches fs self m patient_data Hl))|].
  split; [intros Hc; rewrite Hc in Hraise; exact Hraise|].
  split; [intros Hc; rewrite Hc in Hraise; exact Hraise|].
  split.
  - intros [-> | (name & bases & b & -> & Hin & Hb)]; [reflexivity|].
    apply issubclass_base. eauto.
  - cbn [In]. intros [<- | [<- | [<- | [<- | [<- | []]]]]]; reflexivity.
Qed.

(** Witness: a pipeline without [predict_proba], one that raises
    [ValueError] on a row it does not like, and one that raises an error
    deriving from both [ValueError] and [AttributeError]. *)
Lemma predict_pipeline_failure_witness :
  snd (predict (fun _ => Artifact {| predict_proba := fun _ => Raises (Builtin AttributeError) |})
         (init MODEL_PATH PREDICTION_THRESHOLD) profile_without_bmi)
  = Raises (Exn RuntimeError "Loaded model does not expose predict_proba"
              (Some (Builtin AttributeError))) /\
  snd (predict (fun _ => Artifact {| predict_proba := fun _ =>
                                       Raises (Exn ValueError "Input contains NaN" None) |})
         (init MODEL_PATH PREDICTION_THRESHOLD) profile_without_bmi)
  = Raises (Exn ValueError "Input contains NaN" None) /\
  snd (predict (fun _ => Artifact {| predict_proba := fun _ => Raises not_fitted |})
         (init MODEL_PATH PREDICTION_THRESHOLD) profile_without_bmi)
  = Raises (Exn RuntimeError "Loaded model does not expose predict_proba"
              (Some not_fitted)).
Proof.
  split; [|split].
  - apply (predict_pipeline_failure
             (fun _ => Artifact {| predict_proba := fun _ => Raises (Builtin AttributeError) |})
             (init MODEL_PATH PREDICTION_THRESHOLD)
             {| predict_proba := fun _ => Raises (Builtin AttributeError) |}
             profile_without_bmi row_without_bmi (Builtin AttributeError)
             (or_intror (conj eq_refl eq_refl)) eq_refl eq_refl).
    reflexivity.
  - apply (predict_pipeline_failure
             (fun _ => Artifact {| predict_proba := fun _ =>
                                     Raises (Exn ValueError "Input contains NaN" None) |})
             (init MODEL_PATH PREDICTION_THRESHOLD)
             {| predict_proba := fun _ => Raises (Exn ValueError "Input contains NaN" None) |}
             profile_without_bmi row_without_bmi (Exn ValueError "Input contains NaN" None)
             (or_intror (conj eq_refl eq_refl)) eq_refl eq_refl).
    reflexivity.
  - apply (predict_pipeline_failure
             (fun _ => Artifact {| predict_proba := fun _ => Raises not_fitted |})
             (init MODEL_PATH PREDICTION_THRESHOLD)
             {| predict_proba := fun _ => Raises not_fitted |}
             profile_without_bmi row_without_bmi not_fitted
             (or_intror (conj eq_refl eq_refl)) eq_refl eq_refl).
    reflexivity.
Defined.

Lemma float_ge_nan (x : spec_float) :
  float_ge S754_nan x = false /\ float_ge x S754_nan = false.
Proof. unfold float_ge, SFleb. destruct x; split; reflexivity. Qed.

(** X10. Whatever [predict] returns, the prediction is 0 or 1 and is 1 exactly
    when the returned probability is at least the threshold of the
    predictor. A NaN probability, or a NaN threshold, always gives 0. *)
Theorem predict_verdict_range (fs : storage) (self : StrokePredictor)
    (patient_data : gmap string value) (prediction : Z) (probability : spec_float) :
  snd (predict fs self patient_data) = Returns (prediction, probability) ->
  (prediction = 0 \/ prediction = 1) /\
  (prediction = 1 <-> float_ge probability (threshold self) = true) /\
  (probability = S754_nan \/ threshold self = S754_nan -> prediction = 0).
Proof.
  unfold predict. pose proof (load_model_frame fs self) as (Ht & _).
  destruct (load_model fs self) as [self' [[] | e]]; cbn [fst snd] in *; [|discriminate].
  unfold infer. destruct (prepare_features patient_data) as [features|]; [|discriminate].
  cbn [bind]. destruct (try_except _ _ _) as [p|]; [|discriminate].
  cbn [bind]. rewrite Ht. intros H. injection H as <- <-.
  destruct (float_ge p (threshold self)) eqn:Hge.
  - split; [auto|]. split; [tauto|]. intros [-> | Hn].
    + rewrite (proj1 (float_ge_nan _)) in Hge. discriminate.
    + rewrite Hn, (proj2 (float_ge_nan _)) in Hge. discriminate.
  - split; [auto|]. split; [split; discriminate | reflexivity].
Qed.

(** Witness: a pipeline that answers NaN. *)
Lemma predict_verdict_range_witness :
  snd (predict (fun _ => Artifact (stub S754_nan))
         (init MODEL_PATH PREDICTION_THRESHOLD) profile_without_bmi)
  = Returns (0, S754_nan) /\ (0 = 0 \/ 0 = 1).
Proof.
  split; [reflexivity|].
  exact (proj1 (predict_verdict_range (fun _ => Artifact (stub S754_nan))
                  (init MODEL_PATH PREDICTION_THRESHOLD) profile_without_bmi 0 S754_nan
                  eq_refl)).
Defined.

(** X11. [prepare_features], and [predict] with it, read nine fields of the
    record through [get] and nothing else: two records with the same nine
    values give the same row and the same prediction, so an [_id], a [name]
    or any other field is ignored, and a field that holds [None] counts as an
    absent one. *)
Theorem prepare_features_reads_nine (d1 d2 : gmap string value) :
  (forall key, In key profile_fields -> get d1 key = get d2 key) ->
  prepare_features d1 = prepare_features d2 /\
  (forall (fs : storage) (self : StrokePredictor), predict fs self d1 = predict fs self d2).
Proof.
  intros H.
  assert (Hp : prepare_features d1 = prepare_features d2).
  { unfold prepare_features.
    rewrite (H "gender"), (H "age"), (H "hypertension"), (H "ever_married"),
      (H "work_type"), (H "residence_type"), (H "avg_glucose_level"), (H "bmi"),
      (H "smoking_status") by (unfold profile_fields; cbn; tauto).
    reflexivity. }
  split; [exact Hp|]. intros fs self. unfold predict, infer. rewrite Hp. reflexivity.
Qed.

(** Witness: the profile with an identifier added and an explicit [None]
    for the missing [bmi]. *)
Lemma prepare_features_reads_nine_witness :
  prepare_features (<["_id" := PStr "65f0c0ffee0123456789abcd"]>
                      (<["bmi" := PNone]> profile_without_bmi))
  = prepare_features profile_without_bmi.
Proof.
  apply (prepare_features_reads_nine _ profile_without_bmi).
  intros key Hin. cbn in Hin.
  repeat (destruct Hin as [<- | Hin]; [reflexivity|]). destruct Hin.
Defined.

Lemma as_float_cases (v : value) (default : spec_float) :
  (overflows (float v) = false /\ exists x, _as_float v default = Returns x) \/
  (overflows (float v) = true /\ _as_float v default = Raises (Builtin OverflowError)).
Proof.
  unfold _as_float. destruct v as [ | b | z | f | s]; cbn [float]; eauto.
  - destruct (float_of_Z z); cbn; eauto.
  - destruct (float_of_string s); cbn; eauto.
Qed.

Lemma as_int_cases (v : value) (default : Z) :
  (overflows (int v) = false /\ exists n, _as_int v default = Returns n) \/
  (overflows (int v) = true /\ _as_int v default = Raises (Builtin OverflowError)).
Proof.
  unfold _as_int. destruct v as [ | b | z | f | s]; cbn [int]; eauto.
  - destruct f; cbn; eauto.
  - destruct (int_of_string s); cbn; eauto.
Qed.

(** X12. [prepare_features] returns a row exactly on the records that are within
    the range of the coercions; the row then has the nine columns of the
    schema in order, with floats for [age], [avg_glucose_level] and [bmi] and
    an integer for [hypertension], whatever the record held. The one
    exception it can raise is [OverflowError]. *)
Theorem prepare_features_row_or_overflow (patient_data : gmap string value) :
  (in_range patient_data <-> exists features, prepare_features patient_data = Returns features) /\
  (forall features, prepare_features patient_data = Returns features -> well_typed features) /\
  (forall e, prepare_features patient_data = Raises e -> e = Builtin OverflowError).
Proof.
  unfold in_range, prepare_features.
  destruct (as_float_cases (get patient_data "age") (S754_zero false))
    as [[Oa [a ->]] | [Oa ->]];
    [|cbn [bind]; split; [split; [intros (H & _); congruence | intros [f H]; discriminate]|];
      split; [intros f H; discriminate | intros e H; injection H as <-; reflexivity]].
  destruct (as_int_cases (get patient_data "hypertension") 0)
    as [[Oh [h ->]] | [Oh ->]];
    [|cbn [bind]; split; [split; [intros (_ & H & _); congruence | intros [f H]; discriminate]|];
      split; [intros f H; discriminate | intros e H; injection H as <-; reflexivity]].
  destruct (as_float_cases (get patient_data "avg_glucose_level") (S754_zero false))
    as [[Og [g ->]] | [Og ->]];
    [|cbn [bind]; split; [split; [intros (_ & _ & H & _); congruence | intros [f H]; discriminate]|];
      split; [intros f H; discriminate | intros e H; injection H as <-; reflexivity]].
  destruct (as_float_cases (get patient_data "bmi") (S754_zero false))
    as [[Ob [b ->]] | [Ob ->]];
    [|cbn [bind]; split; [split; [intros (_ & _ & _ & H); congruence | intros [f H]; discriminate]|];
      split; [intros f H; discriminate | intros e H; injection H as <-; reflexivity]].
  cbn [bind]. split; [split; [eauto | auto]|]. split; [|intros e H; discriminate].
  intros features H. injection H as <-. unfold well_typed. cbn. eauto 10.
Qed.

(** Witness: the profile without [bmi] is within range, and its row is well
    typed. *)
Lemma prepare_features_row_or_overflow_witness :
  in_range profile_without_bmi /\ well_typed row_without_bmi.
Proof.
  destruct (prepare_features_row_or_overflow profile_without_bmi) as (Hiff & Hty & _).
  split.
  - apply (proj2 Hiff). exists row_without_bmi. reflexivity.
  - apply (Hty row_without_bmi). reflexivity.
Defined.

End PredictorMore.

Module RoutesFacts.
Import Py Forms Validation PatientModel Routes Words Words4.

Lemma name_on_text (s : string) :
  exists ok msg, validate_patient_name (PStr s) = Returns (ok, msg).
Proof.
  unfold validate_patient_name. destruct (truthy (PStr s)); cbn [negb len bind strip_method];
    eauto.
  destruct (_ <? 2); eauto. destruct (_ >? 100); eauto. destruct (negb _); eauto.
Qed.

Lemma age_on_text (s : string) :
  exists ok msg val,
    validate_patient_age (PStr s) = Returns (ok, msg, val) /\
    (ok = true -> int_or_none val = parsed_int s).
Proof.
  unfold validate_patient_age, parsed_int. destruct (truthy (PStr s)); cbn [negb int].
  - destruct (int_of_string s) as [n|]; cbn.
    + destruct (n <? 0); [do 3 eexists; split; [reflexivity | discriminate]|].
      destruct (n >? 150); do 3 eexists; split; try reflexivity; try discriminate.
    + do 3 eexists; split; [reflexivity | discriminate].
  - do 3 eexists; split; [reflexivity | discriminate].
Qed.

Lemma hypertension_on_text (s : string) :
  exists ok msg val,
    validate_hypertension (PStr s) = Returns (ok, msg, val) /\
    (ok = true -> int_or_none val = parsed_int s).
Proof.
  unfold validate_hypertension, parsed_int. destruct (is_none_or_empty (PStr s)).
  - do 3 eexists; split; [reflexivity | discriminate].
  - cbn [int]. destruct (int_of_string s) as [n|]; cbn.
    + destruct (negb _); do 3 eexists; split; try reflexivity; discriminate.
    + do 3 eexists; split; [reflexivity | discriminate].
Qed.

Lemma glucose_on_text (s : string) :
  exists ok msg val,
    validate_avg_glucose_level (PStr s) = Returns (ok, msg, val) /\
    (ok = true -> float_or_none val = parsed_float s).
Proof.
  unfold validate_avg_glucose_level, parsed_float. destruct (truthy (PStr s)); cbn [negb float].
  - destruct (float_of_string s) as [x|]; cbn.
    + destruct (float_lt _ _); [do 3 eexists; split; [reflexivity | discriminate]|].
      destruct (float_gt _ _); do 3 eexists; split; try reflexivity; discriminate.
    + do 3 eexists; split; [reflexivity | discriminate].
  - do 3 eexists; split; [reflexivity | discriminate].
Qed.

Lemma bmi_on_text (s : string) :
  exists ok msg val,
    validate_bmi (PStr s) = Returns (ok, msg, val) /\
    (ok = true -> float_or_none val = parsed_float s).
Proof.
  unfold validate_bmi, parsed_float. destruct (truthy (PStr s)); cbn [negb float].
  - destruct (float_of_string s) as [x|]; cbn.
    + destruct (float_lt _ _); [do 3 eexists; split; [reflexivity | discriminate]|].
      destruct (float_gt _ _); do 3 eexists; split; try reflexivity; discriminate.
    + do 3 eexists; split; [reflexivity | discriminate].
  - do 3 eexists; split; [reflexivity | discriminate].
Qed.

(** The validation block: the first error in the order of the fields, or
    the document of the form handed on. *)
Lemma validated_spec (form : gmap string string) (on_error : response)
    (store : gmap string value -> result reply) :
  validated form on_error store =
  match first_error (verdicts form) with
  | Some msg => Returns (answer [(msg, "danger")] on_error)
  | None => store (document form)
  end.
Proof.
  unfold validated, verdicts, document, cleaned.
  destruct (name_on_text (str_strip (form_get form "name"))) as (ok1 & m1 & ->).
  destruct (age_on_text (str_strip (form_get form "age"))) as (ok2 & m2 & v2 & -> & H2).
  destruct (validate_gender (PStr (form_get form "gender"))) as [ok3 m3].
  destruct (hypertension_on_text (form_get form "hypertension"))
    as (ok4 & m4 & v4 & -> & H4).
  destruct (validate_ever_married (PStr (form_get form "ever_married"))) as [ok5 m5].
  destruct (validate_work_type (PStr (form_get form "work_type"))) as [ok6 m6].
  destruct (validate_residence_type (PStr (form_get form "residence_type"))) as [ok7 m7].
  destruct (glucose_on_text (str_strip (form_get form "avg_glucose_level")))
    as (ok8 & m8 & v8 & -> & H8).
  destruct (bmi_on_text (str_strip (form_get form "bmi"))) as (ok9 & m9 & v9 & -> & H9).
  destruct (validate_smoking_status (PStr (form_get form "smoking_status"))) as [ok10 m10].
  cbn [bind verdict2 verdict3 first_error].
  destruct ok1; [|reflexivity]. destruct ok2; [|reflexivity]. destruct ok3; [|reflexivity].
  destruct ok4; [|reflexivity]. destruct ok5; [|reflexivity]. destruct ok6; [|reflexivity].
  destruct ok7; [|reflexivity]. destruct ok8; [|reflexivity]. destruct ok9; [|reflexivity].
  destruct ok10; [|reflexivity].
  cbn [negb]. rewrite (H2 eq_refl), (H4 eq_refl), (H8 eq_refl), (H9 eq_refl). reflexivity.
Qed.

Lemma add_patient_post (patients : collection) (form : gmap string string) :
  add_patient patients true form =
  Returns
    match first_error (verdicts form) with
    | Some msg => answer [(msg, "danger")] (Template "patients/add.html")
    | None =>
        match insert_one patients (document form) with
        | Returns _ =>
            answer [("Patient added successfully!", "success")] (Redirect "/patients")
        | Raises _ =>
            answer [("Error adding patient. Please try again.", "danger")]
              (Template "patients/add.html")
        end
    end.
Proof.
  unfold add_patient. rewrite validated_spec.
  destruct (first_error (verdicts form)); [reflexivity|].
  unfold create_patient. destruct (insert_one patients (document form)); reflexivity.
Qed.

(** X13. [add_patient]. A GET shows the form. A POST never raises: it flashes
    the message of the first validator that rejects, in the order name, age,
    gender, hypertension, ever_married, work_type, residence_type,
    avg_glucose_level, bmi, smoking_status, and shows the form again without
    consulting the collection; when all ten accept it inserts the document of
    the form (name stripped, numbers parsed) and redirects to the list, or,
    when the insert raises, flashes "Error adding patient. Please try again."
    and shows the form. *)
Theorem add_patient_spec (patients : collection) (form : gmap string string) :
  add_patient patients false form = Returns (answer [] (Template "patients/add.html")) /\
  add_patient patients true form =
    Returns
      match first_error (verdicts form) with
      | Some msg => answer [(msg, "danger")] (Template "patients/add.html")
      | None =>
          match insert_one patients (document form) with
          | Returns _ =>
              answer [("Patient added successfully!", "success")] (Redirect "/patients")
          | Raises _ =>
              answer [("Error adding patient. Please try again.", "danger")]
                (Template "patients/add.html")
          end
      end /\
  (first_error (verdicts form) <> None ->
   forall patients', add_patient patients' true form = add_patient patients true form).
Proof.
  split; [reflexivity|]. split; [apply add_patient_post|].
  intros Herr db'. rewrite !add_patient_post.
  destruct (first_error (verdicts form)); [reflexivity|]. congruence.
Qed.

(** Witness: an age of 200 on an otherwise complete form, and the complete
    form on a collection that fails. *)
Lemma add_patient_spec_witness :
  add_patient broken_collection true (<["age" := "200"]> sample_form)
  = Returns (answer [("Age must be a reasonable value (less than 150)", "danger")]
               (Template "patients/add.html")) /\
  add_patient broken_collection true sample_form
  = Returns (answer [("Error adding patient. Please try again.", "danger")]
               (Template "patients/add.html")) /\
  add_patient empty_collection true sample_form
  = Returns (answer [("Patient added successfully!", "success")] (Redirect "/patients")).
Proof.
  split; [|split].
  - assert (Herr : first_error (verdicts (<["age" := "200"]> sample_form)) <> None)
      by (vm_compute; discriminate).
    rewrite (proj2 (proj2 (add_patient_spec empty_collection (<["age" := "200"]> sample_form)))
               Herr broken_collection).
    reflexivity.
  - rewrite (proj1 (proj2 (add_patient_spec broken_collection sample_form))). reflexivity.
  - rewrite (proj1 (proj2 (add_patient_spec empty_collection sample_form))). reflexivity.
Defined.

Lemma document_fields (form : gmap string string) :
  Predictor.get (document form) "gender" = PStr (form_get form "gender") /\
  Predictor.get (document form) "age" = parsed_int (cleaned form "age") /\
  Predictor.get (document form) "hypertension" = parsed_int (form_get form "hypertension") /\
  Predictor.get (document form) "ever_married" = PStr (form_get form "ever_married") /\
  Predictor.get (document form) "work_type" = PStr (form_get form "work_type") /\
  Predictor.get (document form) "residence_type" = PStr (form_get form "residence_type") /\
  Predictor.get (document form) "avg_glucose_level"
  = parsed_float (cleaned form "avg_glucose_level") /\
  Predictor.get (document form) "bmi" = parsed_float (cleaned form "bmi") /\
  Predictor.get (document form) "smoking_status" = PStr (form_get form "smoking_status").
Proof. repeat split. Qed.

Lemma first_error_none (l : list (bool * string)) :
  first_error l = None -> Forall (fun v => fst v = true) l.
Proof.
  induction l as [|[ok msg] l IH]; intros H; constructor.
  - cbn in H. destruct ok; [reflexivity | discriminate].
  - cbn in H. destruct ok; [auto | discriminate].
Qed.

Lemma verdict3_true {A : Type} (r : result (bool * string * option A)) :
  Words2.coherent r -> fst (verdict3 r) = true -> exists x, r = Returns (true, "", Some x).
Proof.
  intros Hc. destruct r as [[[ok msg] val]|e]; cbn; [|discriminate].
  intros ->. destruct (Hc true msg val eq_refl) as [Hm Hv].
  destruct (proj1 Hv eq_refl) as [x ->]. rewrite (proj1 Hm eq_refl). eauto.
Qed.

(** X14. From the form to the pipeline. When the ten validators accept a form,
    the document the views store is within the range of the coercions and
    [prepare_features] turns it into the row of the validated values
    themselves: the age, an integer from 0 to 150, as a float; the
    hypertension flag 0 or 1; the glucose level and the BMI as parsed, each
    inside its range or NaN; the residence under "Residence_type". No
    default is substituted and nothing is raised. *)
Theorem stored_document_features (form : gmap string string) :
  first_error (verdicts form) = None ->
  exists (age hypertension : Z) (glucose bmi : spec_float),
    int_of_string (cleaned form "age") = Some age /\ 0 <= age <= 150 /\
    int_of_string (form_get form "hypertension") = Some hypertension /\
    (hypertension = 0 \/ hypertension = 1) /\
    float_of_string (cleaned form "avg_glucose_level") = Some glucose /\
    (glucose = S754_nan \/
     (Words2.float_le (float_of_Z 0) glucose = true /\
      Words2.float_le glucose (float_of_Z 500) = true)) /\
    float_of_string (cleaned form "bmi") = Some bmi /\
    (bmi = S754_nan \/
     (Words2.float_le (float_of_Z 0) bmi = true /\
      Words2.float_le bmi (float_of_Z 100) = true)) /\
    Spec.in_range (document form) /\
    Predictor.prepare_features (document form) =
      Returns [ ("gender", PStr (form_get form "gender"));
                ("age", PFloat (float_of_Z age));
                ("hypertension", PInt hypertension);
                ("ever_married", PStr (form_get form "ever_married"));
                ("work_type", PStr (form_get form "work_type"));
                ("Residence_type", PStr (form_get form "residence_type"));
                ("avg_glucose_level", PFloat glucose);
                ("bmi", PFloat bmi);
                ("smoking_status", PStr (form_get form "smoking_status")) ].
Proof.
  intros Hnone. apply first_error_none in Hnone. unfold verdicts in Hnone.
  repeat match goal with H : Forall _ (_ :: _) |- _ => inversion_clear H end.
  match goal with H : fst (verdict3 (validate_patient_age _)) = true |- _ =>
    destruct (verdict3_true _ (ValidationMore.age_coherent _) H) as [age Hage] end.
  match goal with H : fst (verdict3 (validate_hypertension _)) = true |- _ =>
    destruct (verdict3_true _ (ValidationMore.hypertension_coherent _) H)
      as [hyp Hhyp] end.
  match goal with H : fst (verdict3 (validate_avg_glucose_level _)) = true |- _ =>
    destruct (verdict3_true _ (ValidationMore.glucose_coherent _) H) as [glu Hglu] end.
  match goal with H : fst (verdict3 (validate_bmi _)) = true |- _ =>
    destruct (verdict3_true _ (ValidationMore.bmi_coherent _) H) as [bmi Hbmi] end.
  apply ValidationMore.validate_patient_age_accepts in Hage.
  destruct Hage as (_ & Hage & Hrange). cbn [int] in Hage.
  apply ValidationFacts.validate_hypertension_accepts in Hhyp.
  destruct Hhyp as (_ & Hhyp & Hflag). cbn [int] in Hhyp.
  apply ValidationMore.validate_bmi_accepts in Hbmi.
  destruct Hbmi as (_ & Hbmi & Rbmi). cbn [float] in Hbmi.
  apply ValidationMore.validate_avg_glucose_level_accepts in Hglu.
  destruct Hglu as (_ & Hglu & Rglu). cbn [float] in Hglu.
  destruct (int_of_string (cleaned form "age")) as [n|] eqn:En; [|discriminate].
  injection Hage as ->.
  destruct (int_of_string (form_get form "hypertension")) as [h|] eqn:Eh; [|discriminate].
  injection Hhyp as ->.
  destruct (float_of_string (cleaned form "avg_glucose_level")) as [g|] eqn:Eg; [|discriminate].
  injection Hglu as ->.
  destruct (float_of_string (cleaned form "bmi")) as [b|] eqn:Eb; [|discriminate].
  injection Hbmi as ->.
  exists age, hyp, glu, bmi. do 8 (split; [first [reflexivity | assumption]|]).
  destruct (document_fields form) as (Fg & Fa & Fh & Fe & Fw & Fr & Fl & Fb & Fs).
  assert (Hfloat : float (PInt age) = Returns (float_of_Z age)).
  { cbn [float].
    pose proof (FloatFacts.float_of_Z_finite age ltac:(lia)) as Hfin.
    destruct (float_of_Z age); try reflexivity. exfalso. eapply Hfin. reflexivity. }
  split.
  - unfold Spec.in_range. rewrite Fa, Fh, Fl, Fb. unfold parsed_int, parsed_float.
    rewrite En, Eh, Eg, Eb, Hfloat. repeat split.
  - unfold Predictor.prepare_features. rewrite Fg, Fa, Fh, Fe, Fw, Fr, Fl, Fb, Fs.
    unfold parsed_int, parsed_float. rewrite En, Eh, Eg, Eb.
    unfold Predictor._as_float, Predictor._as_int. rewrite Hfloat. reflexivity.
Qed.

(** Witness: the complete form. *)
Lemma stored_document_features_witness :
  exists features,
    Predictor.prepare_features (document sample_form) = Returns features /\
    Predictor.column "age" features = Some (PFloat (float_of_Z 67)) /\
    Predictor.column "Residence_type" features = Some (PStr "Urban").
Proof.
  destruct (stored_document_features sample_form eq_refl)
    as (age & hyp & glu & bmi & Ha & _ & _ & _ & _ & _ & _ & _ & _ & Hrow).
  eexists. split; [exact Hrow|]. injection Ha as <-. split; reflexivity.
Defined.

Lemma get_patient_returns (patients : collection) (pid : string) :
  get_patient patients pid =
  Returns match find_one patients pid with
          | Returns found => found
          | Raises _ => None
          end.
Proof. unfold get_patient. destruct (find_one patients pid); reflexivity. Qed.

Lemma validate_object_id_usable (is_valid : value -> bool) (id : string) :
  id <> "" -> is_valid (PStr id) = true -> validate_object_id is_valid (PStr id) = (true, "").
Proof.
  intros Hne Hv. unfold validate_object_id.
  rewrite (ValidationFacts.text_truthy id Hne), Hv. reflexivity.
Qed.

Lemma delete_body (patients : collection) (id : string) :
  (let! flashed :=
     try_except
       (let! result := delete_patient patients id in
        match result with
        | Some deleted_count =>
            if deleted_count >? 0
            then Returns [("Patient deleted successfully!", "success")]
            else Returns [("Patient not found.", "danger")]
        | None => Returns [("Patient not found.", "danger")]
        end)
       any_exception
       (fun _ => Returns [("Error deleting patient. Please try again.", "danger")]) in
   Returns (answer flashed (Redirect "/patients")))
  = Returns (answer
               [match delete_one patients id with
                | Returns deleted_count =>
                    if deleted_count >? 0 then ("Patient deleted successfully!", "success")
                    else ("Patient not found.", "danger")
                | Raises _ => ("Patient not found.", "danger")
                end]
               (Redirect "/patients")).
Proof.
  unfold delete_patient. destruct (delete_one patients id) as [c | e]; cbn.
  - destruct (c >? 0); reflexivity.
  - reflexivity.
Qed.

(** X16. [delete] never raises and always redirects to the list. With a usable
    identifier it reports "Patient deleted successfully!" when the driver
    deleted a document, and "Patient not found." in every other case, a
    failure of the driver included: [delete_patient] has already turned the
    exception into [None], so "Error deleting patient. Please try again." is
    never flashed. With an empty or invalid identifier the collection is not
    consulted. *)
Theorem delete_spec (is_valid : value -> bool) (patients : collection) (id : string) :
  (exists msg category,
     delete is_valid patients id = Returns (answer [(msg, category)] (Redirect "/patients")) /\
     msg <> "Error deleting patient. Please try again.") /\
  (id <> "" -> is_valid (PStr id) = true ->
   delete is_valid patients id =
   Returns (answer
              [match delete_one patients id with
               | Returns deleted_count =>
                   if deleted_count >? 0 then ("Patient deleted successfully!", "success")
                   else ("Patient not found.", "danger")
               | Raises _ => ("Patient not found.", "danger")
               end]
              (Redirect "/patients"))) /\
  (id = "" \/ is_valid (PStr id) = false ->
   forall patients', delete is_valid patients' id = delete is_valid patients id).
Proof.
  split; [|split].
  - unfold delete, validate_object_id.
    destruct (negb (truthy (PStr id))); [do 2 eexists; split; [reflexivity | discriminate]|].
    destruct (negb (is_valid (PStr id))); [do 2 eexists; split; [reflexivity | discriminate]|].
    cbn [negb]. rewrite delete_body.
    destruct (delete_one patients id) as [c | e]; [destruct (c >? 0)|];
      do 2 eexists; split; try reflexivity; discriminate.
  - intros Hne Hv. unfold delete. rewrite (validate_object_id_usable is_valid id Hne Hv).
    cbn [negb]. apply delete_body.
  - intros Hbad db'. unfold delete, validate_object_id.
    destruct Hbad as [-> | Hv]; [reflexivity|].
    destruct (negb (truthy (PStr id))); [reflexivity|]. rewrite Hv. reflexivity.
Qed.

(** Witness: a collection whose calls all fail. *)
Lemma delete_spec_witness :
  delete (fun _ => true) broken_collection "65f0c0ffee0123456789abcd"
  = Returns (answer [("Patient not found.", "danger")] (Redirect "/patients")) /\
  delete (fun _ => false) broken_collection "xyz"
  = delete (fun _ => false) empty_collection "xyz".
Proof.
  split.
  - apply (proj1 (proj2 (delete_spec (fun _ => true) broken_collection
                           "65f0c0ffee0123456789abcd")));
      [discriminate | reflexivity].
  - apply (proj2 (proj2 (delete_spec (fun _ => false) empty_collection "xyz"))).
    right. reflexivity.
Defined.

(** X15. [edit_patient] on a usable identifier. When the driver finds no
    document, finds an empty one or raises, it answers "Patient not found."
    and redirects. Otherwise a GET shows the stored patient; a POST flashes
    the first validation error and shows the stored patient again, or hands
    the document of the form to the driver's update and redirects with
    "Patient updated successfully!" when a document was modified and "No
    changes were made." otherwise, a failure of the driver included. It
    never raises and never answers "Error updating patient". *)
Theorem edit_patient_spec (is_valid : value -> bool) (patients : collection)
    (post : bool) (id : string) (form : gmap string string) :
  id <> "" -> is_valid (PStr id) = true ->
  ((forall p, find_one patients id = Returns (Some p) -> p = ∅) ->
   edit_patient is_valid patients post id form
   = Returns (answer [("Patient not found.", "danger")] (Redirect "/patients"))) /\
  (forall p, find_one patients id = Returns (Some p) -> p <> ∅ ->
   edit_patient is_valid patients false id form = Returns (answer [] (EditPage p)) /\
   edit_patient is_valid patients true id form =
   Returns
     match first_error (verdicts form) with
     | Some msg => answer [(msg, "danger")] (EditPage p)
     | None =>
         match update_one patients id (document form) with
         | Returns modified_count =>
             if modified_count >? 0
             then answer [("Patient updated successfully!", "success")]
                    (Redirect "/patients")
             else answer [("No changes were made.", "info")] (Redirect "/patients")
         | Raises _ => answer [("No changes were made.", "info")] (Redirect "/patients")
         end
     end).
Proof.
  intros Hne Hv. unfold edit_patient.
  rewrite (validate_object_id_usable is_valid id Hne Hv). cbn [negb].
  rewrite get_patient_returns. cbn [bind]. split.
  - intros Hnone. destruct (find_one patients id) as [[p|]|e]; cbn [no_patient];
      try reflexivity.
    rewrite (Hnone p eq_refl). reflexivity.
  - intros p Hp Hnonempty. rewrite Hp. cbn [no_patient the_patient].
    rewrite bool_decide_eq_false_2 by exact Hnonempty. split; [reflexivity|].
    rewrite validated_spec. destruct (first_error (verdicts form)); [reflexivity|].
    unfold update_patient. destruct (update_one patients id (document form)) as [c | e]; cbn.
    + destruct (c >? 0); reflexivity.
    + reflexivity.
Qed.

Lemma profile_nonempty : Spec.profile_without_bmi <> ∅.
Proof.
  intros H. apply (f_equal (fun m : gmap string value => m !! "age")) in H.
  discriminate H.
Qed.

(** Witness: the stored profile, edited with the complete form while the
    update of the driver fails. *)
Lemma edit_patient_spec_witness :
  edit_patient (fun _ => true) stored_collection true "65f0c0ffee0123456789abcd" sample_form
  = Returns (answer [("No changes were made.", "info")] (Redirect "/patients")) /\
  edit_patient (fun _ => true) broken_collection true "65f0c0ffee0123456789abcd" sample_form
  = Returns (answer [("Patient not found.", "danger")] (Redirect "/patients")).
Proof.
  split.
  - rewrite (proj2 (proj2 (edit_patient_spec (fun _ => true) stored_collection true
                             "65f0c0ffee0123456789abcd" sample_form
                             ltac:(discriminate) eq_refl)
                      Spec.profile_without_bmi eq_refl profile_nonempty)).
    reflexivity.
  - apply (proj1 (edit_patient_spec (fun _ => true) broken_collection true
                    "65f0c0ffee0123456789abcd" sample_form ltac:(discriminate) eq_refl)).
    intros p H. discriminate H.
Defined.

Lemma predict_stroke_found (is_valid : value -> bool) (patients : collection)
    (fs : Predictor.storage) (g : option Predictor.StrokePredictor) (id : string)
    (p : gmap string value) :
  id <> "" -> is_valid (PStr id) = true ->
  find_one patients id = Returns (Some p) -> p <> ∅ ->
  predict_stroke is_valid patients fs g id =
  (Some (fst (Predictor.predict fs (snd (Predictor.get_predictor g)) p)),
   match snd (Predictor.predict fs (snd (Predictor.get_predictor g)) p) with
   | Returns (prediction, probability) =>
       Returns (answer [] (PredictPage p prediction (risk_label prediction)
                             (SFmul prec emax probability (float_of_Z 100))))
   | Raises e =>
       if isinstance [FileNotFoundError] e
       then Returns (answer
              [("Model file not found. Please ensure the trained model is placed in the models/ directory.",
                "danger")] (Redirect "/patients"))
       else Returns (answer [("Error making prediction: " +:+ str_of e, "danger")]
                       (Redirect "/patients"))
   end).
Proof.
  intros Hne Hv Hp Hnonempty. unfold predict_stroke.
  rewrite (validate_object_id_usable is_valid id Hne Hv). cbn [negb].
  rewrite get_patient_returns, Hp. cbn [no_patient the_patient].
  rewrite bool_decide_eq_false_2 by exact Hnonempty.
  destruct (Predictor.get_predictor g) as [global predictor]. cbn [snd].
  destruct (Predictor.predict fs predictor p) as [predictor' [[prediction probability]|e]];
    reflexivity.
Qed.

(** X17. [predict_stroke] on a usable identifier of a stored patient. With the
    artifact cached or at the path, a probability from the pipeline gives the
    page with the prediction, the label "High Heart Attack Risk" exactly
    when the probability is at least the threshold (otherwise "Low Heart
    Attack Risk") and the probability times 100. A pipeline without
    [predict_proba] gives the flash "Error making prediction: Loaded model
    does not expose predict_proba", and so does a file that holds [None]. A
    missing file and an unreadable file both give the flash "Model file not
    found. ...", since both raise [FileNotFoundError]. Every failure
    redirects to the list. *)
Theorem predict_stroke_spec (is_valid : value -> bool) (patients : collection)
    (fs : Predictor.storage) (g : option Predictor.StrokePredictor) (id : string)
    (p : gmap string value) :
  id <> "" -> is_valid (PStr id) = true ->
  find_one patients id = Returns (Some p) -> p <> ∅ ->
  (forall m features probability,
     Spec.loadable fs (snd (Predictor.get_predictor g)) m ->
     Predictor.prepare_features p = Returns features ->
     Predictor.predict_proba m features = Returns probability ->
     snd (predict_stroke is_valid patients fs g id) =
     Returns (answer []
                (PredictPage p
                   (if float_ge probability
                         (Predictor.threshold (snd (Predictor.get_predictor g)))
                    then 1 else 0)
                   (if float_ge probability
                         (Predictor.threshold (snd (Predictor.get_predictor g)))
                    then "High Heart Attack Risk" else "Low Heart Attack Risk")
                   (SFmul prec emax probability (float_of_Z 100))))) /\
  (forall m features e,
     Spec.loadable fs (snd (Predictor.get_predictor g)) m ->
     Predictor.prepare_features p = Returns features ->
     Predictor.predict_proba m features = Raises e -> class_of e = AttributeError ->
     snd (predict_stroke is_valid patients fs g id) =
     Returns (answer
                [("Error making prediction: Loaded model does not expose predict_proba",
                  "danger")] (Redirect "/patients"))) /\
  (Predictor.model (snd (Predictor.get_predictor g)) = None ->
   Words3.unavailable fs (Predictor.model_path (snd (Predictor.get_predictor g))) ->
   predict_stroke is_valid patients fs g id =
   (Some (snd (Predictor.get_predictor g)),
    Returns (answer
               [("Model file not found. Please ensure the trained model is placed in the models/ directory.",
                 "danger")] (Redirect "/patients")))) /\
  (forall features,
     Predictor.model (snd (Predictor.get_predictor g)) = None ->
     fs (Predictor.model_path (snd (Predictor.get_predictor g))) = Predictor.PickledNone ->
     Predictor.prepare_features p = Returns features ->
     predict_stroke is_valid patients fs g id =
     (Some (snd (Predictor.get_predictor g)),
      Returns (answer
                 [("Error making prediction: Loaded model does not expose predict_proba",
                   "danger")] (Redirect "/patients")))).
Proof.
  intros Hne Hv Hp Hnonempty.
  rewrite (predict_stroke_found is_valid patients fs g id p Hne Hv Hp Hnonempty).
  cbn [snd]. split; [|split; [|split]].
  - intros m features probability Hl Hf Hpr.
    rewrite (PredictorFacts.predict_loadable fs _ m p Hl), Hf. cbn [bind].
    unfold Spec.verdict_on. rewrite Hpr. cbn [try_except bind]. unfold risk_label.
    destruct (float_ge probability _); reflexivity.
  - intros m features e Hl Hf Hpr Hc.
    rewrite (PredictorMore.predict_translates fs _ m p features e Hl Hf Hpr).
    unfold Words3.translated. rewrite Hc. reflexivity.
  - intros Hn Hbad.
    destruct (PredictorMore.load_unavailable fs _ Hn Hbad) as (e & He & Hc).
    unfold Predictor.predict. rewrite He. cbn [fst snd].
    unfold isinstance. cbn [existsb]. rewrite Hc. reflexivity.
  - intros features Hn Hfs Hf.
    rewrite (PredictorMore.predict_pickled_none fs _ p Hn Hfs), Hf. reflexivity.
Qed.

(** Witness: the stored profile on a stub that answers 0.8, and on an
    unreadable file. *)
Lemma predict_stroke_spec_witness :
  snd (predict_stroke (fun _ => true) stored_collection
         (fun _ => Predictor.Artifact (Spec.stub (float_literal "0.8"))) None
         "65f0c0ffee0123456789abcd")
  = Returns (answer []
               (PredictPage Spec.profile_without_bmi 1 "High Heart Attack Risk"
                  (float_literal "80"))) /\
  snd (predict_stroke (fun _ => true) stored_collection
         (fun _ => Predictor.Unreadable ValueError "bad pickle" None) None
         "65f0c0ffee0123456789abcd")
  = Returns (answer
               [("Model file not found. Please ensure the trained model is placed in the models/ directory.",
                 "danger")] (Redirect "/patients")).
Proof.
  split.
  - rewrite (proj1 (predict_stroke_spec (fun _ => true) stored_collection
                      (fun _ => Predictor.Artifact (Spec.stub (float_literal "0.8"))) None
                      "65f0c0ffee0123456789abcd" Spec.profile_without_bmi
                      ltac:(discriminate) eq_refl eq_refl profile_nonempty)
               (Spec.stub (float_literal "0.8")) Spec.row_without_bmi (float_literal "0.8")
               (or_intror (conj eq_refl eq_refl)) eq_refl eq_refl).
    reflexivity.
  - rewrite (proj1 (proj2 (proj2 (predict_stroke_spec (fun _ => true) stored_collection
                      (fun _ => Predictor.Unreadable ValueError "bad pickle" None) None
                      "65f0c0ffee0123456789abcd" Spec.profile_without_bmi
                      ltac:(discriminate) eq_refl eq_refl profile_nonempty)))
               eq_refl
               (or_intror (ex_intro _ ValueError
                             (ex_intro _ "bad pickle" (ex_intro _ None eq_refl))))).
    reflexivity.
Defined.

Lemma predict_stroke_cached (is_valid : value -> bool) (patients : collection)
    (fs fs' : Predictor.storage) (q : Predictor.StrokePredictor) (m : Predictor.pipeline)
    (id : string) :
  Predictor.model q = Some m ->
  predict_stroke is_valid patients fs' (Some q) id
  = (Some q, snd (predict_stroke is_valid patients fs (Some q) id)).
Proof.
  intros Hm.
  assert (Hq : forall st d, Predictor.predict st q d = (q, Predictor.infer q d)).
  { intros st d. exact (proj2 (PredictorMore.cached_ignores_storage q m st d Hm)). }
  unfold predict_stroke. destruct (validate_object_id is_valid (PStr id)) as [ok msg].
  destruct (negb ok); [reflexivity|].
  destruct (get_patient patients id) as [found | e]; [|reflexivity].
  destruct (no_patient found); [reflexivity|].
  cbn [Predictor.get_predictor]. rewrite !Hq. reflexivity.
Qed.

(** X18. The predictor of the module is loaded once for all requests, when
    the file holds an object. After a request that found its patient and
    found or loaded an artifact other than [None], the global holds a
    predictor with the artifact cached (the default path and threshold when
    it was created by this request); [get_predictor] returns that same
    predictor from then on, and every later request, whatever its
    identifier, answers the same on every storage and leaves the global as
    it is: the file is not read again. When the file holds [None], the
    global keeps a predictor with nothing cached, and the next request reads
    the storage again: with the file gone it answers "Model file not
    found. ...". *)
Theorem predict_stroke_memoizes (is_valid : value -> bool) (patients : collection)
    (fs : Predictor.storage) (g : option Predictor.StrokePredictor) (id : string)
    (p : gmap string value) :
  id <> "" -> is_valid (PStr id) = true ->
  find_one patients id = Returns (Some p) -> p <> ∅ ->
  (forall m : Predictor.pipeline,
     Spec.loadable fs (snd (Predictor.get_predictor g)) m ->
     exists q,
       fst (predict_stroke is_valid patients fs g id) = Some q /\
       Predictor.model q = Some m /\
       (g = None -> Predictor.model_path q = Predictor.MODEL_PATH /\
                    Predictor.threshold q = Predictor.PREDICTION_THRESHOLD) /\
       Predictor.get_predictor (Some q) = (Some q, q) /\
       (forall (patients' : collection) (fs' : Predictor.storage) (id' : string),
          predict_stroke is_valid patients' fs' (Some q) id'
          = (Some q, snd (predict_stroke is_valid patients' fs (Some q) id')))) /\
  (Predictor.model (snd (Predictor.get_predictor g)) = None ->
   fs (Predictor.model_path (snd (Predictor.get_predictor g))) = Predictor.PickledNone ->
   fst (predict_stroke is_valid patients fs g id) = Some (snd (Predictor.get_predictor g)) /\
   (forall fs' : Predictor.storage,
      Words3.unavailable fs' (Predictor.model_path (snd (Predictor.get_predictor g))) ->
      snd (predict_stroke is_valid patients fs'
             (fst (predict_stroke is_valid patients fs g id)) id)
      = Returns (answer
                   [("Model file not found. Please ensure the trained model is placed in the models/ directory.",
                     "danger")] (Redirect "/patients"))) /\
   (forall (fs' : Predictor.storage) (m : Predictor.pipeline),
      fs' (Predictor.model_path (snd (Predictor.get_predictor g))) = Predictor.Artifact m ->
      exists q,
        fst (predict_stroke is_valid patients fs'
               (fst (predict_stroke is_valid patients fs g id)) id) = Some q /\
        Predictor.model q = Some m)).
Proof.
  intros Hne Hv Hp Hnonempty. split.
  - intros m Hl.
    rewrite (predict_stroke_found is_valid patients fs g id p Hne Hv Hp Hnonempty). cbn [fst].
    destruct (PredictorMore.predict_caches fs _ m p Hl) as (Hm & Hpath & Hthr & _).
    set (q := fst (Predictor.predict fs (snd (Predictor.get_predictor g)) p)) in *.
    exists q. split; [reflexivity|]. split; [exact Hm|]. split; [|split; [reflexivity|]].
    + intros ->. rewrite Hpath, Hthr. split; reflexivity.
    + intros patients' fs' id'. exact (predict_stroke_cached _ _ _ _ q m id' Hm).
  - intros Hn Hfs.
    assert (Hfst : fst (predict_stroke is_valid patients fs g id)
                   = Some (snd (Predictor.get_predictor g))).
    { rewrite (predict_stroke_found is_valid patients fs g id p Hne Hv Hp Hnonempty).
      cbn [fst]. rewrite (PredictorMore.predict_pickled_none fs _ p Hn Hfs). reflexivity. }
    rewrite Hfst. split; [reflexivity|]. split.
    + intros fs' Hbad.
      rewrite (predict_stroke_found is_valid patients fs' _ id p Hne Hv Hp Hnonempty).
      cbn [snd Predictor.get_predictor].
      destruct (PredictorMore.load_unavailable fs' _ Hn Hbad) as (e & He & Hc).
      unfold Predictor.predict. rewrite He. cbn [snd].
      unfold isinstance. cbn [existsb]. rewrite Hc. reflexivity.
    + intros fs' m Hfs'.
      rewrite (predict_stroke_found is_valid patients fs' _ id p Hne Hv Hp Hnonempty).
      cbn [fst snd Predictor.get_predictor]. eexists. split; [reflexivity|].
      exact (proj1 (PredictorMore.predict_caches fs' _ m p (or_intror (conj Hn Hfs')))).
Qed.

(** Witness: a first request loads the stub; a second one, with the file
    gone, still shows the page. After a file that holds [None], the next
    request with the file gone reports the missing file. *)
Lemma predict_stroke_memoizes_witness :
  snd (predict_stroke (fun _ => true) stored_collection (fun _ => Predictor.Missing)
         (fst (predict_stroke (fun _ => true) stored_collection
                 (fun _ => Predictor.Artifact (Spec.stub (float_literal "0.8"))) None
                 "65f0c0ffee0123456789abcd"))
         "65f0c0ffee0123456789abcd")
  = Returns (answer []
               (PredictPage Spec.profile_without_bmi 1 "High Heart Attack Risk"
                  (float_literal "80"))) /\
  snd (predict_stroke (fun _ => true) stored_collection (fun _ => Predictor.Missing)
         (fst (predict_stroke (fun _ => true) stored_collection
                 (fun _ => Predictor.PickledNone) None "65f0c0ffee0123456789abcd"))
         "65f0c0ffee0123456789abcd")
  = Returns (answer
               [("Model file not found. Please ensure the trained model is placed in the models/ directory.",
                 "danger")] (Redirect "/patients")).
Proof.
  split.
  - destruct (proj1 (predict_stroke_memoizes (fun _ => true) stored_collection
                (fun _ => Predictor.Artifact (Spec.stub (float_literal "0.8"))) None
                "65f0c0ffee0123456789abcd" Spec.profile_without_bmi
                ltac:(discriminate) eq_refl eq_refl profile_nonempty)
                (Spec.stub (float_literal "0.8")) (or_intror (conj eq_refl eq_refl)))
      as (q & Hq & _ & _ & _ & Hmemo).
    rewrite Hq, (Hmemo stored_collection (fun _ => Predictor.Missing)). cbn [snd].
    vm_compute in Hq. injection Hq as <-. vm_compute. reflexivity.
  - exact (proj1 (proj2 (proj2 (predict_stroke_memoizes (fun _ => true) stored_collection
                (fun _ => Predictor.PickledNone) None
                "65f0c0ffee0123456789abcd" Spec.profile_without_bmi
                ltac:(discriminate) eq_refl eq_refl profile_nonempty) eq_refl eq_refl))
             (fun _ => Predictor.Missing) (or_introl eq_refl)).
Defined.

(** X19. Every view of the patients answers: none of [list_patients],
    [add_patient], [edit_patient], [delete] and [predict_stroke] raises,
    whatever the form, the identifier, the collection, the storage and the
    pipeline do; an exception of the driver or of the predictor always ends
    in a flash. *)
Theorem patient_views_never_raise (is_valid : value -> bool) (patients : collection)
    (fs : Predictor.storage) (g : option Predictor.StrokePredictor)
    (post : bool) (id : string) (form : gmap string string) :
  (exists r, list_patients patients = Returns r) /\
  (exists r, add_patient patients post form = Returns r) /\
  (exists r, edit_patient is_valid patients post id form = Returns r) /\
  (exists r, delete is_valid patients id = Returns r) /\
  (exists r, snd (predict_stroke is_valid patients fs g id) = Returns r).
Proof.
  split; [|split; [|split; [|split]]].
  - unfold list_patients, get_all_patients. destruct (find patients); cbn; eauto.
  - destruct post; [rewrite add_patient_post | cbn]; eauto.
  - unfold edit_patient. destruct (validate_object_id is_valid (PStr id)) as [ok msg].
    destruct (negb ok); [eauto|]. rewrite get_patient_returns. cbn [bind].
    destruct (no_patient _); [eauto|]. destruct post; [|eauto].
    rewrite validated_spec. destruct (first_error (verdicts form)); [eauto|].
    unfold update_patient. destruct (update_one patients id (document form)) as [c|e]; cbn.
    + destruct (c >? 0); eauto.
    + eauto.
  - unfold delete, validate_object_id.
    destruct (negb (truthy (PStr id))); [eauto|].
    destruct (negb (is_valid (PStr id))); [eauto|].
    cbn [negb]. rewrite delete_body. eauto.
  - unfold predict_stroke. destruct (validate_object_id is_valid (PStr id)) as [ok msg].
    destruct (negb ok); [cbn; eauto|]. rewrite get_patient_returns.
    destruct (no_patient _); [cbn; eauto|].
    destruct (Predictor.get_predictor g) as [global predictor].
    destruct (Predictor.predict fs predictor _) as [predictor' [[prediction probability]|e]];
      cbn [snd]; [eauto|].
    destruct (isinstance [FileNotFoundError] e); eauto.
Qed.

End RoutesFacts.

Module AuthFacts.
Import Py Forms Words Auth.

Lemma authenticate_spec (db : accounts) (name pass : string) :
  (forall u, credentials_match db name pass u -> authenticate db name pass = Returns (Some u)) /\
  ((forall u, ~ credentials_match db name pass u) -> authenticate db name pass = Returns None) /\
  (exists r, authenticate db name pass = Returns r).
Proof.
  unfold credentials_match, authenticate.
  destruct (select_by_username db name) as [[u|]|e] eqn:Hrow; cbn.
  - destruct (check_password_hash db (password u) pass) as [[|]|e] eqn:Hcheck; cbn.
    + split; [intros u' [H _]; congruence|]. split; [|eauto].
      intros H. exfalso. apply (H u). auto.
    + split; [intros u' [H H']; injection H as <-; congruence|]. split; eauto.
    + split; [intros u' [H H']; injection H as <-; congruence|]. split; eauto.
  - split; [intros u' [H _]; discriminate|]. split; eauto.
  - split; [intros u' [H _]; discriminate|]. split; eauto.
Qed.

(** X20. [login]. A visitor who is logged in already is sent to the patients
    without any check, on GET and on POST; a GET of anybody else shows the
    form. A POST strips the user name, not the password, and validates
    both; the first failing check decides the flash, the user name's first:
    "Username is required", "Username must be at least 3 characters long",
    "Password is required", "Password must be at least 6 characters long"
    or "Password is too long"; no account is consulted then. With both
    valid it logs the user in exactly when the table has a row of that name
    whose hash matches the password; in every other case (no such user,
    wrong password, a failure of the data base or of the hashing) it gives
    the one message "Invalid username or password" and logs nobody in. *)
Theorem login_spec (db : accounts) (post : bool) (form : gmap string string) :
  login db true post form = Returns (respond [] (Goto "/patients")) /\
  login db false false form = Returns (respond [] (Page "login.html")) /\
  (3 <= chars (str_strip (Routes.form_get form "username")) ->
   6 <= chars (Routes.form_get form "password") <= 100 ->
   (forall u,
      credentials_match db (str_strip (Routes.form_get form "username"))
        (Routes.form_get form "password") u ->
      login db false true form =
      Returns {| flashed := [("Login successful!", "success")];
                 shown := Goto "/patients"; logged_in := Some u |}) /\
   ((forall u, ~ credentials_match db (str_strip (Routes.form_get form "username"))
                   (Routes.form_get form "password") u) ->
    login db false true form =
    Returns (respond [("Invalid username or password", "danger")] (Page "login.html")))) /\
  (~ (3 <= chars (str_strip (Routes.form_get form "username")) /\
      6 <= chars (Routes.form_get form "password") <= 100) ->
   forall db', login db' false true form = login db false true form) /\
  (chars (str_strip (Routes.form_get form "username")) = 0 ->
   login db false true form
   = Returns (respond [("Username is required", "danger")] (Page "login.html"))) /\
  (1 <= chars (str_strip (Routes.form_get form "username")) < 3 ->
   login db false true form
   = Returns (respond [("Username must be at least 3 characters long", "danger")]
                (Page "login.html"))) /\
  (3 <= chars (str_strip (Routes.form_get form "username")) ->
   chars (Routes.form_get form "password") = 0 ->
   login db false true form
   = Returns (respond [("Password is required", "danger")] (Page "login.html"))) /\
  (3 <= chars (str_strip (Routes.form_get form "username")) ->
   1 <= chars (Routes.form_get form "password") < 6 ->
   login db false true form
   = Returns (respond [("Password must be at least 6 characters long", "danger")]
                (Page "login.html"))) /\
  (3 <= chars (str_strip (Routes.form_get form "username")) ->
   100 < chars (Routes.form_get form "password") ->
   login db false true form
   = Returns (respond [("Password is too long", "danger")] (Page "login.html"))).
Proof.
  assert (Hform : forall db', login db' false true form =
            let name := str_strip (Routes.form_get form "username") in
            let pass := Routes.form_get form "password" in
            if chars name =? 0
            then Returns (respond [("Username is required", "danger")] (Page "login.html"))
            else if chars name <? 3
            then Returns (respond [("Username must be at least 3 characters long", "danger")]
                            (Page "login.html"))
            else if chars pass =? 0
            then Returns (respond [("Password is required", "danger")] (Page "login.html"))
            else if chars pass <? 6
            then Returns (respond [("Password must be at least 6 characters long", "danger")]
                            (Page "login.html"))
            else if 100 <? chars pass
            then Returns (respond [("Password is too long", "danger")] (Page "login.html"))
            else
              let! user := authenticate db' name pass in
              match user with
              | Some u =>
                  Returns {| flashed := [("Login successful!", "success")];
                             shown := Goto "/patients"; logged_in := Some u |}
              | None =>
                  Returns (respond [("Invalid username or password", "danger")]
                             (Page "login.html"))
              end).
  { intros db'. unfold login. cbv zeta.
    rewrite FormsFacts.validate_username_text, FormsFacts.validate_password_text.
    cbn [bind]. rewrite Z.gtb_ltb.
    destruct (chars (str_strip (Routes.form_get form "username")) =? 0),
      (chars (str_strip (Routes.form_get form "username")) <? 3),
      (chars (Routes.form_get form "password") =? 0),
      (chars (Routes.form_get form "password") <? 6),
      (100 <? chars (Routes.form_get form "password")); reflexivity. }
  split; [destruct post; reflexivity|]. split; [reflexivity|].
  split; [|split; [|split; [|split; [|split; [|split]]]]].
  - intros Hu Hp. unfold login.
    rewrite (FormsFacts.valid_username _ Hu), (FormsFacts.valid_password _ Hp).
    cbn [bind negb]. destruct (authenticate_spec db (str_strip (Routes.form_get form "username"))
                                 (Routes.form_get form "password")) as (Hyes & Hno & _).
    split.
    + intros u Hm. rewrite (Hyes u Hm). reflexivity.
    + intros Hnone. rewrite (Hno Hnone). reflexivity.
  - intros Hbad db'. rewrite !Hform. cbv zeta.
    destruct (Z.eqb_spec (chars (str_strip (Routes.form_get form "username"))) 0);
      [reflexivity|].
    destruct (Z.ltb_spec (chars (str_strip (Routes.form_get form "username"))) 3);
      [reflexivity|].
    destruct (Z.eqb_spec (chars (Routes.form_get form "password")) 0); [reflexivity|].
    destruct (Z.ltb_spec (chars (Routes.form_get form "password")) 6); [reflexivity|].
    destruct (Z.ltb_spec 100 (chars (Routes.form_get form "password"))); [reflexivity|].
    exfalso. apply Hbad. lia.
  - intros H0. rewrite Hform. cbv zeta. rewrite H0. reflexivity.
  - intros Hn. rewrite Hform. cbv zeta.
    destruct (Z.eqb_spec (chars (str_strip (Routes.form_get form "username"))) 0); [lia|].
    destruct (Z.ltb_spec (chars (str_strip (Routes.form_get form "username"))) 3); [|lia].
    reflexivity.
  - intros Hn Hp. rewrite Hform. cbv zeta.
    destruct (Z.eqb_spec (chars (str_strip (Routes.form_get form "username"))) 0); [lia|].
    destruct (Z.ltb_spec (chars (str_strip (Routes.form_get form "username"))) 3); [lia|].
    rewrite Hp. reflexivity.
  - intros Hn Hp. rewrite Hform. cbv zeta.
    destruct (Z.eqb_spec (chars (str_strip (Routes.form_get form "username"))) 0); [lia|].
    destruct (Z.ltb_spec (chars (str_strip (Routes.form_get form "username"))) 3); [lia|].
    destruct (Z.eqb_spec (chars (Routes.form_get form "password")) 0); [lia|].
    destruct (Z.ltb_spec (chars (Routes.form_get form "password")) 6); [|lia].
    reflexivity.
  - intros Hn Hp. rewrite Hform. cbv zeta.
    destruct (Z.eqb_spec (chars (str_strip (Routes.form_get form "username"))) 0); [lia|].
    destruct (Z.ltb_spec (chars (str_strip (Routes.form_get form "username"))) 3); [lia|].
    destruct (Z.eqb_spec (chars (Routes.form_get form "password")) 0); [lia|].
    destruct (Z.ltb_spec (chars (Routes.form_get form "password")) 6); [lia|].
    destruct (Z.ltb_spec 100 (chars (Routes.form_get form "password"))); [|lia].
    reflexivity.
Qed.

(** Witness: alice with her password, with a wrong one, an unknown user,
    and a name of two characters once stripped. *)
Lemma login_spec_witness :
  login one_account false true (credentials " alice " "wonderland")
  = Returns {| flashed := [("Login successful!", "success")]; shown := Goto "/patients";
               logged_in := Some {| id := 1; username := "alice";
                                    password := "<wonderland>" |} |} /\
  login one_account false true (credentials "alice" "looking-glass")
  = Returns (respond [("Invalid username or password", "danger")] (Page "login.html")) /\
  login one_account false true (credentials "bob" "wonderland")
  = Returns (respond [("Invalid username or password", "danger")] (Page "login.html")) /\
  login one_account false true (credentials " al " "wonderland")
  = Returns (respond [("Username must be at least 3 characters long", "danger")]
               (Page "login.html")).
Proof.
  split; [|split; [|split]].
  - apply (proj1 (proj2 (proj2 (login_spec one_account true
                                  (credentials " alice " "wonderland"))))).
    + vm_compute. discriminate.
    + vm_compute. split; discriminate.
    + split; reflexivity.
  - apply (proj1 (proj2 (proj2 (login_spec one_account true
                                  (credentials "alice" "looking-glass"))))).
    + vm_compute. discriminate.
    + vm_compute. split; discriminate.
    + intros u [Hrow Hcheck]. vm_compute in Hrow. injection Hrow as <-.
      vm_compute in Hcheck. discriminate Hcheck.
  - apply (proj1 (proj2 (proj2 (login_spec one_account true
                                  (credentials "bob" "wonderland"))))).
    + vm_compute. discriminate.
    + vm_compute. split; discriminate.
    + intros u [Hrow _]. vm_compute in Hrow. discriminate Hrow.
  - apply (proj1 (proj2 (proj2 (proj2 (proj2 (proj2 (login_spec one_account true
                                                        (credentials " al " "wonderland")))))))).
    vm_compute. split; [discriminate | reflexivity].
Defined.

(** X21. [register] with a name of at least 3 characters (after stripping) and a
    password of 6 to 100. It refuses with "Username already exists. Please
    choose another." when the look-up finds the name, and then neither
    hashes nor inserts. Otherwise, also when the look-up itself failed, it
    hashes the password and inserts the row: success sends to the login
    page, any exception of the hashing or of the insert (a name taken in the
    meantime included) gives "Error creating account. Please try again.". It
    never raises and never logs anybody in. *)
Theorem register_spec (db : accounts) (form : gmap string string) :
  3 <= chars (str_strip (Routes.form_get form "username")) ->
  6 <= chars (Routes.form_get form "password") <= 100 ->
  register db false true form =
  Returns
    (respond
       match select_id db (str_strip (Routes.form_get form "username")) with
       | Returns (Some _) =>
           [("Username already exists. Please choose another.", "danger")]
       | _ =>
           match generate_password_hash db (Routes.form_get form "password") with
           | Returns hashed =>
               match insert_user db (str_strip (Routes.form_get form "username")) hashed with
               | Returns _ => [("Account created successfully! Please login.", "success")]
               | Raises _ => [("Error creating account. Please try again.", "danger")]
               end
           | Raises _ => [("Error creating account. Please try again.", "danger")]
           end
       end
       match select_id db (str_strip (Routes.form_get form "username")) with
       | Returns (Some _) => Page "register.html"
       | _ =>
           match generate_password_hash db (Routes.form_get form "password") with
           | Returns hashed =>
               match insert_user db (str_strip (Routes.form_get form "username")) hashed with
               | Returns _ => Goto "/auth/login"
               | Raises _ => Page "register.html"
               end
           | Raises _ => Page "register.html"
           end
       end).
Proof.
  intros Hu Hp. unfold register.
  rewrite (FormsFacts.valid_username _ Hu), (FormsFacts.valid_password _ Hp).
  cbn [bind negb]. unfold username_exists, create.
  destruct (select_id db (str_strip (Routes.form_get form "username"))) as [[i|]|e]; cbn;
    try reflexivity;
    (destruct (generate_password_hash db (Routes.form_get form "password")) as [h|e']; cbn;
     [destruct (insert_user db (str_strip (Routes.form_get form "username")) h) as [[]|e'']; cbn;
      [reflexivity|]|]);
    repeat match goal with
           | |- context [issubclass ?a ?b] => destruct (issubclass a b)
           end; reflexivity.
Qed.

(** Witness: the name alice is taken, the name bob is free. *)
Lemma register_spec_witness :
  register one_account false true (credentials "alice" "wonderland")
  = Returns (respond [("Username already exists. Please choose another.", "danger")]
               (Page "register.html")) /\
  register one_account false true (credentials "bob" "builder")
  = Returns (respond [("Account created successfully! Please login.", "success")]
               (Goto "/auth/login")).
Proof.
  split.
  - rewrite (register_spec one_account (credentials "alice" "wonderland")).
    + reflexivity.
    + vm_compute. discriminate.
    + vm_compute. split; discriminate.
  - rewrite (register_spec one_account (credentials "bob" "builder")).
    + reflexivity.
    + vm_compute. discriminate.
    + vm_compute. split; discriminate.
Defined.

End AuthFacts.
